(** * Productivity Guard: the dnsmasq blocklist manager

    A shallow embedding of [backend/blocklist.py] (classes [ActiveUnblock]
    and [BlocklistManager]) and the properties of its grant lifecycle:
    temporary unblocks, www/non-www aliasing, expiry timers and the
    [blocked_hosts] file that is rewritten after every change.

    Modelling conventions.
    - A Python [str] is a [string] of its UTF-8 bytes.  Byte-wise
      lexicographic order on UTF-8 coincides with Python's code point order,
      and the only slicing in the source ([domain[4:]]) cuts after the four
      ASCII characters of ["www."].
    - A [datetime] is the number of microseconds since [datetime.min]; a
      [timedelta] is a number of microseconds.  Both raise [OverflowError]
      outside their range, which is kept.
    - [set] is [gset string], [dict] is [gmap].  Python iterates a [set] of
      strings in a hash-dependent order and a [dict] in insertion order; the
      loops of the source are folds whose result does not depend on that
      order, except for the order of the callbacks and of the status list.
      There the model has the order of [elements] and [map_to_list], as
      arbitrary as Python's, and the statements rely on membership and
      counting only.
    - [ActiveUnblock] objects are shared between several keys of
      [active_unblocks] and mutated after insertion ([timer_task]); they live
      in an object store [objects], the dictionary holds references.
    - An [asyncio.Task] running [_reblock_after] is a record in [tasks]; its
      resumption after [asyncio.sleep] is the call [TimerFires].  The event
      loop is single-threaded and no method of the manager suspends before it
      has finished its mutations ([subprocess.run] blocks), so each public
      method and each timer body up to its callbacks is one atomic step.
    - The outside world (clock readings, results of [subprocess.run], what
      the reblock callback does) is an input [world] of every step; what the
      manager does to the outside is appended to the [effects] log.  Of the
      logging calls, those at levels error and warning are kept;
      [logger.info] and [logger.debug] are not modelled.
    - Exceptions.  A method returns a value or raises, with the state as it
      is at that point.  Kept are the [OverflowError] of the date
      arithmetic, the [UnicodeDecodeError] of [proc.stderr.decode()] in
      [_write_blocklist] and [_signal_dnsmasq] (the [try] there catches
      [TimeoutExpired] only), whatever the reblock callback raises, and the
      [KeyError] of [device_info["name"]] in [main.py].  [subprocess.run]
      itself either completes or times out: [sudo], [tee] and [pkill] are
      taken to be installed. *)

From Stdlib Require Import ZArith Lia.
From Stdlib.Strings Require Import Byte.
From stdpp Require Import gmap strings list fin_maps sorting.

Local Open Scope Z_scope.

(** ** Strings *)

Definition LF : string := String (Ascii.ascii_of_nat 10) "".

(** [s[n:]] *)
Fixpoint string_drop (n : nat) (s : string) : string :=
  match n, s with
  | O, _ => s
  | S n', String _ s' => string_drop n' s'
  | S _, EmptyString => EmptyString
  end.

(** [s.startswith(p)] *)
Definition startswith (s p : string) : bool := String.prefix p s.

(** ["".join(lines)] *)
Definition join (lines : list string) : string :=
  foldr String.append EmptyString lines.

(** [sorted(X)] for a set of strings. *)
Definition sorted (X : gset string) : list string :=
  merge_sort String.le (elements X).

(** ** Bytes *)

Definition continuation (b : Z) : bool := (128 <=? b) && (b <=? 191).

(** The second byte of a three-byte sequence: no overlong forms after
    [0xE0], no surrogates after [0xED]. *)
Definition second_of_three (b0 b1 : Z) : bool :=
  if b0 =? 224 then (160 <=? b1) && (b1 <=? 191)
  else if b0 =? 237 then (128 <=? b1) && (b1 <=? 159)
  else continuation b1.

(** The second byte of a four-byte sequence: no overlong forms after
    [0xF0], nothing beyond U+10FFFF after [0xF4]. *)
Definition second_of_four (b0 b1 : Z) : bool :=
  if b0 =? 240 then (144 <=? b1) && (b1 <=? 191)
  else if b0 =? 244 then (128 <=? b1) && (b1 <=? 143)
  else continuation b1.

(** Well-formed UTF-8, as the strict decoder of Python accepts it. *)
Fixpoint utf8_valid (bs : list Z) : bool :=
  match bs with
  | [] => true
  | b0 :: bs1 =>
      if b0 <? 128 then utf8_valid bs1
      else
        match bs1 with
        | [] => false
        | b1 :: bs2 =>
            if (194 <=? b0) && (b0 <=? 223)
            then continuation b1 && utf8_valid bs2
            else
              match bs2 with
              | [] => false
              | b2 :: bs3 =>
                  if (224 <=? b0) && (b0 <=? 239)
                  then second_of_three b0 b1 && continuation b2
                       && utf8_valid bs3
                  else
                    match bs3 with
                    | [] => false
                    | b3 :: bs4 =>
                        (240 <=? b0) && (b0 <=? 244) && second_of_four b0 b1
                        && continuation b2 && continuation b3
                        && utf8_valid bs4
                    end
              end
        end
  end.

(** [b.decode()]: [None] is [UnicodeDecodeError].  A [str] being the string
    of its UTF-8 bytes, decoding well-formed bytes keeps them. *)
Definition decode (b : list byte) : option string :=
  if utf8_valid (map (λ x, Z.of_N (Byte.to_N x)) b)
  then Some (String.string_of_list_byte b) else None.

(** ** Time *)

(** [datetime.max], 9999-12-31T23:59:59.999999. *)
Definition datetime_max : Z := 3652059 * 86400 * 1000000 - 1.

(** [timedelta(minutes=m)]: [OverflowError] when the normalised number of
    days exceeds 999999999 in magnitude. *)
Definition timedelta_minutes (m : Z) : option Z :=
  let days := m `div` 1440 in
  if decide (-999999999 ≤ days ∧ days ≤ 999999999)
  then Some (m * 60 * 1000000) else None.

(** [t + delta] on a [datetime]: [OverflowError] outside
    [datetime.min .. datetime.max]. *)
Definition datetime_add (t delta : Z) : option Z :=
  if decide (0 ≤ t + delta ∧ t + delta ≤ datetime_max)
  then Some (t + delta) else None.

(** ** The outside world *)

(** The exceptions that are raised and not handled. *)
Inductive exn :=
| OverflowError
| UnicodeDecodeError
| KeyError
| Other (name : string).  (* raised by the reblock callback *)

(** The result of one [subprocess.run(..., capture_output=True, timeout=5)];
    [stderr] is [bytes]. *)
Inductive CompletedProcess :=
| Completed (returncode : Z) (stderr : list byte)
| TimeoutExpired.

(** What one step reads from the outside. *)
Record world := {
  now_init : Z;                (* [datetime.now()] in [ActiveUnblock.__init__] *)
  now_write : Z;               (* [datetime.now()] in [_write_blocklist] *)
  run_tee : CompletedProcess;  (* [sudo tee <path>] *)
  run_pkill : CompletedProcess; (* [sudo pkill -HUP dnsmasq] *)
  run_callback : string → option exn
    (* [await self.on_reblock_callback(d)]: returns, or raises *)
}.

Inductive level := ERROR | WARNING.

(** What the manager does to the outside. *)
Inductive effect :=
| Tee (path content : string)      (* the file write *)
| Hup                              (* the reload signal *)
| Log (lvl : level) (msg : string) (* [logger.error] and [logger.warning] *)
| Reblocked (d : string).          (* [await on_reblock_callback(d)] *)

(** ** Data *)

Definition HOSTS_HEADER : string :=
  "# Managed by Productivity Guard — do not edit manually" +:+ LF.

Record ActiveUnblock := {
  domain : string;
  device_ip : string;
  device_name : option string;
  scope : option string;
  reason : string;
  unblocked_at : Z;
  expires_at : Z;
  timer_task : option nat
}.

(** [ActiveUnblock.__init__]; [None] is the [OverflowError] of the date
    arithmetic. *)
Definition ActiveUnblock_init (now : Z) (domain device_ip : string)
    (device_name scope : option string) (reason : string)
    (duration_minutes : Z) : option ActiveUnblock :=
  delta ← timedelta_minutes duration_minutes;
  expires ← datetime_add now delta;
  Some {| domain := domain; device_ip := device_ip;
          device_name := device_name; scope := scope; reason := reason;
          unblocked_at := now; expires_at := expires;
          timer_task := None |}.

Definition set_timer_task (t : nat) (u : ActiveUnblock) : ActiveUnblock :=
  {| domain := domain u; device_ip := device_ip u;
     device_name := device_name u; scope := scope u; reason := reason u;
     unblocked_at := unblocked_at u; expires_at := expires_at u;
     timer_task := Some t |}.

(** The life of the task created for [_reblock_after]: asleep (or not yet
    started), cancelled before its sleep returned, or done, its body having
    returned or raised. *)
Inductive task_state := Sleeping | Cancelled | Finished.

Record Task := {
  task_domains : gset string;  (* argument [domains] *)
  task_minutes : Z;            (* argument [minutes] *)
  status : task_state
}.

Definition set_status (s : task_state) (t : Task) : Task :=
  {| task_domains := task_domains t; task_minutes := task_minutes t;
     status := s |}.

(** The fields of [BlocklistManager] that are set in [__init__] and never
    assigned again. *)
Record config := {
  blocked_hosts_path : string;
  conditional_domains : gset string;
  always_blocked_domains : gset string;
  on_reblock_callback : bool   (* whether a callback was given *)
}.

Definition all_blocked_domains (self : config) : gset string :=
  conditional_domains self ∪ always_blocked_domains self.

(** The mutable part: the dictionary, the objects it refers to, the tasks of
    the event loop and the log of effects (oldest first). *)
Record state := {
  active_unblocks : gmap string nat;
  objects : list ActiveUnblock;
  tasks : list Task;
  effects : list effect
}.

Definition init : state :=
  {| active_unblocks := ∅; objects := []; tasks := []; effects := [] |}.

Definition with_active (a : gmap string nat) (st : state) : state :=
  {| active_unblocks := a; objects := objects st; tasks := tasks st;
     effects := effects st |}.

Definition with_objects (o : list ActiveUnblock) (st : state) : state :=
  {| active_unblocks := active_unblocks st; objects := o; tasks := tasks st;
     effects := effects st |}.

Definition with_tasks (t : list Task) (st : state) : state :=
  {| active_unblocks := active_unblocks st; objects := objects st; tasks := t;
     effects := effects st |}.

Definition emit (e : effect) (st : state) : state :=
  {| active_unblocks := active_unblocks st; objects := objects st;
     tasks := tasks st; effects := effects st ++ [e] |}.

(** [task.cancel()]: a task that has not resumed from its sleep never runs
    its body; cancelling a task that is done changes nothing. *)
Definition cancel_task (t : Task) : Task :=
  match status t with
  | Sleeping => set_status Cancelled t
  | _ => t
  end.

Definition cancel (t : nat) (st : state) : state :=
  with_tasks (alter cancel_task t (tasks st)) st.

(** [if unblock.timer_task: unblock.timer_task.cancel()] for the object
    behind reference [r]. *)
Definition cancel_timer_of (r : nat) (st : state) : state :=
  match objects st !! r with
  | Some unblock =>
      match timer_task unblock with
      | Some t => cancel t st
      | None => st
      end
  | None => st
  end.

(** ** The manager *)

(** The outcome of a call: a returned value or an exception. *)
Inductive outcome (A : Type) :=
| Returned (a : A)
| Raised (e : exn).
Arguments Returned {A} a.
Arguments Raised {A} e.

(** One statement after the other: an exception ends the caller, with the
    state as it is. *)
Definition bind {A B : Type} (m : state → outcome A * state)
    (k : A → state → outcome B * state) (st : state) : outcome B * state :=
  match m st with
  | (Returned a, st') => k a st'
  | (Raised e, st') => (Raised e, st')
  end.

Section Manager.
(** [datetime.isoformat], of the Python library. *)
Variable isoformat : Z → string.
Variable self : config.

Definition is_domain_unblocked (st : state) (domain : string) : bool :=
  bool_decide (domain ∈ dom (active_unblocks st)).

Definition _get_related_domains (domain : string) : gset string :=
  if startswith domain "www." then
    let base := string_drop 4 domain in
    if decide (base ∈ all_blocked_domains self) then {[base]} else ∅
  else
    let www := "www." +:+ domain in
    if decide (www ∈ all_blocked_domains self) then {[www]} else ∅.

(** The text built by [_write_blocklist]. *)
Definition blocklist_content (now : Z) (blocked : gset string) : string :=
  join (HOSTS_HEADER
        :: ("# Updated: " +:+ isoformat now +:+ LF)
        :: map (λ domain, "0.0.0.0 " +:+ domain +:+ LF) (sorted blocked)).

Definition _write_blocklist (w : world) (st : state) : outcome unit * state :=
  let unblocked := dom (active_unblocks st) in
  let blocked := all_blocked_domains self ∖ unblocked in
  let content := blocklist_content (now_write w) blocked in
  let st := emit (Tee (blocked_hosts_path self) content) st in
  match run_tee w with
  | Completed returncode stderr =>
      if decide (returncode ≠ 0) then
        match decode stderr with
        | Some msg =>
            (Returned (),
             emit (Log ERROR ("Failed to write blocklist: " +:+ msg)) st)
        | None => (Raised UnicodeDecodeError, st)
        end
      else (Returned (), st)
  | TimeoutExpired =>
      (Returned (), emit (Log ERROR "Timeout writing blocklist") st)
  end.

Definition _signal_dnsmasq (w : world) (st : state) : outcome unit * state :=
  let st := emit Hup st in
  match run_pkill w with
  | Completed returncode stderr =>
      if decide (returncode ≠ 0) then
        match decode stderr with
        | Some msg =>
            (Returned (),
             emit (Log ERROR ("Failed to signal dnsmasq: " +:+ msg)) st)
        | None => (Raised UnicodeDecodeError, st)
        end
      else (Returned (), st)
  | TimeoutExpired =>
      (Returned (), emit (Log ERROR "Timeout signaling dnsmasq") st)
  end.

Definition initialize (w : world) (st : state) : outcome unit * state :=
  bind (_write_blocklist w) (λ _, _signal_dnsmasq w) st.

Definition unblock_domain (w : world) (domain device_ip : string)
    (device_name scope : option string) (reason : string)
    (duration_minutes : Z) (st : state) : outcome bool * state :=
  if decide (domain ∈ always_blocked_domains self) then
    (Returned false,
     emit (Log WARNING
             ("Attempted to unblock always-blocked domain: " +:+ domain)) st)
  else if decide (domain ∉ conditional_domains self) then
    (Returned false,
     emit (Log WARNING
             ("Attempted to unblock unknown domain: " +:+ domain)) st)
  else
    (* If already unblocked, cancel the existing timer and extend *)
    let st :=
      match active_unblocks st !! domain with
      | Some existing => cancel_timer_of existing st
      | None => st
      end in
    let related_domains := _get_related_domains domain in
    let domains_to_unblock := {[domain]} ∪ related_domains in
    match ActiveUnblock_init (now_init w) domain device_ip device_name
            scope reason duration_minutes with
    | None => (Raised OverflowError, st)
    | Some unblock =>
        let r := length (objects st) in
        let st := with_objects (objects st ++ [unblock]) st in
        (* Track all related domains under the same unblock *)
        let st :=
          with_active
            (set_fold (λ d acc, <[d := r]> acc) (active_unblocks st)
               domains_to_unblock) st in
        bind (_write_blocklist w) (λ _,
        bind (_signal_dnsmasq w) (λ _ st,
          (* Schedule re-block *)
          let t := length (tasks st) in
          let st :=
            with_tasks
              (tasks st ++ [{| task_domains := domains_to_unblock;
                               task_minutes := duration_minutes;
                               status := Sleeping |}]) st in
          let st :=
            with_objects (alter (set_timer_task t) r (objects st)) st in
          (Returned true, st))) st
    end.

(** One iteration of the loop of [reblock_domain]. *)
Definition reblock_one (d : string) (st : state) : state :=
  match active_unblocks st !! d with
  | Some unblock =>
      cancel_timer_of unblock (with_active (delete d (active_unblocks st)) st)
  | None => st
  end.

Definition reblock_domain (w : world) (domain : string) (st : state)
    : outcome unit * state :=
  let related_domains := _get_related_domains domain in
  let domains_to_reblock := {[domain]} ∪ related_domains in
  let st := set_fold reblock_one st domains_to_reblock in
  bind (_write_blocklist w) (λ _, _signal_dnsmasq w) st.

Definition reblock_all (w : world) (st : state) : outcome unit * state :=
  let st :=
    map_fold (λ _ unblock acc, cancel_timer_of unblock acc) st
      (active_unblocks st) in
  let st := with_active ∅ st in
  bind (_write_blocklist w) (λ _, _signal_dnsmasq w) st.

(** The loop [for d in domains: await self.on_reblock_callback(d)]: an
    exception of the callback leaves the loop. *)
Fixpoint reblock_callbacks (w : world) (domains : list string) (st : state)
    : outcome unit * state :=
  match domains with
  | [] => (Returned (), st)
  | d :: domains' =>
      let st := emit (Reblocked d) st in
      match run_callback w d with
      | None => reblock_callbacks w domains' st
      | Some e => (Raised e, st)
      end
  end.

(** The body of [_reblock_after] once [asyncio.sleep] has returned.  A
    cancelled task gets [CancelledError] instead and does nothing; a task
    that is done does not run again.  An exception ends the task: nobody
    awaits it, so the exception goes nowhere. *)
Definition _reblock_after (w : world) (t : nat) (st : state)
    : outcome unit * state :=
  match tasks st !! t with
  | Some task =>
      match status task with
      | Sleeping =>
          let domains := task_domains task in
          let st :=
            with_active
              (set_fold (λ d acc, delete d acc) (active_unblocks st) domains)
              st in
          let res :=
            bind (_write_blocklist w) (λ _,
            bind (_signal_dnsmasq w) (λ _,
              if on_reblock_callback self
              then reblock_callbacks w (elements domains)
              else λ st, (Returned (), st))) st in
          (res.1,
           with_tasks (alter (set_status Finished) t (tasks res.2)) res.2)
      | _ => (Returned (), st)
      end
  | None => (Returned (), st)
  end.

(** The loop of [get_active_unblocks]; the result lists references into
    [objects]. *)
Definition get_active_unblocks_step (st : state)
    (acc : gset string * list nat) (item : string * nat)
    : gset string * list nat :=
  match objects st !! item.2 with
  | Some unblock =>
      if decide (domain unblock ∈ acc.1) then acc
      else ({[domain unblock]} ∪ acc.1, acc.2 ++ [item.2])
  | None => acc
  end.

Definition get_active_unblocks (st : state) : list nat :=
  (foldl (get_active_unblocks_step st) (∅, [])
     (map_to_list (active_unblocks st))).2.

(** ** Runs: calls of the public methods interleaved with timers firing *)

Inductive call :=
| Initialize (w : world)
| Unblock (w : world) (domain device_ip : string)
    (device_name scope : option string) (reason : string)
    (duration_minutes : Z)
| Reblock (w : world) (domain : string)
| ReblockAll (w : world)
| TimerFires (w : world) (t : nat).

(** The state after a call, whether it returned or raised. *)
Definition step (st : state) (c : call) : state :=
  match c with
  | Initialize w => (initialize w st).2
  | Unblock w domain device_ip device_name scope reason duration_minutes =>
      (unblock_domain w domain device_ip device_name scope reason
         duration_minutes st).2
  | Reblock w domain => (reblock_domain w domain st).2
  | ReblockAll w => (reblock_all w st).2
  | TimerFires w t => (_reblock_after w t st).2
  end.

Definition run (cs : list call) (st : state) : state := foldl step st cs.

Definition reachable (st : state) : Prop := ∃ cs, st = run cs init.
End Manager.

(** ** The callers in [main.py]

    The request handlers that drive the manager.  What they obtain from
    outside the process (the client address, the room reported by Home
    Assistant, the request count of the database, the decision of the
    gatekeeper) is an input; the row they hand to [db.log_request] is an
    output.  [extract_domain] rests on [urllib.parse.urlparse] and is a
    parameter.  A handler suspends at its calls to Home Assistant, the
    database and the gatekeeper, so [request_access] takes the set of
    force-blocked devices as it is at its first check and the manager as it
    is when the decision has arrived. *)

Module LLMDecision.
Record t := {
  approved : bool;
  scope : string;
  duration_minutes : Z;
  message : string
}.
End LLMDecision.

Module AccessRequest.
Record t := {
  url : string;
  reason : string;
  device_ip : option string
}.
End AccessRequest.

Module AccessResponse.
Record t := {
  approved : bool;
  scope : option string;
  duration_minutes : option Z;
  message : string;
  domain : option string
}.
End AccessResponse.

(** The arguments of one [db.log_request]. *)
Module LogRow.
Record t := {
  device_ip : string;
  device_name : option string;
  url : string;
  domain : string;
  reason : string;
  room : option string;
  approved : bool;
  scope : option string;
  duration_minutes : option Z;
  llm_message : string;
  request_number_today : Z
}.
End LogRow.

(** What [request_access] obtains from outside. *)
Record request_env := {
  client_host : string;         (* [request.client.host] *)
  room : option string;         (* [ha_client.get_device_room] *)
  request_count : Z;            (* [db.get_today_count] *)
  decision : LLMDecision.t;     (* [llm.evaluate_request] *)
  grant_world : world           (* what [unblock_domain] reads *)
}.

(** [s.lstrip(chars)]: drops the leading characters that occur in
    [chars]. *)
Fixpoint lstrip (chars : list Ascii.ascii) (s : string) : string :=
  match s with
  | EmptyString => EmptyString
  | String c s' => if bool_decide (c ∈ chars) then lstrip chars s' else s
  end.

(** [x or y] on an optional string: [None] and the empty string are
    falsy. *)
Definition str_or (x : option string) (y : string) : string :=
  match x with
  | Some s => if decide (s = EmptyString) then y else s
  | None => y
  end.

Section Main.
Variable isoformat : Z → string.
Variable self : config.
(** [extract_domain], through [urlparse]. *)
Variable extract_domain : string → string.
(** [ha_client.device_map]: per device address a dictionary with the keys
    [name], [type] and [bermuda_entity]. *)
Variable device_map : gmap string (gmap string string).

Definition domain_to_conditional (domain : string) : option string :=
  let conditional := conditional_domains self in
  if decide (domain ∈ conditional) then Some domain
  else if startswith domain "www." then
    let base := string_drop 4 domain in
    if decide (base ∈ conditional) then Some base else None
  else
    let www := "www." +:+ domain in
    if decide (www ∈ conditional) then Some www else None.

(** [HAClient.get_device_info] *)
Definition get_device_info (device_ip : string) : option (gmap string string) :=
  device_map !! device_ip.

Definition force_blocked_message : string :=
  "Your device is currently force-blocked (location restriction). Access denied.".

Definition permanently_blocked_message : string :=
  "This domain is permanently blocked. No exceptions.".

Definition not_managed_message : string :=
  "This domain is not in the managed blocklist.".

Definition denied (message domain : string) : AccessResponse.t :=
  {| AccessResponse.approved := false; AccessResponse.scope := None;
     AccessResponse.duration_minutes := None;
     AccessResponse.message := message;
     AccessResponse.domain := Some domain |}.

(** [device_info["name"] if device_info else None]: an absent or empty
    dictionary is falsy, a dictionary without the key raises [KeyError]. *)
Definition device_name_of (device_info : option (gmap string string))
    : outcome (option string) :=
  match device_info with
  | Some info =>
      if decide (info = ∅) then Returned None
      else match info !! "name" with
           | Some name => Returned (Some name)
           | None => Raised KeyError
           end
  | None => Returned None
  end.

Definition request_access (force_blocked_devices : gset string)
    (body : AccessRequest.t) (env : request_env) (st : state)
    : outcome (AccessResponse.t * list LogRow.t) * state :=
  let device_ip := str_or (AccessRequest.device_ip body) (client_host env) in
  let domain := extract_domain (AccessRequest.url body) in
  if decide (device_ip ∈ force_blocked_devices) then
    (Returned (denied force_blocked_message domain, []), st)
  else
    let not_conditional :=
      if decide (domain ∈ always_blocked_domains self
                 ∨ lstrip (String.list_ascii_of_string "www.") domain
                   ∈ always_blocked_domains self)
      then (Returned (denied permanently_blocked_message domain, []), st)
      else (Returned (denied not_managed_message domain, []), st) in
    match domain_to_conditional domain with
    | None => not_conditional
    | Some conditional_domain =>
      if decide (conditional_domain = EmptyString) then not_conditional
      else
        match device_name_of (get_device_info device_ip) with
        | Raised e => (Raised e, st)
        | Returned device_name =>
          let decision := decision env in
          let granted :=
            if LLMDecision.approved decision then
              unblock_domain isoformat self (grant_world env)
                conditional_domain device_ip device_name
                (Some (LLMDecision.scope decision))
                (AccessRequest.reason body)
                (LLMDecision.duration_minutes decision) st
            else (Returned false, st) in
          match granted.1 with
          | Raised e => (Raised e, granted.2)
          | Returned success =>
            let approved := LLMDecision.approved decision && success in
            let message :=
              if LLMDecision.approved decision && negb success
              then "Failed to unblock domain at DNS level. "
                   +:+ LLMDecision.message decision
              else LLMDecision.message decision in
            let scope :=
              if approved then Some (LLMDecision.scope decision) else None in
            let duration_minutes :=
              if approved then Some (LLMDecision.duration_minutes decision)
              else None in
            (Returned
               ({| AccessResponse.approved := approved;
                   AccessResponse.scope := scope;
                   AccessResponse.duration_minutes := duration_minutes;
                   AccessResponse.message := message;
                   AccessResponse.domain := Some domain |},
                [{| LogRow.device_ip := device_ip;
                    LogRow.device_name := device_name;
                    LogRow.url := AccessRequest.url body;
                    LogRow.domain := domain;
                    LogRow.reason := AccessRequest.reason body;
                    LogRow.room := room env;
                    LogRow.approved := approved;
                    LogRow.scope := scope;
                    LogRow.duration_minutes := duration_minutes;
                    LogRow.llm_message := message;
                    LogRow.request_number_today := request_count env + 1 |}]),
             granted.2)
          end
        end
    end.

(** The module-level state of [main.py]: the manager and the set
    [force_blocked_devices]. *)
Record server := {
  manager : state;
  force_blocked_devices : gset string
}.

(** One iteration of the loop of [force_block_device] over the snapshot
    [list(blocklist.active_unblocks.items())]; [worlds] gives what the call
    of [reblock_domain] for a key reads. *)
Definition force_block_step (worlds : string → world) (blocked_ip : string)
    (acc : outcome unit * state) (item : string * nat)
    : outcome unit * state :=
  match acc.1 with
  | Returned _ =>
      match objects acc.2 !! item.2 with
      | Some unblock =>
          if decide (device_ip unblock = blocked_ip)
          then reblock_domain isoformat self (worlds item.1) item.1 acc.2
          else acc
      | None => acc
      end
  | Raised _ => acc   (* an exception of [reblock_domain] leaves the loop *)
  end.

Definition force_block_device (worlds : string → world) (blocked_ip : string)
    (sv : server) : outcome unit * server :=
  let res :=
    foldl (force_block_step worlds blocked_ip) (Returned (), manager sv)
      (map_to_list (active_unblocks (manager sv))) in
  (res.1,
   {| manager := res.2;
      force_blocked_devices := {[blocked_ip]} ∪ force_blocked_devices sv |}).

Definition force_unblock_device (blocked_ip : string) (sv : server) : server :=
  {| manager := manager sv;
     force_blocked_devices := force_blocked_devices sv ∖ {[blocked_ip]} |}.
End Main.

(** ** Vocabulary of the statements *)

(** The alias class of a domain: what [unblock_domain] and [reblock_domain]
    call [domains_to_unblock] and [domains_to_reblock]. *)
Definition alias_class (self : config) (d : string) : gset string :=
  {[d]} ∪ _get_related_domains self d.

Definition failed (p : CompletedProcess) : bool :=
  match p with
  | Completed returncode _ => bool_decide (returncode ≠ 0)
  | TimeoutExpired => true
  end.

(** A process that exited with a status other than 0 and whose [stderr] is
    not UTF-8: logging its failure raises [UnicodeDecodeError]. *)
Definition undecodable (p : CompletedProcess) : bool :=
  match p with
  | Completed returncode stderr =>
      if decide (returncode ≠ 0)
      then match decode stderr with Some _ => false | None => true end
      else false
  | TimeoutExpired => false
  end.

(** Whether [_write_blocklist] followed by [_signal_dnsmasq] raises. *)
Definition sync_raises (w : world) : bool :=
  undecodable (run_tee w) || undecodable (run_pkill w).

Definition sync_outcome (w : world) : outcome unit :=
  if sync_raises w then Raised UnicodeDecodeError else Returned ().

(** The world that a call reads. *)
Definition world_of (c : call) : world :=
  match c with
  | Initialize w | Unblock w _ _ _ _ _ _ | Reblock w _ | ReblockAll w
  | TimerFires w _ => w
  end.

Definition tee_errors (w : world) : list effect :=
  match run_tee w with
  | Completed returncode stderr =>
      if decide (returncode ≠ 0) then
        match decode stderr with
        | Some msg => [Log ERROR ("Failed to write blocklist: " +:+ msg)]
        | None => []
        end
      else []
  | TimeoutExpired => [Log ERROR "Timeout writing blocklist"]
  end.

Definition pkill_errors (w : world) : list effect :=
  match run_pkill w with
  | Completed returncode stderr =>
      if decide (returncode ≠ 0) then
        match decode stderr with
        | Some msg => [Log ERROR ("Failed to signal dnsmasq: " +:+ msg)]
        | None => []
        end
      else []
  | TimeoutExpired => [Log ERROR "Timeout signaling dnsmasq"]
  end.

(** The effects of [_write_blocklist] followed by [_signal_dnsmasq] when the
    dictionary is [a]: no signal is sent when the write raised. *)
Definition sync_effects (isoformat : Z → string) (self : config) (w : world)
    (a : gmap string nat) : list effect :=
  Tee (blocked_hosts_path self)
      (blocklist_content isoformat (now_write w)
         (all_blocked_domains self ∖ dom a))
  :: tee_errors w
     ++ (if undecodable (run_tee w) then [] else Hup :: pkill_errors w).

Arguments sync_effects : simpl never.

(** The domains that the loop over the callback reaches: all of them, or
    those up to the first one at which the callback raises. *)
Fixpoint called (w : world) (domains : list string) : list string :=
  match domains with
  | [] => []
  | d :: domains' =>
      d :: match run_callback w d with
           | None => called w domains'
           | Some _ => []
           end
  end.

(** What a sleeping timer hands to the callback when it fires. *)
Definition expiry_events (self : config) (w : world) (domains : gset string)
    : list string :=
  if sync_raises w then []
  else if on_reblock_callback self then called w (elements domains) else [].

(** The export in the words of the specification: a text of lines, the
    first one the management banner, the second one the time of the write,
    then one line for each blocked domain. *)
Definition banner : string :=
  "# Managed by Productivity Guard — do not edit manually".

(** The text made of the given lines, each one ended by a line feed. *)
Fixpoint text_of_lines (lines : list string) : string :=
  match lines with
  | [] => EmptyString
  | line :: lines' => line +:+ LF +:+ text_of_lines lines'
  end.

Definition export_lines (timestamp : string) (domains : list string)
    : list string :=
  banner :: ("# Updated: " +:+ timestamp)
  :: map (λ d, "0.0.0.0 " +:+ d) domains.

Definition is_Log (e : effect) : Prop :=
  match e with Log _ _ => True | _ => False end.

(** The domains handed to the reblock callback, in the order of the calls. *)
Definition reblock_events (l : list effect) : list string :=
  omap (λ e, match e with Reblocked d => Some d | _ => None end) l.

(** The number of reload signals sent. *)
Definition hup_count (l : list effect) : nat :=
  length (omap (λ e, match e with Hup => Some () | _ => None end) l).

(** The contents of the files written, in order. *)
Definition tee_contents (l : list effect) : list string :=
  omap (λ e, match e with Tee _ c => Some c | _ => None end) l.

(** The step of [unblock_domain] that cancels the timer of the entry found
    under the requested spelling. *)
Definition cancel_existing (d : string) (st : state) : state :=
  match active_unblocks st !! d with
  | Some existing => cancel_timer_of existing st
  | None => st
  end.

(** How the task list may change when timers are cancelled: same tasks,
    a sleeping one may have become cancelled. *)
Definition cancelled_some (ts ts' : list Task) : Prop :=
  length ts' = length ts ∧
  ∀ i b, ts' !! i = Some b →
    ∃ a, ts !! i = Some a ∧ task_domains b = task_domains a
         ∧ task_minutes b = task_minutes a
         ∧ (status b = status a ∨ (status a = Sleeping ∧ status b = Cancelled)).

(** Timer [t] is the one of the entry for [d], and no other sleeping timer
    covers [d]. *)
Definition sole_timer (st : state) (d : string) (t : nat) : Prop :=
  (∃ r u, active_unblocks st !! d = Some r ∧ objects st !! r = Some u
          ∧ timer_task u = Some t)
  ∧ ∀ t' task, tasks st !! t' = Some task → status task = Sleeping →
               d ∈ task_domains task → t' = t.

(** Every entry of the dictionary refers to an object, and sits under a key
    of the alias class of the spelling that the object stores. *)
Definition well_keyed (self : config) (st : state) : Prop :=
  ∀ k r, active_unblocks st !! k = Some r →
    ∃ u, objects st !! r = Some u ∧ k ∈ alias_class self (domain u).


(** The state of the loop of [get_active_unblocks] after the items [seen_items]. *)
Definition status_loop_inv (st : state) (seen_items : list (string * nat))
    (acc : gset string * list nat) : Prop :=
  NoDup acc.2
  ∧ (∀ r, r ∈ acc.2 →
       ∃ u, objects st !! r = Some u ∧ domain u ∈ acc.1
            ∧ ∃ k, (k, r) ∈ seen_items)
  ∧ (∀ r1 r2 u1 u2, r1 ∈ acc.2 → r2 ∈ acc.2 →
       objects st !! r1 = Some u1 → objects st !! r2 = Some u2 →
       domain u1 = domain u2 → r1 = r2)
  ∧ (∀ k r u, (k, r) ∈ seen_items → objects st !! r = Some u →
       ∃ r' u', r' ∈ acc.2 ∧ objects st !! r' = Some u'
                ∧ domain u' = domain u).

(** Every task was created for the alias class of a conditional domain. *)
Definition tasks_for_classes (self : config) (st : state) : Prop :=
  ∀ t task, tasks st !! t = Some task →
    ∃ e, e ∈ conditional_domains self ∧ task_domains task = alias_class self e.

(** The sequence of timers firing, as calls. *)
Definition fires (fs : list (world * nat)) : list call :=
  map (λ f, TimerFires f.1 f.2) fs.

(** Every sleeping timer that covers [d] belongs to the object that the
    dictionary holds for [d]. *)
Definition owned (st : state) (d : string) : Prop :=
  ∀ t task,
    tasks st !! t = Some task → status task = Sleeping →
    d ∈ task_domains task →
    ∃ r u, active_unblocks st !! d = Some r ∧ objects st !! r = Some u ∧
           timer_task u = Some t.

(** No configured domain [www.y] has [www.www.y] configured as well, so that
    every configured domain lies in one alias class only. *)
Definition no_www_chain (self : config) : Prop :=
  ∀ y, y ∈ all_blocked_domains self → startswith y "www." = true →
       "www." +:+ y ∉ all_blocked_domains self.

(** ** Concrete inputs used in the examples below *)

Definition iso_example (_ : Z) : string := "2026-01-01T09:00:00".

Definition ok : CompletedProcess := Completed 0 [].

Definition calm (now : Z) : world :=
  {| now_init := now; now_write := now; run_tee := ok; run_pkill := ok;
     run_callback := λ _, None |}.

Definition youtube : config :=
  {| blocked_hosts_path := "/etc/dnsmasq.d/blocked_hosts";
     conditional_domains := {["youtube.com"; "www.youtube.com"]};
     always_blocked_domains := {["ads.example.com"]};
     on_reblock_callback := true |}.

Definition t0 : Z := 63900000000000000.

Definition minutes (n : Z) : Z := n * 60 * 1000000.

(** A world in which both the write and the reload signal fail. *)
Definition broken (now : Z) : world :=
  {| now_init := now; now_write := now;
     run_tee :=
       Completed 1 (String.list_byte_of_string "tee: permission denied");
     run_pkill := TimeoutExpired;
     run_callback := λ _, None |}.

(** A world in which the write fails and [stderr] is not UTF-8. *)
Definition garbled (now : Z) : world :=
  {| now_init := now; now_write := now;
     run_tee := Completed 1 [xff; xfe];
     run_pkill := ok;
     run_callback := λ _, None |}.


(** A conditional domain whose www variant is always blocked. *)
Definition pinned_www : config :=
  {| blocked_hosts_path := "/etc/dnsmasq.d/blocked_hosts";
     conditional_domains := {["example.com"]};
     always_blocked_domains := {["www.example.com"]};
     on_reblock_callback := false |}.

(** A configuration with a www-chain. *)
Definition chained : config :=
  {| blocked_hosts_path := "/etc/dnsmasq.d/blocked_hosts";
     conditional_domains := {["www.example.com"; "www.www.example.com"]};
     always_blocked_domains := ∅;
     on_reblock_callback := true |}.

Definition grant_youtube (w : world) (duration_minutes : Z) (st : state)
    : outcome bool * state :=
  unblock_domain iso_example youtube w "youtube.com" "10.0.0.2"
    (Some "laptop") (Some "/*") "watch a lecture" duration_minutes st.

Definition grant_chained (w : world) (domain : string) (duration_minutes : Z)
    (st : state) : outcome bool * state :=
  unblock_domain iso_example chained w domain "10.0.0.2" None None
    "reading" duration_minutes st.

(** [youtube.com] granted for 10 minutes, granted again for 30 minutes five
    minutes later. *)
Definition regrant_1 : outcome bool * state := grant_youtube (calm t0) 10 init.

Definition regrant_2 : outcome bool * state :=
  grant_youtube (calm (t0 + minutes 5)) 30 regrant_1.2.

(** In the chained configuration: [www.example.com] for 20 minutes, then
    [www.www.example.com] for 60, then [www.example.com] twice, for 10 and
    for 30 minutes. *)
Definition chain_1 : outcome bool * state :=
  grant_chained (calm t0) "www.example.com" 20 init.

Definition chain_2 : outcome bool * state :=
  grant_chained (calm (t0 + minutes 1)) "www.www.example.com" 60 chain_1.2.

Definition chain_3 : outcome bool * state :=
  grant_chained (calm (t0 + minutes 5)) "www.example.com" 10 chain_2.2.

Definition chain_4 : outcome bool * state :=
  grant_chained (calm (t0 + minutes 8)) "www.example.com" 30 chain_3.2.

(** In the chained configuration: [www.example.com] for 10 minutes, then
    [www.www.example.com] for 60, then [www.example.com] for 30; the first
    timer fires after its 10 minutes; [www.example.com] is granted once more,
    for 60 minutes. *)
Definition orphan_1 : outcome bool * state :=
  grant_chained (calm t0) "www.example.com" 10 init.

Definition orphan_2 : outcome bool * state :=
  grant_chained (calm (t0 + minutes 1)) "www.www.example.com" 60 orphan_1.2.

Definition orphan_3 : outcome bool * state :=
  grant_chained (calm (t0 + minutes 5)) "www.example.com" 30 orphan_2.2.

Definition orphan_4 : state :=
  (_reblock_after iso_example chained (calm (t0 + minutes 10)) 0 orphan_3.2).2.

Definition orphan_5 : outcome bool * state :=
  grant_chained (calm (t0 + minutes 12)) "www.example.com" 60 orphan_4.



(** ** Vocabulary of the further properties *)

(** The date arithmetic of [ActiveUnblock.__init__] stays within the ranges
    of [timedelta] and [datetime]. *)
Definition representable (now duration_minutes : Z) : Prop :=
  (-999999999 ≤ duration_minutes `div` 1440
   ∧ duration_minutes `div` 1440 ≤ 999999999)
  ∧ (0 ≤ now + duration_minutes * 60 * 1000000
     ∧ now + duration_minutes * 60 * 1000000 ≤ datetime_max).

(** A grant that is too long for [timedelta]. *)
Definition overlong : Z := 10000000000000.

(** A step that rewrites the blocklist: [initialize], [reblock_domain] and
    [reblock_all] always do, [unblock_domain] when its argument is a
    conditional domain that is not always blocked and the expiry date is
    representable, a timer when its task is asleep. *)
Definition syncs (self : config) (c : call) (st : state) : Prop :=
  match c with
  | Initialize _ | Reblock _ _ | ReblockAll _ => True
  | Unblock w domain _ _ _ _ duration_minutes =>
      (domain ∉ always_blocked_domains self)
      ∧ domain ∈ conditional_domains self
      ∧ representable (now_init w) duration_minutes
  | TimerFires _ t => ∃ a, tasks st !! t = Some a ∧ status a = Sleeping
  end.

(** An object either has no timer, or a timer created for the alias class
    of its domain whose duration accounts for [expires_at]. *)
Definition timer_sound (self : config) (st : state) (u : ActiveUnblock)
    : Prop :=
  match timer_task u with
  | None => True
  | Some t =>
      ∃ task, tasks st !! t = Some task
              ∧ task_domains task = alias_class self (domain u)
              ∧ expires_at u = unblocked_at u + task_minutes task * 60 * 1000000
  end.

(** What every entry of the dictionary of a reachable state looks like: its
    object stores a conditional domain that is not always blocked, the key
    is in the alias class of that domain, and the timer of the object, when
    it has one, is sound. *)
Definition entry_sound (self : config) (st : state) (k : string) (r : nat)
    : Prop :=
  ∃ u,
    objects st !! r = Some u
    ∧ k ∈ alias_class self (domain u)
    ∧ domain u ∈ conditional_domains self
    ∧ (domain u ∉ always_blocked_domains self)
    ∧ timer_sound self st u.

Definition entries_sound (self : config) (st : state) : Prop :=
  ∀ k r, active_unblocks st !! k = Some r → entry_sound self st k r.

(** Two entries whose objects store the same spelling share the object. *)
Definition one_object_per_spelling (st : state) : Prop :=
  ∀ k1 k2 r1 r2 u1 u2,
    active_unblocks st !! k1 = Some r1 → active_unblocks st !! k2 = Some r2 →
    objects st !! r1 = Some u1 → objects st !! r2 = Some u2 →
    domain u1 = domain u2 → r1 = r2.

(** Calls that revoke configured domains only. *)
Definition revokes_configured (self : config) (c : call) : Prop :=
  match c with
  | Reblock _ domain => domain ∈ all_blocked_domains self
  | _ => True
  end.

(** Calls during which no failed write or signal has a [stderr] that is
    not UTF-8. *)
Definition decodes (c : call) : Prop := sync_raises (world_of c) = false.

(** Calls whose grants have a representable expiry date. *)
Definition grants_representable (self : config) (c : call) : Prop :=
  match c with
  | Unblock w domain _ _ _ _ duration_minutes =>
      domain ∈ conditional_domains self →
      domain ∉ always_blocked_domains self →
      representable (now_init w) duration_minutes
  | _ => True
  end.

(** An object holds every key of the alias class of the spelling it
    stores. *)
Definition class_whole (self : config) (st : state) : Prop :=
  ∀ k r u, active_unblocks st !! k = Some r → objects st !! r = Some u →
    ∀ m, m ∈ alias_class self (domain u) → active_unblocks st !! m = Some r.

(** Objects and tasks are created together: the timer of the object at
    index [r] is the task at index [r]. *)
Definition timers_indexed (st : state) : Prop :=
  length (objects st) = length (tasks st)
  ∧ ∀ r u, objects st !! r = Some u → timer_task u = Some r.

(** The timer of every entry is asleep. *)
Definition all_live (st : state) : Prop :=
  ∀ k r, active_unblocks st !! k = Some r →
    ∃ task, tasks st !! r = Some task ∧ status task = Sleeping.

(** ** Further concrete inputs *)

(** [youtube.com] granted to the laptop for fifteen minutes. *)
Definition lecture_calls : list call :=
  [Unblock (calm t0) "youtube.com" "10.0.0.2" (Some "laptop") (Some "/*")
     "watch a lecture" 15].

Definition lecture : state := run iso_example youtube lecture_calls init.

Definition lecture_object : ActiveUnblock :=
  {| domain := "youtube.com"; device_ip := "10.0.0.2";
     device_name := Some "laptop"; scope := Some "/*";
     reason := "watch a lecture"; unblocked_at := t0;
     expires_at := t0 + minutes 15; timer_task := Some 0%nat |}.

Definition lecture_timer : Task :=
  {| task_domains := alias_class youtube "youtube.com"; task_minutes := 15;
     status := Sleeping |}.

(** The grant, a revocation through the other spelling, and a new grant. *)
Definition evening_calls : list call :=
  lecture_calls
  ++ [Reblock (calm (t0 + minutes 3)) "www.youtube.com";
      TimerFires (calm (t0 + minutes 15)) 0;
      Unblock (calm (t0 + minutes 20)) "www.youtube.com" "10.0.0.3"
        (Some "phone") (Some "/*") "music" 30].

(** A stand-in for [extract_domain] that finds [www.youtube.com]. *)
Definition extract_example (_ : string) : string := "www.youtube.com".

Definition devices_example : gmap string (gmap string string) :=
  {["10.0.0.2" := {["name" := "laptop"]}]}.

Definition laptop_request : AccessRequest.t :=
  {| AccessRequest.url := "https://www.youtube.com/watch?v=1";
     AccessRequest.reason := "watch a lecture";
     AccessRequest.device_ip := Some "10.0.0.2" |}.


Definition denying : request_env :=
  {| client_host := "10.0.0.9"; room := Some "office"; request_count := 2;
     decision := {| LLMDecision.approved := false; LLMDecision.scope := "/*";
                    LLMDecision.duration_minutes := 15;
                    LLMDecision.message := "Not now." |};
     grant_world := calm t0 |}.




Definition denied_response : AccessResponse.t :=
  {| AccessResponse.approved := false; AccessResponse.scope := None;
     AccessResponse.duration_minutes := None;
     AccessResponse.message := "Not now.";
     AccessResponse.domain := Some "www.youtube.com" |}.

Definition denied_row : LogRow.t :=
  {| LogRow.device_ip := "10.0.0.2"; LogRow.device_name := Some "laptop";
     LogRow.url := "https://www.youtube.com/watch?v=1";
     LogRow.domain := "www.youtube.com";
     LogRow.reason := "watch a lecture"; LogRow.room := Some "office";
     LogRow.approved := false; LogRow.scope := None;
     LogRow.duration_minutes := None;
     LogRow.llm_message := "Not now.";
     LogRow.request_number_today := 3 |}.

(** * Properties *)

Ltac effects_cases w :=
  unfold sync_effects, tee_errors, pkill_errors, undecodable;
  destruct (run_tee w) as [? e|], (run_pkill w) as [? e'|];
  repeat case_decide;
  try destruct (decode e); try destruct (decode e'); try reflexivity.

Section Basics.
Context (iso : Z → string) (self : config).

(** The state after [_write_blocklist] and [_signal_dnsmasq]. *)
Definition synced (w : world) (st : state) : state :=
  {| active_unblocks := active_unblocks st; objects := objects st;
     tasks := tasks st;
     effects := effects st ++ sync_effects iso self w (active_unblocks st) |}.

Ltac sync_cases w :=
  unfold bind, _signal_dnsmasq, _write_blocklist, synced, sync_effects,
    sync_outcome, sync_raises, undecodable, tee_errors, pkill_errors, emit;
  destruct (run_tee w) as [? e|], (run_pkill w) as [? e'|];
  repeat case_decide;
  try destruct (decode e); try destruct (decode e');
  cbn [fst snd andb orb active_unblocks objects tasks effects];
  rewrite <- ?app_assoc; cbn [app]; rewrite ?app_nil_r; try reflexivity.

(** The two calls in a row, and what follows them. *)
Lemma sync_then {B : Type} w (k : state → outcome B * state) st :
  bind (_write_blocklist iso self w) (λ _, bind (_signal_dnsmasq w) (λ _, k)) st
  = if sync_raises w then (Raised UnicodeDecodeError, synced w st)
    else k (synced w st).
Proof.
  sync_cases w.
Qed.

Lemma sync_spec w st :
  bind (_write_blocklist iso self w) (λ _, _signal_dnsmasq w) st
  = (sync_outcome w, synced w st).
Proof.
  sync_cases w.
Qed.

Lemma fold_insert_lookup (a : gmap string nat) (D : gset string) r k :
  set_fold (λ d acc, <[d := r]> acc) a D !! k
  = if decide (k ∈ D) then Some r else a !! k.
Proof.
  revert D k.
  refine (set_fold_ind_L (λ acc X, ∀ k,
    acc !! k = if decide (k ∈ X) then Some r else a !! k) _ _ _ _).
  - intros k. case_decide; [set_solver | done].
  - intros x X acc Hx IH k. rewrite lookup_insert.
    destruct (decide (x = k)) as [->|Hne].
    + rewrite decide_True; [done|].
      apply elem_of_union; left. by apply elem_of_singleton.
    + rewrite IH. destruct (decide (k ∈ X)) as [Hk|Hk].
      * rewrite decide_True by set_solver. done.
      * rewrite decide_False; [done|].
        rewrite elem_of_union, elem_of_singleton.
        intros [Heq|Hin]; [by apply Hne | by apply Hk].
Qed.

Lemma fold_delete_lookup (a : gmap string nat) (D : gset string) k :
  set_fold (λ d acc, delete d acc) a D !! k
  = if decide (k ∈ D) then None else a !! k.
Proof.
  revert D k.
  refine (set_fold_ind_L (λ acc X, ∀ k,
    acc !! k = if decide (k ∈ X) then None else a !! k) _ _ _ _).
  - intros k. case_decide; [set_solver | done].
  - intros x X acc Hx IH k. rewrite lookup_delete.
    destruct (decide (x = k)) as [->|Hne].
    + rewrite decide_True; [done|].
      apply elem_of_union; left. by apply elem_of_singleton.
    + rewrite IH. destruct (decide (k ∈ X)) as [Hk|Hk].
      * rewrite decide_True by set_solver. done.
      * rewrite decide_False; [done|].
        rewrite elem_of_union, elem_of_singleton.
        intros [Heq|Hin]; [by apply Hne | by apply Hk].
Qed.

Lemma is_domain_unblocked_true st d :
  is_domain_unblocked st d = true ↔ is_Some (active_unblocks st !! d).
Proof.
  unfold is_domain_unblocked. rewrite bool_decide_eq_true.
  apply elem_of_dom.
Qed.

Lemma is_domain_unblocked_false st d :
  is_domain_unblocked st d = false ↔ active_unblocks st !! d = None.
Proof.
  unfold is_domain_unblocked. rewrite bool_decide_eq_false.
  apply not_elem_of_dom.
Qed.

Lemma related_subset d : _get_related_domains self d ⊆ all_blocked_domains self.
Proof.
  unfold _get_related_domains.
  destruct (startswith d "www."); case_decide; set_solver.
Qed.

Lemma cancel_existing_fields d st :
  active_unblocks (cancel_existing d st) = active_unblocks st
  ∧ objects (cancel_existing d st) = objects st
  ∧ effects (cancel_existing d st) = effects st
  ∧ length (tasks (cancel_existing d st)) = length (tasks st).
Proof.
  unfold cancel_existing, cancel_timer_of, cancel.
  destruct (active_unblocks st !! d) as [r|]; [|done].
  destruct (objects st !! r) as [u|]; [|done].
  destruct (timer_task u); [|done].
  simpl. by rewrite length_alter.
Qed.

(** What a grant that passes the validation and the date arithmetic leaves
    behind, by whether the sync raised. *)
Lemma unblock_domain_granted w d ip nm sc rs dur st u :
  d ∉ always_blocked_domains self → d ∈ conditional_domains self →
  ActiveUnblock_init (now_init w) d ip nm sc rs dur = Some u →
  unblock_domain iso self w d ip nm sc rs dur st
  = let a := set_fold (λ k acc, <[k := length (objects st)]> acc)
               (active_unblocks st) (alias_class self d) in
    if sync_raises w then
      (Raised UnicodeDecodeError,
       {| active_unblocks := a; objects := objects st ++ [u];
          tasks := tasks (cancel_existing d st);
          effects := effects st ++ sync_effects iso self w a |})
    else
      (Returned true,
       {| active_unblocks := a;
          objects := objects st ++ [set_timer_task (length (tasks st)) u];
          tasks := tasks (cancel_existing d st)
                   ++ [{| task_domains := alias_class self d;
                          task_minutes := dur; status := Sleeping |}];
          effects := effects st ++ sync_effects iso self w a |}).
Proof.
  intros Hna Hc Hu. unfold unblock_domain. fold (cancel_existing d st).
  fold (alias_class self d).
  destruct (cancel_existing_fields d st) as (Ha & Ho & He & Hl).
  rewrite decide_False by done. rewrite decide_False by auto.
  rewrite Hu, sync_then. cbv zeta.
  destruct (sync_raises w); unfold synced, with_active, with_objects,
    with_tasks; cbn [active_unblocks objects tasks effects];
    rewrite ?Ha, ?Ho, ?He, ?Hl; [done|].
  rewrite alter_app_r_alt by lia. by rewrite Nat.sub_diag.
Qed.

Lemma unblock_domain_valid w d ip nm sc rs dur st res st' :
  unblock_domain iso self w d ip nm sc rs dur st = (res, st') →
  res = Returned true ∨ res = Raised UnicodeDecodeError →
  (d ∉ always_blocked_domains self) ∧ d ∈ conditional_domains self
  ∧ is_Some (ActiveUnblock_init (now_init w) d ip nm sc rs dur).
Proof.
  unfold unblock_domain. intros Hun Hres. revert Hun.
  destruct (decide (d ∈ always_blocked_domains self)) as [Ha|Ha].
  { intros [= <- _]. destruct Hres; discriminate. }
  destruct (decide (d ∉ conditional_domains self)) as [Hc|Hc].
  { intros [= <- _]. destruct Hres; discriminate. }
  apply dec_stable in Hc.
  destruct (ActiveUnblock_init _ _ _ _ _ _ _); [eauto|].
  intros [= <- _]. destruct Hres; discriminate.
Qed.

(** What a successful [unblock_domain] leaves behind. *)
Lemma unblock_domain_true_inv w d ip nm sc rs dur st st' :
  unblock_domain iso self w d ip nm sc rs dur st = (Returned true, st') →
  d ∈ conditional_domains self ∧ (d ∉ always_blocked_domains self) ∧
  (∃ u, ActiveUnblock_init (now_init w) d ip nm sc rs dur = Some u ∧
    (∀ k, active_unblocks st' !! k
          = if decide (k ∈ alias_class self d)
            then Some (length (objects st)) else active_unblocks st !! k) ∧
    objects st' = objects st ++ [set_timer_task (length (tasks st)) u] ∧
    tasks st' = tasks (cancel_existing d st)
                ++ [{| task_domains := alias_class self d;
                       task_minutes := dur; status := Sleeping |}] ∧
    effects st' = effects st ++ sync_effects iso self w (active_unblocks st')).
Proof.
  intros Hun.
  destruct (unblock_domain_valid _ _ _ _ _ _ _ _ _ _ Hun) as (Hna & Hc & [u Hu]);
    [auto|].
  rewrite (unblock_domain_granted w d ip nm sc rs dur st u Hna Hc Hu) in Hun.
  cbv zeta in Hun. destruct (sync_raises w); [discriminate Hun|].
  injection Hun as <-. cbn [active_unblocks objects tasks effects].
  split; [done|]. split; [done|].
  exists u. split; [done|].
  split; [intros k; apply fold_insert_lookup|]. done.
Qed.

Lemma unblock_domain_true_decodes w d ip nm sc rs dur st st' :
  unblock_domain iso self w d ip nm sc rs dur st = (Returned true, st') →
  sync_raises w = false.
Proof.
  intros Hun.
  destruct (unblock_domain_valid _ _ _ _ _ _ _ _ _ _ Hun) as (Hna & Hc & [u Hu]);
    [auto|].
  rewrite (unblock_domain_granted w d ip nm sc rs dur st u Hna Hc Hu) in Hun.
  cbv zeta in Hun. by destruct (sync_raises w).
Qed.

(** What an [unblock_domain] that raised [UnicodeDecodeError] leaves
    behind: the entries and the object, and no timer. *)
Lemma unblock_domain_decode_inv w d ip nm sc rs dur st st' :
  unblock_domain iso self w d ip nm sc rs dur st
  = (Raised UnicodeDecodeError, st') →
  d ∈ conditional_domains self ∧ (d ∉ always_blocked_domains self) ∧
  sync_raises w = true ∧
  (∃ u, ActiveUnblock_init (now_init w) d ip nm sc rs dur = Some u ∧
    (∀ k, active_unblocks st' !! k
          = if decide (k ∈ alias_class self d)
            then Some (length (objects st)) else active_unblocks st !! k) ∧
    objects st' = objects st ++ [u] ∧
    tasks st' = tasks (cancel_existing d st) ∧
    effects st' = effects st ++ sync_effects iso self w (active_unblocks st')).
Proof.
  intros Hun.
  destruct (unblock_domain_valid _ _ _ _ _ _ _ _ _ _ Hun) as (Hna & Hc & [u Hu]);
    [auto|].
  rewrite (unblock_domain_granted w d ip nm sc rs dur st u Hna Hc Hu) in Hun.
  cbv zeta in Hun. destruct (sync_raises w); [|discriminate Hun].
  injection Hun as <-. cbn [active_unblocks objects tasks effects].
  split; [done|]. split; [done|]. split; [done|].
  exists u. split; [done|].
  split; [intros k; apply fold_insert_lookup|]. done.
Qed.

(** The outcomes of [unblock_domain]. *)
Lemma unblock_domain_cases w d ip nm sc rs dur st :
  (∃ msg, unblock_domain iso self w d ip nm sc rs dur st
          = (Returned false, emit (Log WARNING msg) st))
  ∨ unblock_domain iso self w d ip nm sc rs dur st
    = (Raised OverflowError, cancel_existing d st)
  ∨ (∃ st', unblock_domain iso self w d ip nm sc rs dur st
            = (Returned true, st'))
  ∨ ∃ st', unblock_domain iso self w d ip nm sc rs dur st
           = (Raised UnicodeDecodeError, st').
Proof.
  destruct (decide (d ∈ always_blocked_domains self)) as [Ha|Ha].
  { left. unfold unblock_domain. rewrite decide_True by done. eauto. }
  destruct (decide (d ∉ conditional_domains self)) as [Hc|Hc].
  { left. unfold unblock_domain. rewrite decide_False by done.
    rewrite decide_True by done. eauto. }
  apply dec_stable in Hc.
  destruct (ActiveUnblock_init (now_init w) d ip nm sc rs dur) as [u|] eqn:Hu.
  - rewrite (unblock_domain_granted w d ip nm sc rs dur st u Ha Hc Hu).
    cbv zeta. destruct (sync_raises w); eauto.
  - right; left. unfold unblock_domain. fold (cancel_existing d st).
    rewrite decide_False by done. rewrite decide_False by auto.
    by rewrite Hu.
Qed.
End Basics.

Section Validation.
Context (iso : Z → string) (self : config).

(** C5. A grant for a domain outside the conditional set, always-blocked or
    unknown, returns [False] and changes nothing: the dictionary, the objects
    and the tasks are the same, and the only effect is one warning in the
    log, so no file is written, no signal is sent and no timer is created. *)
Theorem C5_rejected_grant_changes_nothing w d ip nm sc rs dur st :
  d ∉ conditional_domains self →
  (unblock_domain iso self w d ip nm sc rs dur st).1 = Returned false
  ∧ active_unblocks (unblock_domain iso self w d ip nm sc rs dur st).2
    = active_unblocks st
  ∧ objects (unblock_domain iso self w d ip nm sc rs dur st).2 = objects st
  ∧ tasks (unblock_domain iso self w d ip nm sc rs dur st).2 = tasks st
  ∧ ∃ msg, effects (unblock_domain iso self w d ip nm sc rs dur st).2
           = effects st ++ [Log WARNING msg].
Proof.
  intros Hd. unfold unblock_domain.
  destruct (decide (d ∈ always_blocked_domains self)) as [Ha|Ha]; simpl.
  - repeat split; eauto.
  - rewrite decide_True by done. simpl. repeat split; eauto.
Qed.

(** The date arithmetic of [ActiveUnblock.__init__]. *)
Lemma ActiveUnblock_init_Some now d ip nm sc rs dur u :
  ActiveUnblock_init now d ip nm sc rs dur = Some u →
  domain u = d ∧ unblocked_at u = now
  ∧ expires_at u = now + dur * 60 * 1000000 ∧ timer_task u = None.
Proof.
  unfold ActiveUnblock_init, timedelta_minutes, datetime_add.
  case_decide; simpl; [|intros [=]].
  case_decide; simpl; [|intros [=]].
  intros [= <-]. simpl. done.
Qed.


(** What a grant that got past the validation and the date arithmetic has
    stored, whether the sync then raised or not. *)
Lemma unblock_domain_stored w d ip nm sc rs dur st res st' :
  unblock_domain iso self w d ip nm sc rs dur st = (res, st') →
  res = Returned true ∨ res = Raised UnicodeDecodeError →
  d ∈ conditional_domains self ∧ (d ∉ always_blocked_domains self) ∧
  ∃ u new,
    objects st' = objects st ++ [u]
    ∧ domain u = d
    ∧ unblocked_at u = now_init w
    ∧ expires_at u = now_init w + dur * 60 * 1000000
    ∧ (∀ k, active_unblocks st' !! k
            = if decide (k ∈ alias_class self d)
              then Some (length (objects st)) else active_unblocks st !! k)
    ∧ tasks st' = tasks (cancel_existing d st) ++ new
    ∧ ((res = Returned true ∧ timer_task u = Some (length (tasks st))
        ∧ new = [{| task_domains := alias_class self d; task_minutes := dur;
                    status := Sleeping |}])
       ∨ (res = Raised UnicodeDecodeError ∧ timer_task u = None ∧ new = []))
    ∧ effects st' = effects st ++ sync_effects iso self w (active_unblocks st').
Proof.
  intros Hun Hres.
  destruct (unblock_domain_valid _ _ _ _ _ _ _ _ _ _ _ _ Hun Hres)
    as (Hna & Hc & [u Hu]).
  destruct (ActiveUnblock_init_Some _ _ _ _ _ _ _ _ Hu) as (Hd & Hat & He & Ht).
  rewrite (unblock_domain_granted iso self w d ip nm sc rs dur st u Hna Hc Hu)
    in Hun.
  cbv zeta in Hun. split; [done|]. split; [done|].
  destruct (sync_raises w); injection Hun as <- <-;
    cbn [active_unblocks objects tasks effects].
  - exists u, []. rewrite app_nil_r. split; [done|]. split; [done|].
    split; [done|]. split; [done|].
    split; [intros k; apply fold_insert_lookup|]. split; [done|].
    split; [|done]. right. done.
  - eexists _, _. split; [done|]. cbn [domain unblocked_at expires_at
      timer_task set_timer_task].
    split; [done|]. split; [done|]. split; [done|].
    split; [intros k; apply fold_insert_lookup|]. split; [done|].
    split; [|done]. left. done.
Qed.

(** The outcomes of [unblock_domain], the two that store a grant taken
    together. *)
Lemma unblock_domain_stores_or_not w d ip nm sc rs dur st :
  (∃ msg, unblock_domain iso self w d ip nm sc rs dur st
          = (Returned false, emit (Log WARNING msg) st))
  ∨ unblock_domain iso self w d ip nm sc rs dur st
    = (Raised OverflowError, cancel_existing d st)
  ∨ ∃ res st', unblock_domain iso self w d ip nm sc rs dur st = (res, st')
               ∧ (res = Returned true ∨ res = Raised UnicodeDecodeError).
Proof.
  destruct (unblock_domain_cases iso self w d ip nm sc rs dur st)
    as [H|[H|[[st' H]|[st' H]]]]; eauto 10.
Qed.
End Validation.

Section Timers.
Context (iso : Z → string) (self : config).

Lemma Task_eq (a b : Task) :
  task_domains a = task_domains b → task_minutes a = task_minutes b →
  status a = status b → a = b.
Proof. destruct a, b; simpl; intros; subst; reflexivity. Qed.

Lemma cancelled_some_refl ts : cancelled_some ts ts.
Proof. split; [done|]. intros i b Hb. exists b. auto. Qed.

Lemma cancelled_some_trans ts1 ts2 ts3 :
  cancelled_some ts1 ts2 → cancelled_some ts2 ts3 → cancelled_some ts1 ts3.
Proof.
  intros [L1 H1] [L2 H2]. split; [congruence|].
  intros i c Hc.
  destruct (H2 i c Hc) as (b & Hb & Hd & Hm & Hs).
  destruct (H1 i b Hb) as (a & Ha & Hd' & Hm' & Hs').
  exists a. repeat split; try congruence.
  destruct Hs as [Hs|[Hs1 Hs2]], Hs' as [Hs'|[Hs1' Hs2']];
    try (left; congruence); try (right; split; congruence).
Qed.

Lemma cancelled_some_sleeping ts ts' i b :
  cancelled_some ts ts' → ts' !! i = Some b → status b = Sleeping →
  ts !! i = Some b.
Proof.
  intros [_ H] Hb Hs. destruct (H i b Hb) as (a & Ha & Hd & Hm & Hst).
  rewrite Ha. f_equal. apply Task_eq; try done.
  destruct Hst as [?|[_ ?]]; congruence.
Qed.

Lemma cancelled_some_awake ts ts' i a :
  cancelled_some ts ts' → ts !! i = Some a → status a ≠ Sleeping →
  ts' !! i = Some a.
Proof.
  intros [L H] Ha Hs.
  destruct (ts' !! i) as [b|] eqn:Hb.
  - destruct (H i b Hb) as (a' & Ha' & Hd & Hm & Hst).
    assert (a' = a) as -> by congruence.
    f_equal. apply Task_eq; try done.
    destruct Hst as [?|[? _]]; [done|contradiction].
  - apply lookup_ge_None in Hb. apply lookup_lt_Some in Ha. lia.
Qed.

Lemma cancel_task_awake a : status (cancel_task a) ≠ Sleeping.
Proof. unfold cancel_task. destruct (status a) eqn:E; simpl; congruence. Qed.

Lemma cancel_lookup t st i :
  tasks (cancel t st) !! i
  = if decide (t = i) then cancel_task <$> tasks st !! t else tasks st !! i.
Proof. unfold cancel. simpl. apply list_lookup_alter. Qed.

Lemma cancel_cancelled_some t st : cancelled_some (tasks st) (tasks (cancel t st)).
Proof.
  split; [unfold cancel; simpl; apply length_alter|].
  intros i b. rewrite cancel_lookup. case_decide as E.
  - subst i. destruct (tasks st !! t) as [a|]; simpl; [|done].
    intros [= <-]. exists a. unfold cancel_task.
    destruct (status a) eqn:Es; simpl; rewrite ?Es; auto 10.
  - intros Hb. exists b. auto.
Qed.

Lemma cancel_timer_of_fields r st :
  active_unblocks (cancel_timer_of r st) = active_unblocks st
  ∧ objects (cancel_timer_of r st) = objects st
  ∧ effects (cancel_timer_of r st) = effects st
  ∧ cancelled_some (tasks st) (tasks (cancel_timer_of r st)).
Proof.
  unfold cancel_timer_of.
  destruct (objects st !! r) as [u|];
    [|by auto using cancelled_some_refl].
  destruct (timer_task u);
    [|by auto using cancelled_some_refl].
  split; [done|]. split; [done|]. split; [done|].
  apply cancel_cancelled_some.
Qed.

Lemma cancel_timer_of_awake r st u t a :
  objects st !! r = Some u → timer_task u = Some t →
  tasks (cancel_timer_of r st) !! t = Some a → status a ≠ Sleeping.
Proof.
  unfold cancel_timer_of. intros -> ->. rewrite cancel_lookup.
  rewrite decide_True by done.
  destruct (tasks st !! t); simpl; [|done].
  intros [= <-]. apply cancel_task_awake.
Qed.

(** The loop of [reblock_domain]. *)
Lemma reblock_fold st (D : gset string) :
  objects (set_fold reblock_one st D) = objects st
  ∧ effects (set_fold reblock_one st D) = effects st
  ∧ (∀ k, active_unblocks (set_fold reblock_one st D) !! k
          = if decide (k ∈ D) then None else active_unblocks st !! k)
  ∧ cancelled_some (tasks st) (tasks (set_fold reblock_one st D))
  ∧ (∀ k r u t a, k ∈ D → active_unblocks st !! k = Some r →
       objects st !! r = Some u → timer_task u = Some t →
       tasks (set_fold reblock_one st D) !! t = Some a → status a ≠ Sleeping).
Proof.
  revert D.
  refine (set_fold_ind_L (λ acc X,
    objects acc = objects st
    ∧ effects acc = effects st
    ∧ (∀ k, active_unblocks acc !! k
            = if decide (k ∈ X) then None else active_unblocks st !! k)
    ∧ cancelled_some (tasks st) (tasks acc)
    ∧ (∀ k r u t a, k ∈ X → active_unblocks st !! k = Some r →
         objects st !! r = Some u → timer_task u = Some t →
         tasks acc !! t = Some a → status a ≠ Sleeping)) _ _ _ _).
  - split; [done|]. split; [done|]. split; [|split].
    + intros k. by rewrite decide_False by apply not_elem_of_empty.
    + apply cancelled_some_refl.
    + intros k r u t a Hk. by apply not_elem_of_empty in Hk.
  - intros x X acc Hx (Ho & He & Ha & Ht & Hc).
    assert (Hx' : active_unblocks acc !! x = active_unblocks st !! x)
      by (rewrite Ha; by rewrite decide_False).
    assert (Hlook : ∀ k, (if decide (x = k) then None else
                            if decide (k ∈ X) then None
                            else active_unblocks st !! k)
                         = if decide (k ∈ {[x]} ∪ X) then None
                           else active_unblocks st !! k).
    { intros k. destruct (decide (x = k)) as [->|Hne].
      - rewrite decide_True; [done|].
        apply elem_of_union; left. by apply elem_of_singleton.
      - destruct (decide (k ∈ X)) as [Hk|Hk].
        + rewrite decide_True; [done|]. apply elem_of_union; by right.
        + rewrite decide_False; [done|].
          rewrite elem_of_union, elem_of_singleton.
          intros [Heq|Hin]; [by apply Hne | by apply Hk]. }
    unfold reblock_one.
    destruct (active_unblocks acc !! x) as [r|] eqn:Hr.
    + set (acc' := with_active (delete x (active_unblocks acc)) acc).
      destruct (cancel_timer_of_fields r acc') as (Ha' & Ho' & He' & Ht').
      split; [by rewrite Ho'|]. split; [by rewrite He'|].
      split; [|split].
      * intros k. rewrite Ha'. unfold acc'. simpl.
        rewrite lookup_delete, Ha. apply Hlook.
      * eapply cancelled_some_trans; [exact Ht|exact Ht'].
      * intros k r' u t a Hk Hkr Hu Htm Hlk.
        apply elem_of_union in Hk as [Hk|Hk].
        -- apply elem_of_singleton in Hk. subst k.
           assert (r' = r) as -> by congruence.
           eapply (cancel_timer_of_awake r acc'); [|exact Htm|exact Hlk].
           unfold acc'. simpl. by rewrite Ho.
        -- intros Hs.
           eapply (Hc k r' u t a Hk Hkr Hu Htm); [|exact Hs].
           eapply cancelled_some_sleeping; [exact Ht'|exact Hlk|exact Hs].
    + split; [done|]. split; [done|]. split; [|split; [done|]].
      * intros k. rewrite Ha, <- Hlook.
        destruct (decide (x = k)) as [->|Hne]; [|done].
        rewrite decide_False by done. congruence.
      * intros k r' u t a Hk Hkr Hu Htm Hlk.
        apply elem_of_union in Hk as [Hk|Hk].
        -- apply elem_of_singleton in Hk. subst k. congruence.
        -- by eapply Hc.
Qed.

Lemma reblock_domain_spec w d st :
  objects (reblock_domain iso self w d st).2 = objects st
  ∧ (∀ k, active_unblocks (reblock_domain iso self w d st).2 !! k
          = if decide (k ∈ alias_class self d) then None
            else active_unblocks st !! k)
  ∧ cancelled_some (tasks st) (tasks (reblock_domain iso self w d st).2)
  ∧ effects (reblock_domain iso self w d st).2
    = effects st ++ sync_effects iso self w
                      (active_unblocks (reblock_domain iso self w d st).2)
  ∧ (∀ k r u t a, k ∈ alias_class self d → active_unblocks st !! k = Some r →
       objects st !! r = Some u → timer_task u = Some t →
       tasks (reblock_domain iso self w d st).2 !! t = Some a →
       status a ≠ Sleeping).
Proof.
  unfold reblock_domain. fold (alias_class self d). rewrite sync_spec. simpl.
  destruct (reblock_fold st (alias_class self d)) as (Ho & He & Ha & Ht & Hc).
  rewrite He. auto.
Qed.
End Timers.

Section Expiry.
Context (iso : Z → string) (self : config).

Lemma tee_contents_app l1 l2 :
  tee_contents (l1 ++ l2) = tee_contents l1 ++ tee_contents l2.
Proof. apply omap_app. Qed.

Lemma tee_contents_sync w a :
  tee_contents (sync_effects iso self w a)
  = [blocklist_content iso (now_write w) (all_blocked_domains self ∖ dom a)].
Proof.
  effects_cases w.
Qed.

Lemma tee_contents_Reblocked l : tee_contents (map Reblocked l) = [].
Proof. induction l; simpl; done. Qed.

Lemma reblock_events_app l1 l2 :
  reblock_events (l1 ++ l2) = reblock_events l1 ++ reblock_events l2.
Proof. apply omap_app. Qed.

Lemma reblock_events_sync w a : reblock_events (sync_effects iso self w a) = [].
Proof.
  effects_cases w.
Qed.

Lemma reblock_events_Reblocked l : reblock_events (map Reblocked l) = l.
Proof.
  induction l as [|d l IH]; [done|].
  change (reblock_events (map Reblocked (d :: l)))
    with (d :: reblock_events (map Reblocked l)).
  by rewrite IH.
Qed.

(** The loop over the callback: it is called for the domains that [called]
    lists, and nothing else changes. *)
Lemma reblock_callbacks_spec w l st :
  (reblock_callbacks w l st).2
  = {| active_unblocks := active_unblocks st; objects := objects st;
       tasks := tasks st;
       effects := effects st ++ map Reblocked (called w l) |}.
Proof.
  revert st. induction l as [|d l IH]; intros st; cbn [reblock_callbacks called].
  - cbn. rewrite app_nil_r. by destruct st.
  - destruct (run_callback w d); cbn [snd map].
    + unfold emit. done.
    + rewrite IH. unfold emit. cbn. by rewrite <- app_assoc.
Qed.

Lemma called_all w l :
  (∀ d, d ∈ l → run_callback w d = None) → called w l = l.
Proof.
  induction l as [|d l IH]; intros H; [done|]. cbn [called].
  rewrite (H d) by (apply elem_of_cons; by left).
  rewrite IH; [done|]. intros d' Hd'. apply H. apply elem_of_cons. by right.
Qed.


(** A timer whose task is not asleep does nothing when it fires. *)
Lemma reblock_after_idle w t st :
  (∀ task, tasks st !! t = Some task → status task ≠ Sleeping) →
  (_reblock_after iso self w t st).2 = st.
Proof.
  intros H. unfold _reblock_after.
  destruct (tasks st !! t) as [task|]; [|done].
  specialize (H task eq_refl). by destruct (status task).
Qed.

Lemma reblock_after_idle_returns w t st :
  (∀ task, tasks st !! t = Some task → status task ≠ Sleeping) →
  (_reblock_after iso self w t st).1 = Returned ().
Proof.
  intros H. unfold _reblock_after.
  destruct (tasks st !! t) as [task|]; [|done].
  specialize (H task eq_refl). by destruct (status task).
Qed.

(** A sleeping timer pops its domains, syncs and calls back. *)
Lemma reblock_after_sleeping w t st task :
  tasks st !! t = Some task → status task = Sleeping →
  (_reblock_after iso self w t st).2
  = {| active_unblocks :=
         set_fold (λ d acc, delete d acc) (active_unblocks st)
           (task_domains task);
       objects := objects st;
       tasks := alter (set_status Finished) t (tasks st);
       effects :=
         effects st
         ++ sync_effects iso self w
              (set_fold (λ d acc, delete d acc) (active_unblocks st)
                 (task_domains task))
         ++ map Reblocked (expiry_events self w (task_domains task)) |}.
Proof.
  intros Ht Hs. unfold _reblock_after. rewrite Ht, Hs. cbn [snd].
  rewrite sync_then. unfold expiry_events.
  destruct (sync_raises w).
  { unfold with_tasks, synced. cbn. by rewrite app_nil_r. }
  destruct (on_reblock_callback self).
  - rewrite reblock_callbacks_spec. unfold with_tasks, synced. cbn.
    by rewrite <- app_assoc.
  - unfold with_tasks, synced. cbn. by rewrite app_nil_r.
Qed.

(** Another timer firing leaves a task as it is. *)
Lemma reblock_after_other w t' st t :
  t' ≠ t → tasks (_reblock_after iso self w t' st).2 !! t = tasks st !! t.
Proof.
  intros Hne.
  destruct (tasks st !! t') as [task|] eqn:Ht;
    [|rewrite reblock_after_idle; [done|by intros ?; rewrite Ht]].
  destruct (status task) eqn:Hs;
    [|rewrite reblock_after_idle; [done|intros ?; rewrite Ht; congruence]..].
  rewrite (reblock_after_sleeping w t' st task Ht Hs). cbn [tasks].
  by rewrite list_lookup_alter_ne.
Qed.

Lemma reblock_after_cases w t st :
  (∃ task, tasks st !! t = Some task ∧ status task = Sleeping)
  ∨ ((∀ task, tasks st !! t = Some task → status task ≠ Sleeping)
     ∧ (_reblock_after iso self w t st).2 = st).
Proof.
  destruct (tasks st !! t) as [task|] eqn:Ht.
  - destruct (status task) eqn:Hs; [left; eauto| |];
      right; (split; [intros ? [= <-]; congruence|]);
      apply reblock_after_idle; intros ?; rewrite Ht; intros [= <-]; congruence.
  - right. split; [intros ? [=]|].
    apply reblock_after_idle. intros ?; rewrite Ht; intros [=].
Qed.

Lemma reblock_after_objects w t st :
  objects (_reblock_after iso self w t st).2 = objects st.
Proof.
  destruct (reblock_after_cases w t st) as [(task & Ht & Hs)|[_ ->]]; [|done].
  by rewrite (reblock_after_sleeping w t st task Ht Hs).
Qed.

(** A sleeping task after a timer fired was the same sleeping task before. *)
Lemma reblock_after_still_sleeping w t' st t task :
  tasks (_reblock_after iso self w t' st).2 !! t = Some task →
  status task = Sleeping →
  tasks st !! t = Some task ∧ (t = t' → False).
Proof.
  intros Hl Hs. destruct (decide (t' = t)) as [->|Hne].
  - exfalso. revert Hl.
    destruct (reblock_after_cases w t st) as [(a & Ha & Hsa)|[Hidle ->]].
    + rewrite (reblock_after_sleeping w t st a Ha Hsa). cbn [tasks].
      rewrite list_lookup_alter_eq, Ha. cbn. intros [= <-]. done.
    + intros Hl. by apply (Hidle task).
  - rewrite reblock_after_other in Hl by done. split; [done|congruence].
Qed.

(** What one timer writes: nothing, or a single file that lists the blocked
    set as it is after the timer. *)
Lemma reblock_after_effects w t st :
  ∃ l, effects (_reblock_after iso self w t st).2 = effects st ++ l
       ∧ ∀ c, c ∈ tee_contents l →
           c = blocklist_content iso (now_write w)
                 (all_blocked_domains self
                    ∖ dom (active_unblocks (_reblock_after iso self w t st).2)).
Proof.
  destruct (reblock_after_cases w t st) as [(task & Ht & Hs)|[_ ->]].
  - rewrite (reblock_after_sleeping w t st task Ht Hs).
    cbn [effects active_unblocks].
    match goal with |- ∃ l, _ ++ ?x = _ ++ l ∧ _ => exists x end.
    split; [reflexivity|].
    intros c.
    rewrite tee_contents_app, tee_contents_sync, tee_contents_Reblocked.
    cbn [app].
    intros Hc. apply list_elem_of_singleton in Hc. by subst.
  - exists []. rewrite app_nil_r. split; [done|].
    intros c Hc. by apply elem_of_nil in Hc.
Qed.
End Expiry.

Section Runs.
Context (iso : Z → string) (self : config).

Lemma run_app cs cs' st :
  run iso self (cs ++ cs') st = run iso self cs' (run iso self cs st).
Proof. apply foldl_app. Qed.

Lemma run_fires_cons f fs st :
  run iso self (fires (f :: fs)) st
  = run iso self (fires fs) (_reblock_after iso self f.1 f.2 st).2.
Proof. reflexivity. Qed.

Lemma fires_keep_task fs st t :
  Forall (λ f : world * nat, f.2 ≠ t) fs →
  tasks (run iso self (fires fs) st) !! t = tasks st !! t.
Proof.
  intros H. revert st. induction H as [|f fs Hf _ IH]; intros st; [done|].
  rewrite run_fires_cons, IH. by apply reblock_after_other.
Qed.

Lemma fires_keep_objects fs st :
  objects (run iso self (fires fs) st) = objects st.
Proof.
  revert st. induction fs as [|f fs IH]; intros st; [done|].
  rewrite run_fires_cons, IH. apply reblock_after_objects.
Qed.

(** The task created by a successful grant. *)
Lemma unblock_domain_new_task w d ip nm sc rs dur st st' :
  unblock_domain iso self w d ip nm sc rs dur st = (Returned true, st') →
  tasks st' !! length (tasks st)
  = Some {| task_domains := alias_class self d; task_minutes := dur;
            status := Sleeping |}.
Proof.
  intros H.
  destruct (unblock_domain_true_inv _ _ _ _ _ _ _ _ _ _ _ H)
    as (_ & _ & u & _ & _ & _ & Ht & _).
  destruct (cancel_existing_fields d st) as (_ & _ & _ & Hl).
  rewrite Ht, lookup_app_r by lia. by rewrite Hl, Nat.sub_diag.
Qed.

Lemma elem_of_alias_class d m :
  m ∈ alias_class self d ↔ m = d ∨ m ∈ _get_related_domains self d.
Proof. unfold alias_class. by rewrite elem_of_union, elem_of_singleton. Qed.

Lemma alias_class_self d : d ∈ alias_class self d.
Proof. apply elem_of_alias_class. by left. Qed.

Lemma alias_class_subset d :
  d ∈ conditional_domains self → alias_class self d ⊆ all_blocked_domains self.
Proof.
  intros Hd m Hm. apply elem_of_alias_class in Hm as [->|Hm].
  - apply elem_of_union. by left.
  - by apply (related_subset self d).
Qed.

(** C4, as the code has it. When the timer of a grant fires, no call having
    been made since the grant, every member of the alias class is inactive
    afterwards, and one blocklist is written that lists every member again.
    Without a reblock callback nothing is emitted. When one was given, the
    write and the signal raise no decoding error and the callback raises at
    no member, it is called once for each member with that one domain. *)
Theorem C4_expiry_reblocks_and_calls_back_per_domain
    w d ip nm sc rs dur st st1 fs w' :
  unblock_domain iso self w d ip nm sc rs dur st = (Returned true, st1) →
  Forall (λ f : world * nat, f.2 ≠ length (tasks st)) fs →
  let st2 := run iso self (fires fs) st1 in
  let st3 := (_reblock_after iso self w' (length (tasks st)) st2).2 in
  (∀ m, m ∈ alias_class self d → is_domain_unblocked st3 m = false)
  ∧ (∃ l, effects st3 = effects st2 ++ l
          ∧ tee_contents l
            = [blocklist_content iso (now_write w')
                 (all_blocked_domains self ∖ dom (active_unblocks st3))]
          ∧ (on_reblock_callback self = false → reblock_events l = [])
          ∧ (sync_raises w' = false →
             (∀ m, m ∈ alias_class self d → run_callback w' m = None) →
             reblock_events l
             = (if on_reblock_callback self
                then elements (alias_class self d) else [])))
  ∧ alias_class self d ⊆ all_blocked_domains self ∖ dom (active_unblocks st3)
  ∧ NoDup (elements (alias_class self d))
  ∧ (∀ m, m ∈ elements (alias_class self d) ↔ m ∈ alias_class self d).
Proof.
  intros Hun Hfs st2 st3.
  pose proof (unblock_domain_new_task _ _ _ _ _ _ _ _ _ Hun) as Ht1.
  destruct (unblock_domain_true_inv _ _ _ _ _ _ _ _ _ _ _ Hun)
    as (Hd & _ & _).
  assert (Ht2 : tasks st2 !! length (tasks st)
                = Some {| task_domains := alias_class self d;
                          task_minutes := dur; status := Sleeping |}).
  { unfold st2. by rewrite fires_keep_task. }
  assert (Hinactive : ∀ m, m ∈ alias_class self d →
                           active_unblocks st3 !! m = None).
  { intros m Hm. unfold st3.
    rewrite (reblock_after_sleeping iso self w' _ st2 _ Ht2 eq_refl).
    cbn [active_unblocks task_domains]. rewrite fold_delete_lookup.
    by rewrite decide_True. }
  split; [|split; [|split; [|split]]].
  - intros m Hm. apply is_domain_unblocked_false. by apply Hinactive.
  - unfold st3 at 1.
    rewrite (reblock_after_sleeping iso self w' _ st2 _ Ht2 eq_refl).
    cbn [effects task_domains].
    match goal with |- ∃ l, _ ++ ?x = _ ++ l ∧ _ => exists x end.
    split; [done|].
    rewrite tee_contents_app, tee_contents_sync, tee_contents_Reblocked.
    rewrite reblock_events_app, reblock_events_sync, reblock_events_Reblocked.
    split; [|split].
    + unfold st3.
      rewrite (reblock_after_sleeping iso self w' _ st2 _ Ht2 eq_refl).
      done.
    + intros Hcb. unfold expiry_events. rewrite Hcb.
      by destruct (sync_raises w').
    + intros Hsr Hcb. unfold expiry_events. rewrite Hsr. cbn [app].
      destruct (on_reblock_callback self); [|done].
      apply called_all. intros m Hm. apply Hcb. by apply elem_of_elements.
  - intros m Hm. apply elem_of_difference. split.
    + by apply (alias_class_subset d Hd m).
    + apply not_elem_of_dom. by apply Hinactive.
  - apply NoDup_elements.
  - intros m. apply elem_of_elements.
Qed.

(** C3, as the code has it. The results of the write and of the reload signal
    have no influence on a grant that returns: with any other results that
    raise no decoding error, the same call returns [True] as well and leaves
    the same dictionary, objects and tasks. The domain is in the dictionary,
    its timer is scheduled, and a failure is only written to the log. *)
Theorem C3_sync_failure_is_logged_only
    w w' d ip nm sc rs dur st st' :
  unblock_domain iso self w d ip nm sc rs dur st = (Returned true, st') →
  now_init w' = now_init w →
  sync_raises w' = false →
  (∃ st'', unblock_domain iso self w' d ip nm sc rs dur st
           = (Returned true, st'')
     ∧ active_unblocks st'' = active_unblocks st'
     ∧ objects st'' = objects st'
     ∧ tasks st'' = tasks st')
  ∧ is_domain_unblocked st' d = true
  ∧ (∃ u, objects st' !! length (objects st) = Some u
          ∧ active_unblocks st' !! d = Some (length (objects st))
          ∧ timer_task u = Some (length (tasks st)))
  ∧ tasks st' !! length (tasks st)
    = Some {| task_domains := alias_class self d; task_minutes := dur;
              status := Sleeping |}
  ∧ (∃ l, effects st' = effects st ++ l
          ∧ (failed (run_tee w) = true → ∃ msg, Log ERROR msg ∈ l)
          ∧ (failed (run_pkill w) = true → ∃ msg, Log ERROR msg ∈ l)).
Proof.
  intros Hun Hnow Hsr'.
  pose proof (unblock_domain_new_task _ _ _ _ _ _ _ _ _ Hun) as Ht1.
  pose proof (unblock_domain_true_decodes _ _ _ _ _ _ _ _ _ _ _ Hun) as Hsr.
  destruct (unblock_domain_true_inv _ _ _ _ _ _ _ _ _ _ _ Hun)
    as (Hd & Hna & u & Hu & Ha & Ho & Ht & He).
  assert (Hd' : active_unblocks st' !! d = Some (length (objects st))).
  { rewrite Ha, decide_True; [done|]. apply alias_class_self. }
  split; [|split; [|split; [|split]]].
  - destruct (unblock_domain iso self w' d ip nm sc rs dur st)
      as [res st''] eqn:Hun'.
    assert (res = Returned true) as ->.
    { revert Hun'. rewrite <- Hnow in Hu.
      rewrite (unblock_domain_granted iso self w' d ip nm sc rs dur st u
                 Hna Hd Hu).
      cbv zeta. rewrite Hsr'. by intros [= <- _]. }
    exists st''. split; [done|].
    destruct (unblock_domain_true_inv _ _ _ _ _ _ _ _ _ _ _ Hun')
      as (_ & _ & u' & Hu' & Ha' & Ho' & Ht' & _).
    rewrite Hnow, Hu in Hu'. injection Hu' as <-.
    split; [|split; congruence].
    apply map_eq. intros k. by rewrite Ha, Ha'.
  - apply is_domain_unblocked_true. by rewrite Hd'.
  - exists (set_timer_task (length (tasks st)) u).
    rewrite Ho, lookup_app_r, Nat.sub_diag by lia. done.
  - done.
  - exists (sync_effects iso self w (active_unblocks st')).
    split; [done|]. revert Hsr.
    unfold sync_raises, sync_effects, tee_errors, pkill_errors, undecodable,
      failed.
    destruct (run_tee w) as [rc e|], (run_pkill w) as [rc' e'|];
      repeat case_decide; try destruct (decode e); try destruct (decode e');
      cbn [orb app]; intros Hsr; try discriminate Hsr;
      (split; intros Hf;
       [try (apply bool_decide_eq_true in Hf; contradiction)
       |try (apply bool_decide_eq_true in Hf; contradiction)]);
      eexists;
      repeat first [apply elem_of_cons; left; reflexivity
                   |apply elem_of_cons; right].
Qed.
End Runs.

Section RevokeAll.
Context (iso : Z → string) (self : config).

(** The loop of [reblock_all]. *)
Lemma reblock_all_fold st (m : gmap string nat) :
  let st' := map_fold (λ _ unblock acc, cancel_timer_of unblock acc) st m in
  active_unblocks st' = active_unblocks st
  ∧ objects st' = objects st
  ∧ effects st' = effects st
  ∧ cancelled_some (tasks st) (tasks st')
  ∧ (∀ k r u t a, m !! k = Some r → objects st !! r = Some u →
       timer_task u = Some t → tasks st' !! t = Some a → status a ≠ Sleeping).
Proof.
  cbv zeta. revert m.
  refine (map_fold_weak_ind (λ acc m,
    active_unblocks acc = active_unblocks st
    ∧ objects acc = objects st
    ∧ effects acc = effects st
    ∧ cancelled_some (tasks st) (tasks acc)
    ∧ (∀ k r u t a, m !! k = Some r → objects st !! r = Some u →
         timer_task u = Some t → tasks acc !! t = Some a →
         status a ≠ Sleeping)) _ _ _ _).
  - split; [done|]. split; [done|]. split; [done|].
    split; [apply cancelled_some_refl|].
    intros k r u t a Hk. by rewrite lookup_empty in Hk.
  - intros i x m acc Hi (Ha & Ho & He & Ht & Hc).
    destruct (cancel_timer_of_fields x acc) as (Ha' & Ho' & He' & Ht').
    split; [congruence|]. split; [congruence|]. split; [congruence|].
    split; [eapply cancelled_some_trans; eauto|].
    intros k r u t a Hk Hu Htm Hlk.
    rewrite lookup_insert in Hk. destruct (decide (i = k)) as [->|Hne].
    + injection Hk as ->.
      eapply (cancel_timer_of_awake r acc); [|exact Htm|exact Hlk].
      by rewrite Ho.
    + intros Hs. eapply (Hc k r u t a Hk Hu Htm); [|exact Hs].
      eapply cancelled_some_sleeping; [exact Ht'|exact Hlk|exact Hs].
Qed.

Lemma reblock_all_spec w st :
  active_unblocks (reblock_all iso self w st).2 = ∅
  ∧ objects (reblock_all iso self w st).2 = objects st
  ∧ effects (reblock_all iso self w st).2
    = effects st ++ sync_effects iso self w ∅
  ∧ cancelled_some (tasks st) (tasks (reblock_all iso self w st).2)
  ∧ (∀ k r u t a, active_unblocks st !! k = Some r →
       objects st !! r = Some u → timer_task u = Some t →
       tasks (reblock_all iso self w st).2 !! t = Some a → status a ≠ Sleeping).
Proof.
  unfold reblock_all. rewrite sync_spec.
  destruct (reblock_all_fold st (active_unblocks st))
    as (Ha & Ho & He & Ht & Hc).
  cbn [snd synced active_unblocks objects tasks effects with_active].
  rewrite He. auto.
Qed.

(** One signal follows the write, unless the write raised. *)
Lemma hup_count_sync w a :
  hup_count (sync_effects iso self w a)
  = if undecodable (run_tee w) then 0%nat else 1%nat.
Proof.
  unfold hup_count. effects_cases w.
Qed.

(** A timer only removes entries from the dictionary. *)
Lemma reblock_after_active w t st k :
  active_unblocks (_reblock_after iso self w t st).2 !! k = None
  ∨ active_unblocks (_reblock_after iso self w t st).2 !! k
    = active_unblocks st !! k.
Proof.
  destruct (reblock_after_cases iso self w t st)
    as [(task & Ht & Hs)|[_ ->]]; [|by right].
  rewrite (reblock_after_sleeping iso self w t st task Ht Hs).
  cbn [active_unblocks]. rewrite fold_delete_lookup.
  case_decide; auto.
Qed.

Lemma fires_on_empty fs st :
  active_unblocks st = ∅ →
  active_unblocks (run iso self (fires fs) st) = ∅
  ∧ ∃ l, effects (run iso self (fires fs) st) = effects st ++ l
         ∧ ∀ c, c ∈ tee_contents l →
             ∃ now, c = blocklist_content iso now (all_blocked_domains self).
Proof.
  revert st. induction fs as [|f fs IH]; intros st Hst.
  - split; [done|]. exists []. rewrite app_nil_r. split; [done|].
    intros c Hc. by apply elem_of_nil in Hc.
  - rewrite run_fires_cons.
    assert (He : active_unblocks (_reblock_after iso self f.1 f.2 st).2 = ∅).
    { apply map_eq. intros k. rewrite lookup_empty.
      destruct (reblock_after_active f.1 f.2 st k) as [->| ->]; [done|].
      by rewrite Hst, lookup_empty. }
    destruct (IH _ He) as (Ha & l & Hl & Hc).
    split; [done|].
    destruct (reblock_after_effects iso self f.1 f.2 st) as (l0 & Hl0 & Hc0).
    exists (l0 ++ l). rewrite Hl, Hl0, <- app_assoc. split; [done|].
    intros c. rewrite tee_contents_app, elem_of_app. intros [Hin|Hin].
    + exists (now_write f.1). rewrite (Hc0 c Hin), He.
      by rewrite dom_empty_L, difference_empty_L.
    + by apply Hc.
Qed.

End RevokeAll.

Section Supersession.
Context (iso : Z → string) (self : config).

Lemma sole_timer_owned st d t : sole_timer st d t → owned st d.
Proof.
  intros [(r & u & Hr & Hu & Ht) Hsole] t' task Hl Hs Hd.
  rewrite (Hsole t' task Hl Hs Hd). eauto.
Qed.

Lemma cancel_existing_cancelled_some d st :
  cancelled_some (tasks st) (tasks (cancel_existing d st)).
Proof.
  unfold cancel_existing.
  destruct (active_unblocks st !! d) as [r|]; [|apply cancelled_some_refl].
  apply cancel_timer_of_fields.
Qed.

(** After a grant for [d], its new timer is the only sleeping timer on [d],
    provided the sleeping timers on [d] were owned by the entry of [d]. *)
Lemma grant_sole_timer w d ip nm sc rs dur st st' :
  owned st d →
  unblock_domain iso self w d ip nm sc rs dur st = (Returned true, st') →
  sole_timer st' d (length (tasks st)).
Proof.
  intros Hown Hun.
  destruct (unblock_domain_true_inv _ _ _ _ _ _ _ _ _ _ _ Hun)
    as (Hd & Hna & u & Hu & Ha & Ho & Ht & He).
  destruct (cancel_existing_fields d st) as (_ & _ & _ & Hlen).
  split.
  - exists (length (objects st)), (set_timer_task (length (tasks st)) u).
    split; [|split; [|done]].
    + rewrite Ha, decide_True; [done|]. apply alias_class_self.
    + rewrite Ho, lookup_app_r, Nat.sub_diag by lia. done.
  - intros t' task Hl Hs Hdt. rewrite Ht in Hl.
    destruct (decide (t' < length (tasks st))%nat) as [Hlt|Hge].
    + exfalso. rewrite lookup_app_l in Hl by lia.
      pose proof (cancelled_some_sleeping _ _ _ _
                    (cancel_existing_cancelled_some d st) Hl Hs) as Hl0.
      destruct (Hown t' task Hl0 Hs Hdt) as (r & u0 & Hr & Hu0 & Htm).
      revert Hl. unfold cancel_existing. rewrite Hr. intros Hl.
      by apply (cancel_timer_of_awake r st u0 t' task Hu0 Htm Hl).
    + rewrite lookup_app_r in Hl by lia.
      destruct (t' - length (tasks (cancel_existing d st)))%nat eqn:E;
        [lia|done].
Qed.

(** A grant for [d] cancels the timer of the entry of [d]. *)
Lemma grant_cancels_owner w d ip nm sc rs dur st st' t a :
  sole_timer st d t → tasks st !! t = Some a →
  unblock_domain iso self w d ip nm sc rs dur st = (Returned true, st') →
  tasks st' !! t = Some (cancel_task a).
Proof.
  intros [(r & u & Hr & Hu & Htm) _] Hl Hun.
  destruct (unblock_domain_true_inv _ _ _ _ _ _ _ _ _ _ _ Hun)
    as (_ & _ & _ & _ & _ & _ & Ht & _).
  destruct (cancel_existing_fields d st) as (_ & _ & _ & Hlen).
  apply lookup_lt_Some in Hl as Hlt.
  rewrite Ht, lookup_app_l by lia.
  unfold cancel_existing, cancel_timer_of. rewrite Hr, Hu, Htm.
  rewrite cancel_lookup, decide_True by done. by rewrite Hl.
Qed.

Lemma reblock_after_sole_timer w t' st d t :
  sole_timer st d t → t' ≠ t →
  sole_timer (_reblock_after iso self w t' st).2 d t.
Proof.
  intros [(r & u & Hr & Hu & Htm) Hsole] Hne. split.
  - exists r, u. rewrite reblock_after_objects. split; [|done].
    destruct (reblock_after_cases iso self w t' st)
      as [(task & Ht & Hs)|[_ ->]]; [|done].
    rewrite (reblock_after_sleeping iso self w t' st task Ht Hs).
    cbn [active_unblocks]. rewrite fold_delete_lookup.
    rewrite decide_False; [done|].
    intros Hd. apply Hne. by apply (Hsole t' task).
  - intros t'' task Hl Hs Hd.
    destruct (reblock_after_still_sleeping iso self w t' st t'' task Hl Hs)
      as [Hl0 _].
    by apply (Hsole t'' task).
Qed.

Lemma fires_sole_timer fs st d t :
  sole_timer st d t → Forall (λ f : world * nat, f.2 ≠ t) fs →
  sole_timer (run iso self (fires fs) st) d t.
Proof.
  intros Hst H. revert st Hst.
  induction H as [|f fs Hf _ IH]; intros st Hst; [done|].
  rewrite run_fires_cons. apply IH. by apply reblock_after_sole_timer.
Qed.

Lemma fires_length fs st :
  length (tasks (run iso self (fires fs) st)) = length (tasks st).
Proof.
  revert st. induction fs as [|f fs IH]; intros st; [done|].
  rewrite run_fires_cons, IH.
  destruct (reblock_after_cases iso self f.1 f.2 st)
    as [(task & Ht & Hs)|[_ ->]]; [|done].
  rewrite (reblock_after_sleeping iso self f.1 f.2 st task Ht Hs).
  cbn [tasks]. apply length_alter.
Qed.

(** A task that is not asleep is left alone by every timer. *)
Lemma fires_keep_awake fs st t a :
  tasks st !! t = Some a → status a ≠ Sleeping →
  tasks (run iso self (fires fs) st) !! t = Some a.
Proof.
  intros Hl Hs. revert st Hl.
  induction fs as [|f fs IH]; intros st Hl; [done|].
  rewrite run_fires_cons. apply IH.
  destruct (decide (f.2 = t)) as [<-|Hne].
  - rewrite reblock_after_idle; [done|]. intros task. rewrite Hl.
    by intros [= <-].
  - by rewrite reblock_after_other.
Qed.

(** While [d] keeps its sole timer and that timer does not fire, every file
    written by the timers that do fire omits [d]. *)
Lemma fires_omit fs st d t :
  sole_timer st d t → Forall (λ f : world * nat, f.2 ≠ t) fs →
  ∃ l, effects (run iso self (fires fs) st) = effects st ++ l
       ∧ ∀ c, c ∈ tee_contents l →
           ∃ now B, c = blocklist_content iso now B ∧ d ∉ B.
Proof.
  intros Hst H. revert st Hst.
  induction H as [|f fs Hf _ IH]; intros st Hst.
  - exists []. rewrite app_nil_r. split; [done|].
    intros c Hc. by apply elem_of_nil in Hc.
  - rewrite run_fires_cons.
    pose proof (reblock_after_sole_timer f.1 f.2 st d t Hst Hf) as Hst'.
    destruct (IH _ Hst') as (l & Hl & Hc).
    destruct (reblock_after_effects iso self f.1 f.2 st) as (l0 & Hl0 & Hc0).
    exists (l0 ++ l). rewrite Hl, Hl0, <- app_assoc. split; [done|].
    intros c. rewrite tee_contents_app, elem_of_app. intros [Hin|Hin].
    + eexists _, _. split; [exact (Hc0 c Hin)|].
      destruct Hst' as [(r & u & Hr & _) _].
      rewrite elem_of_difference, elem_of_dom, Hr.
      intros [_ Hn]. apply Hn. eauto.
    + by apply Hc.
Qed.

(** X24. A domain is granted and, while only other timers fire, granted
    again. Provided the sleeping timers that covered the domain before the
    first grant belonged to the domain's own entry, the second grant cancels
    the first timer: from then on the first timer's task is cancelled and
    its firing changes nothing, the domain stays unblocked through every
    sequence of timers firing other than the second grant's own, and every
    blocklist written from the second grant on omits it. *)
Theorem regrant_supersedes_owned_timer
    w1 ip1 nm1 sc1 rs1 dur1 w2 ip2 nm2 sc2 rs2 dur2 d st st1 st2 fs0 fs :
  owned st d →
  unblock_domain iso self w1 d ip1 nm1 sc1 rs1 dur1 st = (Returned true, st1) →
  Forall (λ f : world * nat, f.2 ≠ length (tasks st)) fs0 →
  unblock_domain iso self w2 d ip2 nm2 sc2 rs2 dur2
    (run iso self (fires fs0) st1) = (Returned true, st2) →
  Forall (λ f : world * nat, f.2 ≠ length (tasks st1)) fs →
  status <$> tasks (run iso self (fires fs) st2) !! length (tasks st)
  = Some Cancelled
  ∧ (∀ w, (_reblock_after iso self w (length (tasks st))
             (run iso self (fires fs) st2)).2
          = run iso self (fires fs) st2)
  ∧ is_domain_unblocked (run iso self (fires fs) st2) d = true
  ∧ (∃ l, effects (run iso self (fires fs) st2)
          = effects (run iso self (fires fs0) st1) ++ l
          ∧ ∀ c, c ∈ tee_contents l →
              ∃ now B, c = blocklist_content iso now B ∧ d ∉ B).
Proof.
  intros Hown Hun1 Hfs0 Hun2 Hfs.
  set (t1 := length (tasks st)).
  set (s1 := run iso self (fires fs0) st1) in *.
  pose proof (grant_sole_timer _ _ _ _ _ _ _ _ _ Hown Hun1) as Hsole1.
  pose proof (fires_sole_timer fs0 st1 d t1 Hsole1 Hfs0) as Hsole1'.
  fold s1 in Hsole1'.
  pose proof (unblock_domain_new_task _ _ _ _ _ _ _ _ _ _ _ Hun1) as Hnew1.
  assert (Hnew1' : tasks s1 !! t1
                   = Some {| task_domains := alias_class self d;
                             task_minutes := dur1; status := Sleeping |}).
  { unfold s1. by rewrite fires_keep_task. }
  pose proof (grant_cancels_owner _ _ _ _ _ _ _ _ _ _ _ Hsole1' Hnew1' Hun2)
    as Hdead.
  assert (Hdead' : ∀ fs', tasks (run iso self (fires fs') st2) !! t1
                   = Some (cancel_task {| task_domains := alias_class self d;
                             task_minutes := dur1; status := Sleeping |})).
  { intros fs'. by apply fires_keep_awake. }
  pose proof (grant_sole_timer _ _ _ _ _ _ _ _ _
                (sole_timer_owned _ _ _ Hsole1') Hun2) as Hsole2.
  assert (Hlen : length (tasks s1) = length (tasks st1))
    by apply fires_length.
  rewrite Hlen in Hsole2.
  pose proof (fires_sole_timer fs st2 d _ Hsole2 Hfs) as Hsole3.
  split; [|split; [|split]].
  - by rewrite Hdead'.
  - intros w. apply reblock_after_idle. intros task. rewrite Hdead'.
    by intros [= <-].
  - apply is_domain_unblocked_true.
    destruct Hsole3 as [(r & u & Hr & _) _]. by rewrite Hr.
  - destruct (fires_omit fs st2 d _ Hsole2 Hfs) as (l & Hl & Hc).
    destruct (unblock_domain_true_inv _ _ _ _ _ _ _ _ _ _ _ Hun2)
      as (_ & _ & _ & _ & Ha & _ & _ & He).
    exists (sync_effects iso self w2 (active_unblocks st2) ++ l).
    rewrite Hl, He, <- app_assoc. split; [done|].
    intros c. rewrite tee_contents_app, tee_contents_sync, elem_of_app.
    intros [Hin|Hin]; [|by apply Hc].
    apply list_elem_of_singleton in Hin. subst c.
    eexists _, _. split; [reflexivity|].
    rewrite elem_of_difference, elem_of_dom, Ha.
    rewrite decide_True by apply alias_class_self.
    intros [_ Hn]. apply Hn. eauto.
Qed.
End Supersession.

Section BlocklistFile.
Context (iso : Z → string) (self : config).

(** [sorted] lists the set, each domain once, in lexicographic order. *)
Lemma sorted_spec (X : gset string) :
  StronglySorted String.le (sorted X) ∧ NoDup (sorted X)
  ∧ ∀ d, d ∈ sorted X ↔ d ∈ X.
Proof.
  unfold sorted. split; [|split].
  - apply StronglySorted_merge_sort; apply _.
  - rewrite merge_sort_Permutation. apply NoDup_elements.
  - intros d. rewrite merge_sort_Permutation. apply elem_of_elements.
Qed.

Lemma write_blocklist_effects w st :
  ∃ errs,
    effects (_write_blocklist iso self w st).2
    = effects st
      ++ Tee (blocked_hosts_path self)
           (blocklist_content iso (now_write w)
              (all_blocked_domains self ∖ dom (active_unblocks st)))
         :: errs
    ∧ Forall is_Log errs.
Proof.
  unfold _write_blocklist, emit.
  destruct (run_tee w) as [rc e|]; [case_decide; [destruct (decode e)|]|];
    cbn [snd effects].
  - eexists [_]. rewrite <- app_assoc. split; [reflexivity|].
    repeat constructor.
  - exists []. split; [reflexivity|]. constructor.
  - exists []. split; [reflexivity|]. constructor.
  - eexists [_]. rewrite <- app_assoc. split; [reflexivity|].
    repeat constructor.
Qed.

Lemma string_app_assoc (a b c : string) : (a +:+ b) +:+ c = a +:+ b +:+ c.
Proof.
  induction a as [|x a IH]; [done|].
  change (String x ((a +:+ b) +:+ c) = String x (a +:+ b +:+ c)).
  by rewrite IH.
Qed.

(** The text that the code joins is the text of the lines of the
    specification. *)
Lemma blocklist_content_lines now B :
  blocklist_content iso now B
  = text_of_lines (export_lines (iso now) (sorted B)).
Proof.
  unfold blocklist_content, export_lines, join, HOSTS_HEADER, banner.
  cbn [foldr text_of_lines]. rewrite !string_app_assoc. do 2 f_equal.
  f_equal. f_equal.
  induction (sorted B) as [|d ds IH]; [done|].
  cbn [map foldr text_of_lines]. rewrite !string_app_assoc, IH. done.
Qed.

(** Every file written by a step renders the blocked set of the dictionary
    as the step leaves it. *)
Lemma step_tee st c :
  ∃ l, effects (step iso self st c) = effects st ++ l
       ∧ ∀ content, content ∈ tee_contents l →
           ∃ now, content
                  = blocklist_content iso now
                      (all_blocked_domains self
                         ∖ dom (active_unblocks (step iso self st c))).
Proof.
  destruct c as [w|w d ip nm sc rs dur|w d|w|w t]; cbn [step].
  - unfold initialize. rewrite sync_spec.
    cbn [snd synced effects active_unblocks].
    eexists. split; [reflexivity|]. intros c. rewrite tee_contents_sync.
    intros ->%list_elem_of_singleton. eauto.
  - destruct (unblock_domain_cases iso self w d ip nm sc rs dur st)
      as [[msg Heq]|[Heq|[[st' Hun]|[st' Hun]]]];
      rewrite ?Heq, ?Hun; cbn [snd].
    + exists [Log WARNING msg]. split; [done|].
      intros c Hc. by apply elem_of_nil in Hc.
    + destruct (cancel_existing_fields d st) as (_ & _ & -> & _).
      exists []. rewrite app_nil_r. split; [done|].
      intros c Hc. by apply elem_of_nil in Hc.
    + destruct (unblock_domain_true_inv _ _ _ _ _ _ _ _ _ _ _ Hun)
        as (_ & _ & _ & _ & _ & _ & _ & He).
      eexists. split; [exact He|]. intros c. rewrite tee_contents_sync.
      intros ->%list_elem_of_singleton. eauto.
    + destruct (unblock_domain_decode_inv _ _ _ _ _ _ _ _ _ _ _ Hun)
        as (_ & _ & _ & _ & _ & _ & _ & _ & He).
      eexists. split; [exact He|]. intros c. rewrite tee_contents_sync.
      intros ->%list_elem_of_singleton. eauto.
  - destruct (reblock_domain_spec iso self w d st) as (_ & _ & _ & He & _).
    eexists. split; [exact He|]. intros c. rewrite tee_contents_sync.
    intros ->%list_elem_of_singleton. eauto.
  - destruct (reblock_all_spec iso self w st) as (Ha & _ & He & _).
    eexists. split; [exact He|]. intros c. rewrite tee_contents_sync, Ha.
    intros ->%list_elem_of_singleton. eauto.
  - destruct (reblock_after_effects iso self w t st) as (l & Hl & Hc).
    exists l. split; [done|]. intros c Hin. rewrite (Hc c Hin). eauto.
Qed.

(** C8. The text of an export is the text of these lines, each ended by a
    line feed: the banner, the line [# Updated: <timestamp>], and one line
    [0.0.0.0 <domain>] for each blocked domain, each domain once, in
    lexicographic order.  [_write_blocklist] writes that text for the
    configured domains that are not keys of the dictionary, and every file
    written by any step is that text for the dictionary as the step leaves
    it. *)
Theorem C8_blocklist_export_format :
  (∀ now B, ∃ ds,
      blocklist_content iso now B
      = text_of_lines
          ("# Managed by Productivity Guard — do not edit manually"
           :: ("# Updated: " +:+ iso now)
           :: map (λ d, "0.0.0.0 " +:+ d) ds)
      ∧ StronglySorted String.le ds ∧ NoDup ds ∧ ∀ d, d ∈ ds ↔ d ∈ B)
  ∧ (∀ w st, ∃ errs,
        effects (_write_blocklist iso self w st).2
        = effects st
          ++ Tee (blocked_hosts_path self)
               (blocklist_content iso (now_write w)
                  (all_blocked_domains self ∖ dom (active_unblocks st)))
             :: errs
        ∧ Forall is_Log errs)
  ∧ (∀ st d,
        d ∈ all_blocked_domains self ∖ dom (active_unblocks st)
        ↔ (d ∈ conditional_domains self ∨ d ∈ always_blocked_domains self)
          ∧ is_domain_unblocked st d = false)
  ∧ (∀ st c, ∃ l,
        effects (step iso self st c) = effects st ++ l
        ∧ ∀ content, content ∈ tee_contents l →
            ∃ now, content
                   = blocklist_content iso now
                       (all_blocked_domains self
                          ∖ dom (active_unblocks (step iso self st c)))).
Proof.
  split; [|split; [|split]].
  - intros now B. exists (sorted B).
    split; [apply blocklist_content_lines|]. apply sorted_spec.
  - apply write_blocklist_effects.
  - intros st d. unfold all_blocked_domains, is_domain_unblocked.
    rewrite elem_of_difference, elem_of_union, bool_decide_eq_false. done.
  - apply step_tee.
Qed.
End BlocklistFile.

Section Status.
Context (iso : Z → string) (self : config).

Lemma status_loop_inv_step st seen_items acc item :
  status_loop_inv st seen_items acc →
  (∀ x, x ∈ acc.1 → ∃ r u, r ∈ acc.2 ∧ objects st !! r = Some u ∧ domain u = x) →
  status_loop_inv st (seen_items ++ [item]) (get_active_unblocks_step st acc item)
  ∧ (∀ x, x ∈ (get_active_unblocks_step st acc item).1 →
       ∃ r u, r ∈ (get_active_unblocks_step st acc item).2
              ∧ objects st !! r = Some u ∧ domain u = x).
Proof.
  intros (Hnd & Hobj & Hdist & Hcomp) Hseen.
  destruct item as [k0 r0]. unfold get_active_unblocks_step. cbn [snd].
  assert (Hold : ∀ r, r ∈ acc.2 →
            ∃ u, objects st !! r = Some u ∧ domain u ∈ acc.1
                 ∧ ∃ k, (k, r) ∈ seen_items ++ [(k0, r0)]).
  { intros r Hr. destruct (Hobj r Hr) as (u & Hu & Hd & k & Hk).
    exists u. split; [done|]. split; [done|]. exists k.
    apply elem_of_app. by left. }
  destruct (objects st !! r0) as [u0|] eqn:Hu0.
  - destruct (decide (domain u0 ∈ acc.1)) as [Hin|Hnin].
    + split; [|done]. split; [done|]. split; [done|]. split; [done|].
      intros k r u [Hkr|Hkr]%elem_of_app Hu; [by eapply Hcomp|].
      apply list_elem_of_singleton in Hkr. injection Hkr as -> ->.
      assert (u = u0) as -> by congruence.
      destruct (Hseen _ Hin) as (r' & u' & Hr' & Hu' & Hd'). eauto.
    + assert (Hfresh : r0 ∉ acc.2).
      { intros Hr. destruct (Hobj r0 Hr) as (u & Hu & Hd & _).
        assert (u = u0) as -> by congruence. done. }
      cbn [fst snd]. split; [split; [|split; [|split]]|].
      * apply NoDup_app. split; [done|]. split.
        -- intros x Hx ->%list_elem_of_singleton. done.
        -- apply NoDup_singleton.
      * intros r [Hr|Hr]%elem_of_app.
        -- destruct (Hold r Hr) as (u & Hu & Hd & Hk).
           exists u. split; [done|]. split; [|done].
           apply elem_of_union. by right.
        -- apply list_elem_of_singleton in Hr. subst r.
           exists u0. split; [done|]. split.
           ++ apply elem_of_union. left. by apply elem_of_singleton.
           ++ exists k0. apply elem_of_app. right.
              by apply list_elem_of_singleton.
      * intros r1 r2 u1 u2 [H1|H1]%elem_of_app [H2|H2]%elem_of_app Hu1 Hu2 Hd.
        -- by eapply Hdist.
        -- apply list_elem_of_singleton in H2. subst r2.
           assert (u2 = u0) as -> by congruence.
           destruct (Hobj r1 H1) as (u & Hu & Hdu & _).
           assert (u = u1) as -> by congruence.
           rewrite Hd in Hdu. done.
        -- apply list_elem_of_singleton in H1. subst r1.
           assert (u1 = u0) as -> by congruence.
           destruct (Hobj r2 H2) as (u & Hu & Hdu & _).
           assert (u = u2) as -> by congruence.
           rewrite <- Hd in Hdu. done.
        -- apply list_elem_of_singleton in H1.
           apply list_elem_of_singleton in H2. congruence.
      * intros k r u [Hkr|Hkr]%elem_of_app Hu.
        -- destruct (Hcomp k r u Hkr Hu) as (r' & u' & Hr' & Hu' & Hd').
           exists r', u'. split; [|done]. apply elem_of_app. by left.
        -- apply list_elem_of_singleton in Hkr. injection Hkr as -> ->.
           assert (u = u0) as -> by congruence.
           exists r0, u0. split; [|done]. apply elem_of_app. right.
           by apply list_elem_of_singleton.
      * intros x [Hx|Hx]%elem_of_union.
        -- apply elem_of_singleton in Hx. subst x.
           exists r0, u0. split; [|done]. apply elem_of_app. right.
           by apply list_elem_of_singleton.
        -- destruct (Hseen x Hx) as (r' & u' & Hr' & Hu' & Hd').
           exists r', u'. split; [|done]. apply elem_of_app. by left.
  - split; [|done]. split; [done|]. split; [done|]. split; [done|].
    intros k r u [Hkr|Hkr]%elem_of_app Hu; [by eapply Hcomp|].
    apply list_elem_of_singleton in Hkr. injection Hkr as -> ->. congruence.
Qed.

Lemma status_loop st items : ∀ seen_items acc,
  status_loop_inv st seen_items acc →
  (∀ x, x ∈ acc.1 → ∃ r u, r ∈ acc.2 ∧ objects st !! r = Some u ∧ domain u = x) →
  status_loop_inv st (seen_items ++ items)
    (foldl (get_active_unblocks_step st) acc items).
Proof.
  induction items as [|item items IH]; intros seen_items acc Hinv Hseen.
  - by rewrite app_nil_r.
  - destruct (status_loop_inv_step st seen_items acc item Hinv Hseen)
      as [Hinv' Hseen'].
    cbn [foldl].
    replace (seen_items ++ item :: items)
      with ((seen_items ++ [item]) ++ items)
      by (by rewrite <- app_assoc).
    by apply IH.
Qed.

(** [get_active_unblocks]: no reference twice, no stored spelling twice, only
    references held by the dictionary, and every object held by the
    dictionary is represented by an entry with its stored spelling. *)
Lemma get_active_unblocks_spec st :
  NoDup (get_active_unblocks st)
  ∧ (∀ r, r ∈ get_active_unblocks st →
       ∃ k u, active_unblocks st !! k = Some r ∧ objects st !! r = Some u)
  ∧ (∀ r1 r2 u1 u2, r1 ∈ get_active_unblocks st →
       r2 ∈ get_active_unblocks st →
       objects st !! r1 = Some u1 → objects st !! r2 = Some u2 →
       domain u1 = domain u2 → r1 = r2)
  ∧ (∀ k r u, active_unblocks st !! k = Some r → objects st !! r = Some u →
       ∃ r' u', r' ∈ get_active_unblocks st ∧ objects st !! r' = Some u'
                ∧ domain u' = domain u).
Proof.
  unfold get_active_unblocks.
  assert (H0 : status_loop_inv st [] (∅, [])).
  { split; [constructor|]. split; [|split].
    - intros r Hr. by apply elem_of_nil in Hr.
    - intros r1 r2 u1 u2 Hr. by apply elem_of_nil in Hr.
    - intros k r u Hk. by apply elem_of_nil in Hk. }
  destruct (status_loop st (map_to_list (active_unblocks st)) [] (∅, []) H0)
    as (Hnd & Hobj & Hdist & Hcomp).
  { intros x Hx. by apply not_elem_of_empty in Hx. }
  rewrite app_nil_l in Hobj, Hcomp.
  split; [done|]. split; [|split; [done|]].
  - intros r Hr. destruct (Hobj r Hr) as (u & Hu & _ & k & Hk).
    exists k, u. split; [|done]. by apply elem_of_map_to_list in Hk.
  - intros k r u Hk Hu. apply (Hcomp k r u); [|done].
    by apply elem_of_map_to_list.
Qed.
End Status.

Section Reachable.
Context (iso : Z → string) (self : config).

Lemma objects_lookup_stored w d ip nm sc rs dur st res st' r u :
  unblock_domain iso self w d ip nm sc rs dur st = (res, st') →
  res = Returned true ∨ res = Raised UnicodeDecodeError →
  objects st !! r = Some u → objects st' !! r = Some u.
Proof.
  intros Hun Hres Hr.
  destruct (unblock_domain_stored _ _ _ _ _ _ _ _ _ _ _ _ Hun Hres)
    as (_ & _ & u0 & new & Ho & _).
  rewrite Ho. apply lookup_app_l_Some. done.
Qed.

Lemma objects_lookup_grant w d ip nm sc rs dur st st' r u :
  unblock_domain iso self w d ip nm sc rs dur st = (Returned true, st') →
  objects st !! r = Some u → objects st' !! r = Some u.
Proof.
  intros Hun. apply (objects_lookup_stored _ _ _ _ _ _ _ _ _ _ _ _ Hun). auto.
Qed.

Lemma step_well_keyed st c :
  well_keyed self st → well_keyed self (step iso self st c).
Proof.
  intros Hwk.
  destruct c as [w|w d ip nm sc rs dur|w d|w|w t]; cbn [step].
  - unfold initialize. rewrite sync_spec. exact Hwk.
  - destruct (unblock_domain_stores_or_not iso self w d ip nm sc rs dur st)
      as [[msg ->]|[->|(res & st' & Hun & Hres)]]; cbn [snd].
    + exact Hwk.
    + destruct (cancel_existing_fields d st) as (Ha & Ho & _).
      intros k r. rewrite Ha, Ho. apply Hwk.
    + rewrite Hun. cbn [snd].
      destruct (unblock_domain_stored _ _ _ _ _ _ _ _ _ _ _ _ Hun Hres)
        as (_ & _ & u & new & Ho & Hdu & _ & _ & Ha & _).
      intros k r. rewrite Ha. case_decide as Hk.
      * intros [= <-]. exists u.
        rewrite Ho, lookup_app_r, Nat.sub_diag by lia.
        split; [done|]. by rewrite Hdu.
      * intros Hr. destruct (Hwk k r Hr) as (u0 & Hu0 & Hk0).
        exists u0. split; [|done]. rewrite Ho. by apply lookup_app_l_Some.
  - destruct (reblock_domain_spec iso self w d st) as (Ho & Ha & _).
    intros k r. rewrite Ha, Ho. case_decide; [done|]. apply Hwk.
  - destruct (reblock_all_spec iso self w st) as (Ha & _).
    intros k r. rewrite Ha, lookup_empty. done.
  - intros k r. rewrite reblock_after_objects.
    destruct (reblock_after_active iso self w t st k) as [->| ->]; [done|].
    apply Hwk.
Qed.

Lemma reachable_ind (P : state → Prop) :
  P init → (∀ st c, P st → P (step iso self st c)) →
  ∀ st, reachable iso self st → P st.
Proof.
  intros H0 Hstep st [cs ->]. unfold run.
  induction cs as [|c cs IH] using rev_ind; [done|].
  rewrite foldl_app. cbn [foldl]. by apply Hstep.
Qed.

Lemma reachable_well_keyed st : reachable iso self st → well_keyed self st.
Proof.
  apply reachable_ind.
  - intros k r Hk. unfold init in Hk. cbn [active_unblocks] in Hk.
    by rewrite lookup_empty in Hk.
  - intros st' c. apply step_well_keyed.
Qed.
End Reachable.

Section Chains.
Context (iso : Z → string) (self : config).

Lemma startswith_www s :
  startswith s "www." = true → s = "www." +:+ string_drop 4 s.
Proof.
  unfold startswith. intros H. apply String.prefix_correct in H.
  destruct s as [|c1 [|c2 [|c3 [|c4 s]]]]; cbn in H; try discriminate.
  injection H as -> -> -> ->. reflexivity.
Qed.

Lemma startswith_www_app s : startswith ("www." +:+ s) "www." = true.
Proof. unfold startswith. destruct s; reflexivity. Qed.

Lemma string_drop_www_app s : string_drop 4 ("www." +:+ s) = s.
Proof. reflexivity. Qed.

Lemma related_www d x :
  startswith d "www." = true →
  x ∈ _get_related_domains self d →
  d = "www." +:+ x ∧ x ∈ all_blocked_domains self.
Proof.
  intros Hd. unfold _get_related_domains. rewrite Hd.
  case_decide as Hb; [|intros H; by apply not_elem_of_empty in H].
  intros ->%elem_of_singleton. split; [by apply startswith_www|done].
Qed.

Lemma related_bare d x :
  startswith d "www." = false →
  x ∈ _get_related_domains self d →
  x = "www." +:+ d ∧ x ∈ all_blocked_domains self.
Proof.
  intros Hd. unfold _get_related_domains. rewrite Hd.
  case_decide as Hb; [|intros H; by apply not_elem_of_empty in H].
  intros ->%elem_of_singleton. done.
Qed.

Lemma related_of_www x :
  x ∈ all_blocked_domains self →
  x ∈ _get_related_domains self ("www." +:+ x).
Proof.
  intros Hx. unfold _get_related_domains.
  rewrite startswith_www_app, string_drop_www_app.
  rewrite decide_True by done. by apply elem_of_singleton.
Qed.

Lemma related_of_bare d :
  startswith d "www." = false → "www." +:+ d ∈ all_blocked_domains self →
  "www." +:+ d ∈ _get_related_domains self d.
Proof.
  intros Hd Hx. unfold _get_related_domains. rewrite Hd.
  rewrite decide_True by done. by apply elem_of_singleton.
Qed.

(** Without www-chains the alias classes of configured domains do not
    overlap partially. *)
Lemma alias_class_overlap e d x :
  no_www_chain self →
  e ∈ all_blocked_domains self → d ∈ all_blocked_domains self →
  x ∈ alias_class self e → x ∈ alias_class self d →
  d ∈ alias_class self e.
Proof.
  intros Hchain He Hd Hxe Hxd.
  apply elem_of_alias_class in Hxe. apply elem_of_alias_class in Hxd.
  apply elem_of_alias_class.
  destruct Hxd as [->|Hxd]; [done|].
  destruct (startswith d "www.") eqn:Sd.
  - destruct (related_www d x Sd Hxd) as [-> Hx].
    destruct Hxe as [->|Hxe].
    + destruct (startswith e "www.") eqn:Se.
      * exfalso. by apply (Hchain e He Se).
      * right. by apply related_of_bare.
    + destruct (startswith e "www.") eqn:Se.
      * destruct (related_www e x Se Hxe) as [-> _]. by left.
      * destruct (related_bare e x Se Hxe) as [-> _].
        exfalso. apply (Hchain ("www." +:+ e)); [done| |done].
        apply startswith_www_app.
  - destruct (related_bare d x Sd Hxd) as [-> Hx].
    destruct Hxe as [<-|Hxe].
    + right. by apply related_of_www.
    + destruct (startswith e "www.") eqn:Se.
      * destruct (related_www e _ Se Hxe) as [-> _].
        exfalso. apply (Hchain ("www." +:+ d)); [done| |done].
        apply startswith_www_app.
      * destruct (related_bare e _ Se Hxe) as [Heq _].
        left. by apply (inj (String.app "www.")) in Heq.
Qed.

Lemma step_tasks_for_classes st c :
  tasks_for_classes self st → tasks_for_classes self (step iso self st c).
Proof.
  intros Hcl.
  assert (Hcs : ∀ ts, cancelled_some (tasks st) ts →
            ∀ t task, ts !! t = Some task →
              ∃ e, e ∈ conditional_domains self
                   ∧ task_domains task = alias_class self e).
  { intros ts [_ H] t task Hl.
    destruct (H t task Hl) as (a & Ha & Hd & _).
    rewrite Hd. by apply (Hcl t a). }
  destruct c as [w|w d ip nm sc rs dur|w d|w|w t]; cbn [step].
  - unfold initialize. rewrite sync_spec. exact Hcl.
  - destruct (unblock_domain_stores_or_not iso self w d ip nm sc rs dur st)
      as [[msg ->]|[->|(res & st' & Hun & Hres)]]; cbn [snd].
    + exact Hcl.
    + exact (Hcs _ (cancel_existing_cancelled_some d st)).
    + rewrite Hun. cbn [snd].
      destruct (unblock_domain_stored _ _ _ _ _ _ _ _ _ _ _ _ Hun Hres)
        as (Hd & _ & u & new & _ & _ & _ & _ & _ & Ht & Hnew & _).
      intros t task. rewrite Ht. intros [Hl|[_ Hl]]%lookup_app_Some.
      * by apply (Hcs _ (cancel_existing_cancelled_some d st) t).
      * destruct Hnew as [(_ & _ & ->)|(_ & _ & ->)];
          [|by rewrite lookup_nil in Hl].
        destruct (t - _)%nat; [|done]. injection Hl as <-. eauto.
  - destruct (reblock_domain_spec iso self w d st) as (_ & _ & Ht & _).
    exact (Hcs _ Ht).
  - destruct (reblock_all_spec iso self w st) as (_ & _ & _ & Ht & _).
    exact (Hcs _ Ht).
  - intros t' task Hl.
    destruct (reblock_after_cases iso self w t st)
      as [(a & Ha & Hs)|[_ Heq]]; [|rewrite Heq in Hl; by apply (Hcl t')].
    rewrite (reblock_after_sleeping iso self w t st a Ha Hs) in Hl.
    cbn [tasks] in Hl. rewrite list_lookup_alter in Hl.
    case_decide; [|by apply (Hcl t')].
    subst t'. rewrite Ha in Hl. injection Hl as <-. by apply (Hcl t a).
Qed.

(** Without www-chains every sleeping timer belongs to the entries of the
    domains it covers, in every step. *)
Lemma step_owned st c :
  no_www_chain self → well_keyed self st → tasks_for_classes self st →
  (∀ d, owned st d) → ∀ d, owned (step iso self st c) d.
Proof.
  intros Hchain Hwk Hcl Hown.
  destruct c as [w|w d ip nm sc rs dur|w d|w|w t]; cbn [step].
  - unfold initialize. rewrite sync_spec. exact Hown.
  - destruct (unblock_domain_stores_or_not iso self w d ip nm sc rs dur st)
      as [[msg ->]|[->|(res & st' & Hun & Hres)]]; cbn [snd].
    + exact Hown.
    + destruct (cancel_existing_fields d st) as (Ha & Ho & _).
      intros d' t task Hl Hs Hd'. rewrite Ha, Ho.
      apply (Hown d' t task); [|done|done].
      eapply cancelled_some_sleeping;
        [apply cancel_existing_cancelled_some|done|done].
    + rewrite Hun. cbn [snd].
      destruct (unblock_domain_stored _ _ _ _ _ _ _ _ _ _ _ _ Hun Hres)
        as (Hd & _ & u & new & Ho & _ & _ & _ & Ha & Ht & Hnew & _).
      destruct (cancel_existing_fields d st) as (_ & _ & _ & Hlen).
      intros d' t task Hl Hs Hd'. rewrite Ht in Hl.
      apply lookup_app_Some in Hl as [Hl|[Hge Hl]].
      * pose proof (cancelled_some_sleeping _ _ _ _
                      (cancel_existing_cancelled_some d st) Hl Hs) as Hl0.
        destruct (Hown d' t task Hl0 Hs Hd') as (r & u0 & Hr & Hu0 & Htm).
        destruct (decide (d' ∈ alias_class self d)) as [Hin|Hnin].
        -- exfalso.
           destruct (Hcl t task Hl0) as (e & He & Hde).
           assert (Hdt : d ∈ task_domains task).
           { rewrite Hde. apply (alias_class_overlap e d d'); try done.
             - apply elem_of_union. by left.
             - apply elem_of_union. by left.
             - by rewrite <- Hde. }
           destruct (Hown d t task Hl0 Hs Hdt) as (r' & u' & Hr' & Hu' & Htm').
           revert Hl. unfold cancel_existing. rewrite Hr'. intros Hl.
           by apply (cancel_timer_of_awake r' st u' t task Hu' Htm' Hl).
        -- exists r, u0. rewrite Ha, decide_False by done.
           split; [done|]. split; [|done].
           rewrite Ho. by apply lookup_app_l_Some.
      * destruct Hnew as [(_ & Htm & ->)|(_ & _ & ->)];
          [|by rewrite lookup_nil in Hl].
        destruct (t - _)%nat eqn:E; [|done]. injection Hl as <-.
        cbn [task_domains] in Hd'.
        exists (length (objects st)), u.
        rewrite Ha, decide_True by done.
        rewrite Ho, lookup_app_r, Nat.sub_diag by lia.
        split; [done|]. split; [done|]. rewrite Htm.
        f_equal. lia.
  - destruct (reblock_domain_spec iso self w d st) as (Ho & Ha & Ht & _ & Hc).
    intros d' t task Hl Hs Hd'.
    pose proof (cancelled_some_sleeping _ _ _ _ Ht Hl Hs) as Hl0.
    destruct (Hown d' t task Hl0 Hs Hd') as (r & u & Hr & Hu & Htm).
    rewrite Ha, Ho. case_decide as Hin.
    + exfalso. by apply (Hc d' r u t task Hin Hr Hu Htm Hl).
    + eauto.
  - destruct (reblock_all_spec iso self w st) as (_ & _ & _ & Ht & Hc).
    intros d' t task Hl Hs Hd'. exfalso.
    pose proof (cancelled_some_sleeping _ _ _ _ Ht Hl Hs) as Hl0.
    destruct (Hown d' t task Hl0 Hs Hd') as (r & u & Hr & Hu & Htm).
    by apply (Hc d' r u t task Hr Hu Htm Hl).
  - intros d' t' task Hl Hs Hd'.
    destruct (reblock_after_still_sleeping iso self w t st t' task Hl Hs)
      as [Hl0 Hne].
    destruct (Hown d' t' task Hl0 Hs Hd') as (r & u & Hr & Hu & Htm).
    exists r, u. rewrite reblock_after_objects. split; [|done].
    destruct (reblock_after_cases iso self w t st)
      as [(a & Ha & Hsa)|[_ ->]]; [|done].
    rewrite (reblock_after_sleeping iso self w t st a Ha Hsa).
    cbn [active_unblocks]. rewrite fold_delete_lookup.
    rewrite decide_False; [done|]. intros Hin.
    destruct (Hown d' t a Ha Hsa Hin) as (r0 & u0 & Hr0 & Hu0 & Htm0).
    apply Hne. congruence.
Qed.

(** In a configuration without www-chains, every sleeping timer of every
    reachable state belongs to the entries of the domains it covers. *)
Lemma reachable_owned st :
  no_www_chain self → reachable iso self st → ∀ d, owned st d.
Proof.
  intros Hchain Hreach.
  cut (well_keyed self st ∧ tasks_for_classes self st ∧ ∀ d, owned st d);
    [tauto|].
  revert st Hreach. apply reachable_ind.
  - split; [|split].
    + intros k r Hk. unfold init in Hk. cbn [active_unblocks] in Hk.
      by rewrite lookup_empty in Hk.
    + intros t task Hl; unfold init in Hl; cbn [tasks] in Hl; by rewrite lookup_nil in Hl.
    + intros d t task Hl; unfold init in Hl; cbn [tasks] in Hl; by rewrite lookup_nil in Hl.
  - intros st c (Hwk & Hcl & Hown). split; [|split].
    + by apply step_well_keyed.
    + by apply step_tasks_for_classes.
    + by apply step_owned.
Qed.

Lemma reachable_tasks_for_classes st :
  reachable iso self st → tasks_for_classes self st.
Proof.
  apply reachable_ind.
  - intros t task Hl. unfold init in Hl. cbn [tasks] in Hl.
    by rewrite lookup_nil in Hl.
  - intros st' c. apply step_tasks_for_classes.
Qed.

(** Hence [reblock_all] leaves no timer asleep there. *)
Lemma reblock_all_cancels_every_timer w st t task :
  no_www_chain self → reachable iso self st →
  tasks (reblock_all iso self w st).2 !! t = Some task →
  status task ≠ Sleeping.
Proof.
  intros Hchain Hreach Hl Hs.
  destruct (reblock_all_spec iso self w st) as (_ & _ & _ & Ht & Hc).
  pose proof (cancelled_some_sleeping _ _ _ _ Ht Hl Hs) as Hl0.
  destruct (reachable_tasks_for_classes st Hreach t task Hl0)
    as (e & He & Hde).
  assert (Hin : e ∈ task_domains task)
    by (rewrite Hde; apply alias_class_self).
  destruct (reachable_owned st Hchain Hreach e t task Hl0 Hs Hin)
    as (r & u & Hr & Hu & Htm).
  by apply (Hc e r u t task Hr Hu Htm Hl).
Qed.
End Chains.

Section RevokeAllFinal.
Context (iso : Z → string) (self : config).

(** X25. [reblock_all] cancels the timer of every object that the dictionary
    refers to, which is every sleeping timer when the state is reachable and
    the configuration has no www-chain; it empties the dictionary and writes
    the whole configured set once, followed by one signal unless the write
    raised. Whatever timers fire afterwards, the dictionary stays empty, so
    every domain stays blocked and every file written lists the whole
    configured set. *)
Theorem reblock_all_blocks_everything w st fs :
  active_unblocks (reblock_all iso self w st).2 = ∅
  ∧ (∀ k r u t a, active_unblocks st !! k = Some r →
       objects st !! r = Some u → timer_task u = Some t →
       tasks (reblock_all iso self w st).2 !! t = Some a → status a ≠ Sleeping)
  ∧ (no_www_chain self → reachable iso self st →
     ∀ t a, tasks (reblock_all iso self w st).2 !! t = Some a →
            status a ≠ Sleeping)
  ∧ (∃ l, effects (reblock_all iso self w st).2 = effects st ++ l
          ∧ tee_contents l
            = [blocklist_content iso (now_write w) (all_blocked_domains self)]
          ∧ hup_count l = if undecodable (run_tee w) then 0%nat else 1%nat)
  ∧ (∀ d, is_domain_unblocked
            (run iso self (fires fs) (reblock_all iso self w st).2) d = false)
  ∧ (∃ l, effects (run iso self (fires fs) (reblock_all iso self w st).2)
          = effects (reblock_all iso self w st).2 ++ l
          ∧ ∀ c, c ∈ tee_contents l →
              ∃ now, c = blocklist_content iso now (all_blocked_domains self)).
Proof.
  destruct (reblock_all_spec iso self w st) as (Ha & Ho & He & Ht & Hc).
  destruct (fires_on_empty iso self fs _ Ha) as (Ha' & Hl).
  split; [done|]. split; [done|].
  split; [intros Hchain Hreach t a; by apply reblock_all_cancels_every_timer|].
  split; [|split; [|done]].
  - exists (sync_effects iso self w ∅). split; [done|].
    rewrite tee_contents_sync, hup_count_sync.
    by rewrite dom_empty_L, difference_empty_L.
  - intros d. apply is_domain_unblocked_false. by rewrite Ha', lookup_empty.
Qed.
End RevokeAllFinal.

(** * The claims on concrete runs *)

Section AliasClass.
Context (iso : Z → string) (self : config).

(** What does hold of an alias class: a grant makes every member active, a
    revocation makes every member of the class of its argument inactive. *)
Lemma alias_class_granted_and_revoked w d ip nm sc rs dur st st' w' m :
  unblock_domain iso self w d ip nm sc rs dur st = (Returned true, st') →
  m ∈ alias_class self d →
  is_domain_unblocked st' m = true
  ∧ is_domain_unblocked (reblock_domain iso self w' d st').2 m = false.
Proof.
  intros Hun Hm.
  destruct (unblock_domain_true_inv _ _ _ _ _ _ _ _ _ _ _ Hun)
    as (_ & _ & _ & _ & Ha & _).
  destruct (reblock_domain_spec iso self w' d st') as (_ & Ha' & _).
  split.
  - apply is_domain_unblocked_true. rewrite Ha, decide_True by done. eauto.
  - apply is_domain_unblocked_false. by rewrite Ha', decide_True.
Qed.
End AliasClass.

(** C1, failing input. With a www-chain configured, [unblock_domain] leaves
    timers of earlier grants of the same domain asleep, and they re-block
    the domain while a later grant is running. In the first run the grants
    at minutes 5 and 8 are the two grants of the claim: the timer of the
    grant at minute 5 is cancelled, but the timer of the grant at minute 0
    is asleep and re-blocks the domain at minute 20, before the grant of
    minute 8 expires at minute 38. In the second run the grants at minutes 5
    and 12 are the two grants: the domain is not in the dictionary at
    minute 12, so the timer of the grant at minute 5 is not cancelled, and
    it re-blocks the domain at minute 35, before the grant of minute 12
    expires at minute 72. *)
Theorem C1_stale_timer_of_earlier_grant_reblocks :
  (chain_1.1 = Returned true ∧ chain_2.1 = Returned true
   ∧ chain_3.1 = Returned true ∧ chain_4.1 = Returned true
   ∧ status <$> tasks chain_4.2 !! 2%nat = Some Cancelled
   ∧ status <$> tasks chain_4.2 !! 3%nat = Some Sleeping
   ∧ status <$> tasks chain_4.2 !! 0%nat = Some Sleeping
   ∧ is_domain_unblocked chain_4.2 "www.example.com" = true
   ∧ is_domain_unblocked
       (_reblock_after iso_example chained (calm (t0 + minutes 20)) 0
          chain_4.2).2
       "www.example.com" = false)
  ∧ (orphan_1.1 = Returned true ∧ orphan_2.1 = Returned true
     ∧ orphan_3.1 = Returned true ∧ orphan_5.1 = Returned true
     ∧ task_domains <$> tasks orphan_3.2 !! 2%nat
       = Some (alias_class chained "www.example.com")
     ∧ timer_task <$> objects orphan_3.2 !! 2%nat = Some (Some 2%nat)
     ∧ status <$> tasks orphan_5.2 !! 2%nat = Some Sleeping
     ∧ is_domain_unblocked orphan_5.2 "www.example.com" = true
     ∧ is_domain_unblocked
         (_reblock_after iso_example chained (calm (t0 + minutes 35)) 2
            orphan_5.2).2
         "www.example.com" = false).
Proof. vm_compute. repeat split; reflexivity. Qed.

(** C2, failing input. [example.com] is conditional and [www.example.com]
    is always blocked: granting [example.com] puts [www.example.com] into the
    dictionary and leaves it out of the file that is written. *)
Theorem C2_always_blocked_www_variant_is_unblocked :
  "www.example.com" ∈ always_blocked_domains pinned_www
  ∧ (unblock_domain iso_example pinned_www (calm t0) "example.com"
       "10.0.0.2" None None "docs" 15 init).1 = Returned true
  ∧ is_domain_unblocked
      (unblock_domain iso_example pinned_www (calm t0) "example.com"
         "10.0.0.2" None None "docs" 15 init).2 "www.example.com" = true
  ∧ tee_contents
      (effects (unblock_domain iso_example pinned_www (calm t0) "example.com"
                  "10.0.0.2" None None "docs" 15 init).2)
    = [blocklist_content iso_example t0 ∅].
Proof.
  split; [compute_done|].
  vm_compute. repeat split; reflexivity.
Qed.

(** C3, failing input. The write exits with status 1 and the signal times
    out, and the grant returns what it returns when both succeed. *)
Lemma C3_failed_sync_returns_true :
  failed (run_tee (broken t0)) = true
  ∧ failed (run_pkill (broken t0)) = true
  ∧ (grant_youtube (broken t0) 15 init).1 = Returned true
  ∧ (grant_youtube (broken t0) 15 init).1 = (grant_youtube (calm t0) 15 init).1.
Proof. vm_compute. repeat split; reflexivity. Qed.

(** C4, failing input. The grant of [youtube.com] covers two domains and
    its expiry calls the callback twice, with one domain each time. *)
Lemma C4_expiry_calls_back_twice :
  (grant_youtube (calm t0) 15 init).1 = Returned true
  ∧ length
      (reblock_events
         (effects
            (_reblock_after iso_example youtube (calm (t0 + minutes 15)) 0
               (grant_youtube (calm t0) 15 init).2).2)) = 2%nat.
Proof. vm_compute. split; reflexivity. Qed.

(** C6, failing input. With a www-chain configured, the timer of a grant
    that was superseded through the other spelling is not referred to by the
    dictionary any more: [reblock_all] leaves it asleep, and when it fires it
    writes the file and calls back. *)
Theorem C6_reblock_all_leaves_a_timer_asleep :
  chain_1.1 = Returned true ∧ chain_2.1 = Returned true
  ∧ status
      <$> tasks (reblock_all iso_example chained (calm (t0 + minutes 2))
                   chain_2.2).2 !! 0%nat
    = Some Sleeping
  ∧ reblock_events
      (drop
         (length
            (effects (reblock_all iso_example chained (calm (t0 + minutes 2))
                        chain_2.2).2))
         (effects
            (_reblock_after iso_example chained (calm (t0 + minutes 20)) 0
               (reblock_all iso_example chained (calm (t0 + minutes 2))
                  chain_2.2).2).2))
    = ["www.example.com"].
Proof. vm_compute. repeat split; reflexivity. Qed.

(** C7, failing input. Both spellings of [youtube.com] are granted; revoking
    the unconfigured [www.www.youtube.com] pops [www.youtube.com] only and
    cancels the timer of the grant: [youtube.com] stays unblocked without a
    timer while [www.youtube.com] is blocked. *)
Theorem C7_revoke_splits_alias_class :
  (grant_youtube (calm t0) 15 init).1 = Returned true
  ∧ is_domain_unblocked
      (reblock_domain iso_example youtube (calm (t0 + minutes 1))
         "www.www.youtube.com" (grant_youtube (calm t0) 15 init).2).2
      "youtube.com" = true
  ∧ is_domain_unblocked
      (reblock_domain iso_example youtube (calm (t0 + minutes 1))
         "www.www.youtube.com" (grant_youtube (calm t0) 15 init).2).2
      "www.youtube.com" = false
  ∧ status
      <$> tasks
            (reblock_domain iso_example youtube (calm (t0 + minutes 1))
               "www.www.youtube.com" (grant_youtube (calm t0) 15 init).2).2
          !! 0%nat
    = Some Cancelled.
Proof. vm_compute. repeat split; reflexivity. Qed.



(** * The theorems at concrete inputs *)

Lemma regrant_youtube :
  owned init "youtube.com"
  ∧ regrant_1 = (Returned true, regrant_1.2)
  ∧ Forall (λ f : world * nat, f.2 ≠ length (tasks init)) []
  ∧ grant_youtube (calm (t0 + minutes 5)) 30
      (run iso_example youtube (fires []) regrant_1.2)
    = (Returned true, regrant_2.2)
  ∧ Forall (λ f : world * nat, f.2 ≠ length (tasks regrant_1.2))
      [(calm (t0 + minutes 10), 0%nat)]
  ∧ status
      <$> tasks (run iso_example youtube
                   (fires [(calm (t0 + minutes 10), 0%nat)]) regrant_2.2)
          !! 0%nat
    = Some Cancelled
  ∧ is_domain_unblocked
      (run iso_example youtube (fires [(calm (t0 + minutes 10), 0%nat)])
         regrant_2.2) "youtube.com" = true.
Proof.
  assert (H1 : owned init "youtube.com").
  { intros t task Hl. unfold init in Hl. cbn [tasks] in Hl.
    by rewrite lookup_nil in Hl. }
  assert (H2 : regrant_1 = (Returned true, regrant_1.2))
    by (vm_compute; reflexivity).
  assert (H3 : Forall (λ f : world * nat, f.2 ≠ length (tasks init)) [])
    by constructor.
  assert (H4 : grant_youtube (calm (t0 + minutes 5)) 30
                 (run iso_example youtube (fires []) regrant_1.2)
               = (Returned true, regrant_2.2))
    by (vm_compute; reflexivity).
  assert (H5 : Forall (λ f : world * nat, f.2 ≠ length (tasks regrant_1.2))
                 [(calm (t0 + minutes 10), 0%nat)]).
  { constructor; [|constructor]. vm_compute. discriminate. }
  destruct (regrant_supersedes_owned_timer iso_example youtube
              (calm t0) "10.0.0.2" (Some "laptop") (Some "/*")
              "watch a lecture" 10
              (calm (t0 + minutes 5)) "10.0.0.2" (Some "laptop") (Some "/*")
              "watch a lecture" 30
              "youtube.com" init regrant_1.2 regrant_2.2 []
              [(calm (t0 + minutes 10), 0%nat)] H1 H2 H3 H4 H5)
    as (Ha & _ & Hc & _).
  exact (conj H1 (conj H2 (conj H3 (conj H4 (conj H5 (conj Ha Hc)))))).
Defined.

Lemma C3_broken_sync_youtube :
  grant_youtube (broken t0) 15 init
  = (Returned true, (grant_youtube (broken t0) 15 init).2)
  ∧ now_init (calm t0) = now_init (broken t0)
  ∧ sync_raises (calm t0) = false
  ∧ is_domain_unblocked (grant_youtube (broken t0) 15 init).2 "youtube.com"
    = true
  ∧ tasks (grant_youtube (broken t0) 15 init).2 !! length (tasks init)
    = Some {| task_domains := alias_class youtube "youtube.com";
              task_minutes := 15; status := Sleeping |}.
Proof.
  assert (H1 : grant_youtube (broken t0) 15 init
               = (Returned true, (grant_youtube (broken t0) 15 init).2))
    by (vm_compute; reflexivity).
  assert (H2 : now_init (calm t0) = now_init (broken t0)) by reflexivity.
  assert (H3 : sync_raises (calm t0) = false) by reflexivity.
  destruct (C3_sync_failure_is_logged_only iso_example youtube
              (broken t0) (calm t0) "youtube.com" "10.0.0.2" (Some "laptop")
              (Some "/*") "watch a lecture" 15 init
              (grant_youtube (broken t0) 15 init).2 H1 H2 H3)
    as (_ & Hb & _ & Hd & _).
  exact (conj H1 (conj H2 (conj H3 (conj Hb Hd)))).
Defined.

Lemma C4_expiry_youtube :
  grant_youtube (calm t0) 15 init
  = (Returned true, (grant_youtube (calm t0) 15 init).2)
  ∧ Forall (λ f : world * nat, f.2 ≠ length (tasks init)) []
  ∧ (∀ m, m ∈ alias_class youtube "youtube.com" →
       is_domain_unblocked
         (_reblock_after iso_example youtube (calm (t0 + minutes 15))
            (length (tasks init))
            (run iso_example youtube (fires [])
               (grant_youtube (calm t0) 15 init).2)).2 m = false)
  ∧ ∃ l,
      effects
        (_reblock_after iso_example youtube (calm (t0 + minutes 15))
           (length (tasks init))
           (run iso_example youtube (fires [])
              (grant_youtube (calm t0) 15 init).2)).2
      = effects
          (run iso_example youtube (fires [])
             (grant_youtube (calm t0) 15 init).2) ++ l
      ∧ reblock_events l = elements (alias_class youtube "youtube.com").
Proof.
  assert (H1 : grant_youtube (calm t0) 15 init
               = (Returned true, (grant_youtube (calm t0) 15 init).2))
    by (vm_compute; reflexivity).
  assert (H2 : Forall (λ f : world * nat, f.2 ≠ length (tasks init)) [])
    by constructor.
  destruct (C4_expiry_reblocks_and_calls_back_per_domain iso_example youtube
              (calm t0) "youtube.com" "10.0.0.2" (Some "laptop") (Some "/*")
              "watch a lecture" 15 init (grant_youtube (calm t0) 15 init).2
              [] (calm (t0 + minutes 15)) H1 H2)
    as (Ha & (l & Hl & _ & _ & Hev) & _).
  refine (conj H1 (conj H2 (conj Ha _))).
  exists l. split; [exact Hl|].
  apply Hev; [reflexivity|]. intros m _. reflexivity.
Defined.

Lemma C5_always_blocked_rejected :
  ("ads.example.com" ∉ conditional_domains youtube)
  ∧ (unblock_domain iso_example youtube (calm t0) "ads.example.com"
       "10.0.0.2" None None "just once" 15 init).1 = Returned false
  ∧ active_unblocks
      (unblock_domain iso_example youtube (calm t0) "ads.example.com"
         "10.0.0.2" None None "just once" 15 init).2
    = active_unblocks init.
Proof.
  assert (H1 : "ads.example.com" ∉ conditional_domains youtube)
    by (vm_compute; discriminate).
  destruct (C5_rejected_grant_changes_nothing iso_example youtube (calm t0)
              "ads.example.com" "10.0.0.2" None None "just once" 15 init H1)
    as (Ha & Hb & _).
  exact (conj H1 (conj Ha Hb)).
Defined.


Lemma youtube_no_www_chain : no_www_chain youtube.
Proof.
  intros y Hy Hs.
  assert (Hcases : y = "youtube.com" ∨ y = "www.youtube.com"
                   ∨ y = "ads.example.com").
  { unfold all_blocked_domains, youtube in Hy. cbn in Hy.
    apply elem_of_union in Hy as [Hy|Hy].
    - apply elem_of_union in Hy as [Hy|Hy];
        apply elem_of_singleton in Hy; auto.
    - apply elem_of_singleton in Hy; auto. }
  destruct Hcases as [->|[->| ->]].
  - vm_compute in Hs. discriminate.
  - vm_compute. discriminate.
  - vm_compute in Hs. discriminate.
Qed.

Lemma reblock_all_youtube :
  no_www_chain youtube
  ∧ reachable iso_example youtube regrant_2.2
  ∧ ∀ t a,
      tasks (reblock_all iso_example youtube (calm (t0 + minutes 6))
               regrant_2.2).2 !! t = Some a →
      status a ≠ Sleeping.
Proof.
  assert (H1 : no_www_chain youtube) by exact youtube_no_www_chain.
  assert (H2 : reachable iso_example youtube regrant_2.2).
  { exists [Unblock (calm t0) "youtube.com" "10.0.0.2" (Some "laptop")
              (Some "/*") "watch a lecture" 10;
            Unblock (calm (t0 + minutes 5)) "youtube.com" "10.0.0.2"
              (Some "laptop") (Some "/*") "watch a lecture" 30].
    reflexivity. }
  destruct (reblock_all_blocks_everything iso_example youtube
              (calm (t0 + minutes 6)) regrant_2.2 [])
    as (_ & _ & Hc & _).
  exact (conj H1 (conj H2 (Hc H1 H2))).
Defined.

(** * Further properties of the manager *)

Section Aliases.
Context (self : config).

Lemma string_length_app (a b : string) :
  String.length (a +:+ b) = (String.length a + String.length b)%nat.
Proof. induction a as [|c a IH]; simpl; [done|]. by rewrite IH. Qed.

Lemma www_app_ne (s : string) : "www." +:+ s ≠ s.
Proof.
  intros H. apply (f_equal String.length) in H.
  rewrite string_length_app in H. simpl in H. lia.
Qed.

(** X1. [_get_related_domains] returns at most one domain; it is configured, it
    is not the argument itself, and it is the argument with [www.] put in
    front or taken off. *)
Theorem related_domains_shape d :
  _get_related_domains self d ⊆ all_blocked_domains self
  ∧ (d ∉ _get_related_domains self d)
  ∧ (∀ x y, x ∈ _get_related_domains self d →
            y ∈ _get_related_domains self d → x = y)
  ∧ (∀ x, x ∈ _get_related_domains self d →
          (startswith d "www." = true ∧ d = "www." +:+ x)
          ∨ (startswith d "www." = false ∧ x = "www." +:+ d)).
Proof.
  split; [apply related_subset|].
  destruct (startswith d "www.") eqn:Sd.
  - split; [|split].
    + intros H. destruct (related_www self d d Sd H) as [Heq _].
      symmetry in Heq. by apply www_app_ne in Heq.
    + intros x y Hx Hy.
      destruct (related_www self d x Sd Hx) as [Hdx _].
      destruct (related_www self d y Sd Hy) as [Hdy _].
      rewrite Hdx in Hdy. by apply (inj (String.app "www.")) in Hdy.
    + intros x Hx. left. split; [done|].
      by destruct (related_www self d x Sd Hx).
  - split; [|split].
    + intros H. destruct (related_bare self d d Sd H) as [Heq _].
      symmetry in Heq. by apply www_app_ne in Heq.
    + intros x y Hx Hy.
      destruct (related_bare self d x Sd Hx) as [-> _].
      by destruct (related_bare self d y Sd Hy) as [-> _].
    + intros x Hx. right. split; [done|].
      by destruct (related_bare self d x Sd Hx).
Qed.

(** X2. When a bare domain and its [www.] spelling are both configured, each is
    the related domain of the other, so both have the same alias class. *)
Theorem alias_class_of_configured_pair d :
  startswith d "www." = false →
  d ∈ all_blocked_domains self →
  "www." +:+ d ∈ all_blocked_domains self →
  _get_related_domains self d = {["www." +:+ d]}
  ∧ _get_related_domains self ("www." +:+ d) = {[d]}
  ∧ alias_class self d = alias_class self ("www." +:+ d).
Proof.
  intros Sd Hd Hw.
  assert (H1 : _get_related_domains self d = {["www." +:+ d]}).
  { unfold _get_related_domains. rewrite Sd. by rewrite decide_True. }
  assert (H2 : _get_related_domains self ("www." +:+ d) = {[d]}).
  { unfold _get_related_domains.
    rewrite startswith_www_app, string_drop_www_app.
    by rewrite decide_True. }
  split; [done|]. split; [done|].
  unfold alias_class. rewrite H1, H2. apply (comm_L (∪)).
Qed.
End Aliases.

Section Outcome.
Context (iso : Z → string) (self : config).

Lemma ActiveUnblock_init_representable now d ip nm sc rs dur :
  is_Some (ActiveUnblock_init now d ip nm sc rs dur) ↔ representable now dur.
Proof.
  unfold ActiveUnblock_init, timedelta_minutes, datetime_add, representable.
  split.
  - intros [u Hu]. revert Hu.
    case_decide; simpl; [|intros [=]].
    case_decide; simpl; [|intros [=]]. done.
  - intros [H1 H2]. rewrite decide_True by done. simpl.
    rewrite decide_True by done. simpl. eauto.
Qed.

(** X3. The four outcomes of [unblock_domain]: [False] exactly for a domain
    that is always blocked or not conditional (always-blocked wins when a
    domain is in both lists); otherwise [OverflowError] exactly when the
    expiry date is not representable; otherwise [UnicodeDecodeError] exactly
    when the write or the signal exits with a status other than 0 and a
    [stderr] that is not UTF-8; and [True] in all other cases. *)
Theorem unblock_domain_outcome w d ip nm sc rs dur st :
  ((unblock_domain iso self w d ip nm sc rs dur st).1 = Returned false
   ↔ d ∈ always_blocked_domains self ∨ d ∉ conditional_domains self)
  ∧ ((unblock_domain iso self w d ip nm sc rs dur st).1 = Raised OverflowError
     ↔ (d ∉ always_blocked_domains self) ∧ d ∈ conditional_domains self
       ∧ ¬ representable (now_init w) dur)
  ∧ ((unblock_domain iso self w d ip nm sc rs dur st).1
     = Raised UnicodeDecodeError
     ↔ (d ∉ always_blocked_domains self) ∧ d ∈ conditional_domains self
       ∧ representable (now_init w) dur ∧ sync_raises w = true)
  ∧ ((unblock_domain iso self w d ip nm sc rs dur st).1 = Returned true
     ↔ (d ∉ always_blocked_domains self) ∧ d ∈ conditional_domains self
       ∧ representable (now_init w) dur ∧ sync_raises w = false).
Proof.
  pose proof (ActiveUnblock_init_representable (now_init w) d ip nm sc rs dur)
    as Hrep.
  destruct (decide (d ∈ always_blocked_domains self)) as [Ha|Ha].
  { unfold unblock_domain. rewrite decide_True by done. cbn [fst].
    split; [|split; [|split]]; (split; [intros E|intros HH]);
      first [discriminate E | reflexivity | tauto]. }
  destruct (decide (d ∉ conditional_domains self)) as [Hc|Hc].
  { unfold unblock_domain. rewrite decide_False by done.
    rewrite decide_True by done. cbn [fst].
    split; [|split; [|split]]; (split; [intros E|intros HH]);
      first [discriminate E | reflexivity | tauto]. }
  apply dec_stable in Hc.
  destruct (ActiveUnblock_init (now_init w) d ip nm sc rs dur) as [u|] eqn:Hu.
  - assert (Hr : representable (now_init w) dur) by (apply Hrep; eauto).
    rewrite (unblock_domain_granted iso self w d ip nm sc rs dur st u Ha Hc Hu).
    cbv zeta.
    destruct (sync_raises w); cbn [fst];
      (split; [|split; [|split]]; (split; [intros E|intros HH]));
      first [discriminate E | reflexivity | tauto
            | destruct HH as (_ & _ & _ & HH); discriminate HH
            | auto].
  - assert (Hr : ¬ representable (now_init w) dur).
    { intros Hr. apply Hrep in Hr as [? [=]]. }
    unfold unblock_domain. rewrite decide_False by done.
    rewrite decide_False by auto. rewrite Hu. cbn [fst].
    split; [|split; [|split]]; (split; [intros E|intros HH]);
      first [discriminate E | reflexivity | tauto | auto].
Qed.

(** X4. An [OverflowError] comes after the timer of the existing entry has been
    cancelled: the call writes nothing and leaves the dictionary and the
    objects as they were, so the domain stays unblocked, but its timer is
    cancelled and will not re-block it. *)
Theorem overflow_cancels_the_running_timer
    w d ip nm sc rs dur st r u t a :
  d ∈ conditional_domains self → d ∉ always_blocked_domains self →
  ¬ representable (now_init w) dur →
  active_unblocks st !! d = Some r → objects st !! r = Some u →
  timer_task u = Some t → tasks st !! t = Some a → status a = Sleeping →
  (unblock_domain iso self w d ip nm sc rs dur st).1 = Raised OverflowError
  ∧ active_unblocks (unblock_domain iso self w d ip nm sc rs dur st).2
    = active_unblocks st
  ∧ objects (unblock_domain iso self w d ip nm sc rs dur st).2 = objects st
  ∧ effects (unblock_domain iso self w d ip nm sc rs dur st).2 = effects st
  ∧ is_domain_unblocked (unblock_domain iso self w d ip nm sc rs dur st).2 d
    = true
  ∧ tasks (unblock_domain iso self w d ip nm sc rs dur st).2 !! t
    = Some (set_status Cancelled a).
Proof.
  intros Hc Ha Hrep Hr Hu Ht Hl Hs.
  assert (Hnone : ActiveUnblock_init (now_init w) d ip nm sc rs dur = None).
  { destruct (ActiveUnblock_init _ _ _ _ _ _ _) eqn:E; [|done].
    exfalso. apply Hrep.
    apply (ActiveUnblock_init_representable (now_init w) d ip nm sc rs dur).
    rewrite E. eauto. }
  unfold unblock_domain. fold (cancel_existing d st).
  rewrite decide_False by done.
  rewrite decide_False by auto. rewrite Hnone. cbn [fst snd].
  assert (Hce : cancel_existing d st = cancel t st).
  { unfold cancel_existing, cancel_timer_of. by rewrite Hr, Hu, Ht. }
  rewrite Hce.
  split; [done|]. split; [done|]. split; [done|]. split; [done|].
  split.
  - apply is_domain_unblocked_true. unfold cancel, with_tasks.
    cbn [active_unblocks]. rewrite Hr. eauto.
  - rewrite cancel_lookup, decide_True by done. rewrite Hl. simpl.
    unfold cancel_task. by rewrite Hs.
Qed.

(** X5. A successful grant touches the alias class of its domain only: other
    keys keep their entries, the earlier objects are as they were, and the
    only task that can change is the timer of the entry that the requested
    spelling had, which becomes cancelled. *)
Theorem grant_leaves_other_domains_alone
    w d ip nm sc rs dur st st' :
  unblock_domain iso self w d ip nm sc rs dur st = (Returned true, st') →
  (∀ k, k ∉ alias_class self d →
        active_unblocks st' !! k = active_unblocks st !! k)
  ∧ (∀ r u, objects st !! r = Some u → objects st' !! r = Some u)
  ∧ length (objects st') = S (length (objects st))
  ∧ length (tasks st') = S (length (tasks st))
  ∧ (∀ i a, tasks st !! i = Some a →
       tasks st' !! i = Some a
       ∨ (status a = Sleeping
          ∧ tasks st' !! i = Some (set_status Cancelled a)
          ∧ ∃ r u, active_unblocks st !! d = Some r
                   ∧ objects st !! r = Some u ∧ timer_task u = Some i)).
Proof.
  intros Hun.
  destruct (unblock_domain_true_inv _ _ _ _ _ _ _ _ _ _ _ Hun)
    as (_ & _ & u & _ & Ha & Ho & Ht & _).
  destruct (cancel_existing_fields d st) as (_ & _ & _ & Hlen).
  split; [intros k Hk; by rewrite Ha, decide_False|].
  split; [intros r u0 Hr; rewrite Ho; by apply lookup_app_l_Some|].
  split; [rewrite Ho, length_app; simpl; lia|].
  split; [rewrite Ht, length_app, Hlen; simpl; lia|].
  intros i a Hl. apply lookup_lt_Some in Hl as Hlt.
  rewrite Ht, lookup_app_l by lia.
  unfold cancel_existing, cancel_timer_of.
  destruct (active_unblocks st !! d) as [r|] eqn:Hr; [|by left].
  destruct (objects st !! r) as [u0|] eqn:Hu0; [|by left].
  destruct (timer_task u0) as [t|] eqn:Htm; [|by left].
  rewrite cancel_lookup. destruct (decide (t = i)) as [->|Hne]; [|by left].
  rewrite Hl. simpl. unfold cancel_task.
  destruct (status a) eqn:Hs.
  - right. split; [done|]. split; [done|]. eauto.
  - by left.
  - by left.
Qed.
End Outcome.

Section Steps.
Context (iso : Z → string) (self : config).

Lemma cancelled_some_forward ts ts' i a :
  cancelled_some ts ts' → ts !! i = Some a →
  ∃ b, ts' !! i = Some b ∧ task_domains b = task_domains a
       ∧ task_minutes b = task_minutes a
       ∧ (status b = status a ∨ status a = Sleeping).
Proof.
  intros [L H] Ha. apply lookup_lt_Some in Ha as Hlt.
  destruct (lookup_lt_is_Some_2 ts' i) as [b Hb]; [lia|].
  destruct (H i b Hb) as (a' & Ha' & Hd & Hm & Hs).
  assert (a' = a) as -> by congruence.
  exists b. split; [done|]. split; [done|]. split; [done|].
  destruct Hs as [?|[? _]]; auto.
Qed.

(** How a step treats the tasks that exist: they keep their place, domains
    and duration, and a status changes only away from [Sleeping]. *)
Lemma step_tasks_age st c i a :
  tasks st !! i = Some a →
  ∃ b, tasks (step iso self st c) !! i = Some b
       ∧ task_domains b = task_domains a
       ∧ task_minutes b = task_minutes a
       ∧ (status b = status a ∨ status a = Sleeping).
Proof.
  intros Ha.
  assert (Hsame : ∃ b, tasks st !! i = Some b
            ∧ task_domains b = task_domains a
            ∧ task_minutes b = task_minutes a
            ∧ (status b = status a ∨ status a = Sleeping))
    by (exists a; auto).
  destruct c as [w|w d ip nm sc rs dur|w d|w|w t]; cbn [step].
  - unfold initialize. by rewrite sync_spec.
  - destruct (unblock_domain_stores_or_not iso self w d ip nm sc rs dur st)
      as [[msg ->]|[->|(res & st' & Hun & Hres)]]; cbn [snd].
    + done.
    + by apply (cancelled_some_forward _ _ _ _
                  (cancel_existing_cancelled_some d st)).
    + rewrite Hun. cbn [snd].
      destruct (unblock_domain_stored _ _ _ _ _ _ _ _ _ _ _ _ Hun Hres)
        as (_ & _ & u & new & _ & _ & _ & _ & _ & Ht & _).
      destruct (cancelled_some_forward _ _ _ _
                  (cancel_existing_cancelled_some d st) Ha) as (b & Hb & H).
      exists b. split; [|done]. rewrite Ht. by apply lookup_app_l_Some.
  - destruct (reblock_domain_spec iso self w d st) as (_ & _ & Ht & _).
    by apply (cancelled_some_forward _ _ _ _ Ht).
  - destruct (reblock_all_spec iso self w st) as (_ & _ & _ & Ht & _).
    by apply (cancelled_some_forward _ _ _ _ Ht).
  - destruct (reblock_after_cases iso self w t st)
      as [(task & Hl & Hs)|[_ ->]]; [|done].
    rewrite (reblock_after_sleeping iso self w t st task Hl Hs).
    cbn [tasks]. rewrite list_lookup_alter.
    destruct (decide (t = i)) as [->|Hne]; [|done].
    rewrite Ha. simpl. eexists. split; [done|].
    assert (task = a) as -> by congruence. auto.
Qed.

(** The objects that exist are never changed or dropped by a step. *)
Lemma step_objects_kept st c r u :
  objects st !! r = Some u → objects (step iso self st c) !! r = Some u.
Proof.
  intros Hr.
  destruct c as [w|w d ip nm sc rs dur|w d|w|w t]; cbn [step].
  - unfold initialize. by rewrite sync_spec.
  - destruct (unblock_domain_stores_or_not iso self w d ip nm sc rs dur st)
      as [[msg ->]|[->|(res & st' & Hun & Hres)]]; cbn [snd].
    + done.
    + by destruct (cancel_existing_fields d st) as (_ & -> & _).
    + rewrite Hun. cbn [snd].
      by apply (objects_lookup_stored iso self _ _ _ _ _ _ _ _ _ _ _ _
                  Hun Hres).
  - by destruct (reblock_domain_spec iso self w d st) as (-> & _).
  - by destruct (reblock_all_spec iso self w st) as (_ & -> & _).
  - by rewrite reblock_after_objects.
Qed.

(** X6. The record of a grant is never modified once it is stored: whatever
    calls and timers follow, the object keeps its requester, reason,
    [unblocked_at], [expires_at] and timer. An extension stores a new
    object instead. *)
Theorem grant_records_are_immutable cs st r u :
  objects st !! r = Some u → objects (run iso self cs st) !! r = Some u.
Proof.
  revert st. induction cs as [|c cs IH]; intros st Hr; [done|].
  cbn [run foldl]. apply IH. by apply step_objects_kept.
Qed.

(** X7. A timer never wakes again: through every sequence of calls and timers
    a task keeps its domains and its duration, and a task that is cancelled
    or finished stays exactly as it is. *)
Theorem timers_never_wake_again cs st i a :
  tasks st !! i = Some a →
  ∃ b, tasks (run iso self cs st) !! i = Some b
       ∧ task_domains b = task_domains a
       ∧ task_minutes b = task_minutes a
       ∧ (status a ≠ Sleeping → b = a).
Proof.
  revert st a. induction cs as [|c cs IH]; intros st a Ha.
  - exists a. auto.
  - cbn [run foldl].
    destruct (step_tasks_age st c i a Ha) as (b & Hb & Hd & Hm & Hs).
    destruct (IH _ b Hb) as (b' & Hb' & Hd' & Hm' & Hs').
    exists b'. split; [done|]. split; [congruence|]. split; [congruence|].
    intros Hawake.
    assert (b = a) as ->.
    { apply Task_eq; try done. destruct Hs; [done|contradiction]. }
    by apply Hs'.
Qed.

(** X8. A timer runs its body at most once: when it has fired, firing it again
    changes nothing. *)
Theorem timer_fires_once w w' t st :
  _reblock_after iso self w' t (_reblock_after iso self w t st).2
  = (Returned (), (_reblock_after iso self w t st).2).
Proof.
  assert (Hidle : ∀ task,
            tasks (_reblock_after iso self w t st).2 !! t = Some task →
            status task ≠ Sleeping).
  { intros task Hl Hs.
    by destruct (reblock_after_still_sleeping iso self w t st t task Hl Hs). }
  rewrite (surjective_pairing (_reblock_after iso self w' t _)).
  rewrite (reblock_after_idle iso self w' t _ Hidle).
  by rewrite (reblock_after_idle_returns iso self w' t _ Hidle).
Qed.

(** X9. Only a grant unblocks a domain: a domain that is unblocked after a
    step was unblocked before it, or the step is an [unblock_domain] for a
    conditional domain that is not always blocked and whose alias class
    contains it, and the call returned [True] or raised
    [UnicodeDecodeError]. *)
Theorem only_a_grant_unblocks st c k :
  is_domain_unblocked (step iso self st c) k = true →
  is_domain_unblocked st k = true
  ∨ ∃ w d ip nm sc rs dur,
      c = Unblock w d ip nm sc rs dur
      ∧ ((unblock_domain iso self w d ip nm sc rs dur st).1 = Returned true
         ∨ (unblock_domain iso self w d ip nm sc rs dur st).1
           = Raised UnicodeDecodeError)
      ∧ (d ∉ always_blocked_domains self)
      ∧ d ∈ conditional_domains self
      ∧ k ∈ alias_class self d.
Proof.
  rewrite !is_domain_unblocked_true.
  destruct c as [w|w d ip nm sc rs dur|w d|w|w t]; cbn [step].
  - unfold initialize. rewrite sync_spec. by left.
  - destruct (unblock_domain_stores_or_not iso self w d ip nm sc rs dur st)
      as [[msg Heq]|[Heq|(res & st' & Hun & Hres)]].
    + rewrite Heq. by left.
    + rewrite Heq. cbn [snd].
      destruct (cancel_existing_fields d st) as (-> & _). by left.
    + rewrite Hun. cbn [snd].
      destruct (unblock_domain_stored _ _ _ _ _ _ _ _ _ _ _ _ Hun Hres)
        as (Hc & Hna & u & new & _ & _ & _ & _ & Ha & _).
      rewrite Ha. case_decide; [|by left].
      intros _. right. exists w, d, ip, nm, sc, rs, dur. rewrite Hun.
      cbn [fst]. done.
  - destruct (reblock_domain_spec iso self w d st) as (_ & Ha & _).
    rewrite Ha. case_decide; [by intros [? [=]]|by left].
  - destruct (reblock_all_spec iso self w st) as (Ha & _).
    rewrite Ha, lookup_empty. by intros [? [=]].
  - destruct (reblock_after_active iso self w t st k) as [->| ->];
      [by intros [? [=]]|by left].
Qed.
End Steps.

Section Syncs.
Context (iso : Z → string) (self : config).

Lemma hup_count_app l1 l2 :
  hup_count (l1 ++ l2) = (hup_count l1 + hup_count l2)%nat.
Proof. unfold hup_count. by rewrite omap_app, length_app. Qed.

Lemma hup_count_Reblocked l : hup_count (map Reblocked l) = 0%nat.
Proof. induction l; [done|]. exact IHl. Qed.

Lemma hup_count_split l1 l2 : hup_count (l1 ++ Hup :: l2) ≠ 0%nat.
Proof. rewrite hup_count_app. unfold hup_count at 2. cbn. lia. Qed.

(** In the effects of one sync the file write comes first. *)
Lemma sync_effects_head w a tail :
  ∃ path content rest,
    sync_effects iso self w a ++ tail = Tee path content :: rest.
Proof. unfold sync_effects. cbn [app]. eauto. Qed.

(** In a list of effects that is empty of signals or begins with a file
    write, every signal has a file write before it. *)
Lemma hup_preceded l :
  hup_count l = 0%nat ∨ (∃ path content rest, l = Tee path content :: rest) →
  ∀ l1 l2, l = l1 ++ Hup :: l2 → ∃ path content, Tee path content ∈ l1.
Proof.
  intros [Hz|(p & c & rest & ->)] l1 l2 Hl.
  - subst l. by destruct (hup_count_split l1 l2).
  - destruct l1 as [|e l1]; [discriminate Hl|].
    injection Hl as <- _. exists p, c. apply elem_of_cons. by left.
Qed.

(** X10. A step never signals dnsmasq without having written the blocklist:
    a step that syncs writes one file and sends one signal, unless the
    write exits with a status other than 0 and a [stderr] that is not UTF-8,
    where the exception leaves no signal; any other step writes no file and
    sends no signal; and every signal of a step comes after a file write of
    that step. *)
Theorem signal_only_after_a_write st c :
  ∃ l, effects (step iso self st c) = effects st ++ l
       ∧ ((syncs self c st
           ∧ length (tee_contents l) = 1%nat
           ∧ hup_count l
             = if undecodable (run_tee (world_of c)) then 0%nat else 1%nat)
          ∨ (¬ syncs self c st
             ∧ tee_contents l = [] ∧ hup_count l = 0%nat))
       ∧ (∀ l1 l2, l = l1 ++ Hup :: l2 →
            ∃ path content, Tee path content ∈ l1).
Proof.
  cut (∃ l, effects (step iso self st c) = effects st ++ l
       ∧ ((syncs self c st
           ∧ length (tee_contents l) = 1%nat
           ∧ hup_count l
             = if undecodable (run_tee (world_of c)) then 0%nat else 1%nat)
          ∨ (¬ syncs self c st
             ∧ tee_contents l = [] ∧ hup_count l = 0%nat))
       ∧ (hup_count l = 0%nat
          ∨ ∃ path content rest, l = Tee path content :: rest)).
  { intros (l & He & Hc & Hh). exists l.
    split; [done|]. split; [done|]. by apply hup_preceded. }
  destruct c as [w|w d ip nm sc rs dur|w d|w|w t]; cbn [step syncs world_of].
  - unfold initialize. rewrite sync_spec. cbn [snd synced effects].
    eexists. split; [done|]. split.
    + left. by rewrite tee_contents_sync, hup_count_sync.
    + right. rewrite <- (app_nil_r (sync_effects _ _ _ _)).
      apply sync_effects_head.
  - pose proof (ActiveUnblock_init_representable (now_init w) d ip nm sc rs
                  dur) as Hrep.
    destruct (decide (d ∈ always_blocked_domains self)) as [Ha|Ha].
    { unfold unblock_domain. rewrite decide_True by done.
      cbn [snd effects emit]. eexists [_]. split; [done|]. split; [|by left].
      right. split; [tauto|done]. }
    destruct (decide (d ∉ conditional_domains self)) as [Hc|Hc].
    { unfold unblock_domain. rewrite decide_False by done.
      rewrite decide_True by done.
      cbn [snd effects emit]. eexists [_]. split; [done|]. split; [|by left].
      right. split; [tauto|done]. }
    apply dec_stable in Hc.
    destruct (ActiveUnblock_init (now_init w) d ip nm sc rs dur) as [u|] eqn:Hu.
    + assert (Hr : representable (now_init w) dur) by (apply Hrep; eauto).
      rewrite (unblock_domain_granted iso self w d ip nm sc rs dur st u
                 Ha Hc Hu).
      cbv zeta. destruct (sync_raises w); cbn [snd effects];
        (eexists; split; [done|]);
        (split;
         [left; (split; [done|]);
          by rewrite tee_contents_sync, hup_count_sync
         |right; rewrite <- (app_nil_r (sync_effects _ _ _ _));
          apply sync_effects_head]).
    + unfold unblock_domain. fold (cancel_existing d st).
      rewrite decide_False by done. rewrite decide_False by auto.
      rewrite Hu. cbn [snd].
      destruct (cancel_existing_fields d st) as (_ & _ & -> & _).
      exists []. rewrite app_nil_r. split; [done|]. split; [|by left].
      right. split; [|done]. intros (_ & _ & Hr). apply Hrep in Hr as [? [=]].
  - destruct (reblock_domain_spec iso self w d st) as (_ & _ & _ & He & _).
    eexists. split; [exact He|]. split.
    + left. by rewrite tee_contents_sync, hup_count_sync.
    + right. rewrite <- (app_nil_r (sync_effects _ _ _ _)).
      apply sync_effects_head.
  - destruct (reblock_all_spec iso self w st) as (_ & _ & He & _).
    eexists. split; [exact He|]. split.
    + left. by rewrite tee_contents_sync, hup_count_sync.
    + right. rewrite <- (app_nil_r (sync_effects _ _ _ _)).
      apply sync_effects_head.
  - destruct (reblock_after_cases iso self w t st)
      as [(task & Hl & Hs)|[Hidle ->]].
    + rewrite (reblock_after_sleeping iso self w t st task Hl Hs).
      cbn [effects]. eexists. split; [done|]. split.
      * left. split; [eauto|].
        rewrite tee_contents_app, tee_contents_sync, tee_contents_Reblocked.
        rewrite hup_count_app, hup_count_sync, hup_count_Reblocked.
        by rewrite Nat.add_0_r.
      * right. apply sync_effects_head.
    + exists []. rewrite app_nil_r. split; [done|]. split; [|by left].
      right. split; [|done]. intros (a & Ha & Hs). by apply (Hidle a).
Qed.
End Syncs.

Section Revoke.
Context (iso : Z → string) (self : config).

Lemma reblock_fold_nothing st (D : gset string) :
  (∀ k, k ∈ D → active_unblocks st !! k = None) →
  set_fold reblock_one st D = st.
Proof.
  revert D.
  refine (set_fold_ind_L (λ acc X,
    (∀ k, k ∈ X → active_unblocks st !! k = None) → acc = st) _ _ _ _).
  - done.
  - intros x X acc Hx IH Hnone.
    rewrite IH.
    + unfold reblock_one. rewrite Hnone; [done|].
      apply elem_of_union; left. by apply elem_of_singleton.
    + intros k Hk. apply Hnone. apply elem_of_union. by right.
Qed.

Lemma reblock_domain_when_blocked w d st :
  (∀ k, k ∈ alias_class self d → active_unblocks st !! k = None) →
  reblock_domain iso self w d st = (sync_outcome w, synced iso self w st).
Proof.
  intros Hnone. unfold reblock_domain. fold (alias_class self d).
  by rewrite reblock_fold_nothing, sync_spec.
Qed.

(** X11. Revoking a domain none of whose spellings is unblocked changes no
    entry, object or task. The blocklist is written and dnsmasq signalled
    all the same, and the call returns, unless the write or the signal exits
    with a status other than 0 and a [stderr] that is not UTF-8: then it
    raises [UnicodeDecodeError]. *)
Theorem revoke_of_a_blocked_domain_only_syncs w d st :
  (∀ k, k ∈ alias_class self d → is_domain_unblocked st k = false) →
  (reblock_domain iso self w d st).1
  = (if sync_raises w then Raised UnicodeDecodeError else Returned ())
  ∧ active_unblocks (reblock_domain iso self w d st).2 = active_unblocks st
  ∧ objects (reblock_domain iso self w d st).2 = objects st
  ∧ tasks (reblock_domain iso self w d st).2 = tasks st
  ∧ effects (reblock_domain iso self w d st).2
    = effects st ++ sync_effects iso self w (active_unblocks st).
Proof.
  intros Hnone. rewrite reblock_domain_when_blocked; [done|].
  intros k Hk. by apply is_domain_unblocked_false, Hnone.
Qed.

(** X12. Revoking twice is revoking once: the second call finds nothing to pop
    and no timer to cancel, it only syncs again. *)
Theorem revoke_is_idempotent w w' d st :
  active_unblocks (reblock_domain iso self w' d (reblock_domain iso self w d st).2).2
  = active_unblocks (reblock_domain iso self w d st).2
  ∧ objects (reblock_domain iso self w' d (reblock_domain iso self w d st).2).2
    = objects (reblock_domain iso self w d st).2
  ∧ tasks (reblock_domain iso self w' d (reblock_domain iso self w d st).2).2
    = tasks (reblock_domain iso self w d st).2
  ∧ ∀ k, k ∈ alias_class self d →
      is_domain_unblocked (reblock_domain iso self w d st).2 k = false.
Proof.
  assert (Hnone : ∀ k, k ∈ alias_class self d →
            active_unblocks (reblock_domain iso self w d st).2 !! k = None).
  { intros k Hk.
    destruct (reblock_domain_spec iso self w d st) as (_ & Ha & _).
    by rewrite Ha, decide_True. }
  rewrite (reblock_domain_when_blocked w' d _ Hnone). cbn.
  split; [done|]. split; [done|]. split; [done|].
  intros k Hk. by apply is_domain_unblocked_false, Hnone.
Qed.
End Revoke.

Section Entries.
Context (iso : Z → string) (self : config).

(** Where the entries of the dictionary after a step come from. *)
Lemma step_active st c k r :
  active_unblocks (step iso self st c) !! k = Some r →
  active_unblocks st !! k = Some r
  ∨ ∃ w d ip nm sc rs dur res st',
      c = Unblock w d ip nm sc rs dur
      ∧ unblock_domain iso self w d ip nm sc rs dur st = (res, st')
      ∧ (res = Returned true ∨ res = Raised UnicodeDecodeError)
      ∧ k ∈ alias_class self d ∧ r = length (objects st).
Proof.
  destruct c as [w|w d ip nm sc rs dur|w d|w|w t]; cbn [step].
  - unfold initialize. rewrite sync_spec. by left.
  - destruct (unblock_domain_stores_or_not iso self w d ip nm sc rs dur st)
      as [[msg Heq]|[Heq|(res & st' & Hun & Hres)]].
    + rewrite Heq. by left.
    + rewrite Heq. cbn [snd].
      destruct (cancel_existing_fields d st) as (-> & _). by left.
    + rewrite Hun. cbn [snd].
      destruct (unblock_domain_stored _ _ _ _ _ _ _ _ _ _ _ _ Hun Hres)
        as (_ & _ & u & new & _ & _ & _ & _ & Ha & _).
      rewrite Ha. case_decide; [|by left].
      intros [= <-]. right. exists w, d, ip, nm, sc, rs, dur, res, st'. done.
  - destruct (reblock_domain_spec iso self w d st) as (_ & Ha & _).
    rewrite Ha. case_decide; [done|by left].
  - destruct (reblock_all_spec iso self w st) as (Ha & _).
    by rewrite Ha, lookup_empty.
  - destruct (reblock_after_active iso self w t st k) as [->| ->];
      [done|by left].
Qed.

Lemma timer_sound_step st c u :
  timer_sound self st u → timer_sound self (step iso self st c) u.
Proof.
  unfold timer_sound. destruct (timer_task u) as [t|]; [|done].
  intros (task & Hl & Hd & He).
  destruct (step_tasks_age iso self st c t task Hl) as (b & Hb & Hdb & Hmb & _).
  exists b. split; [done|]. split; [congruence|]. by rewrite Hmb.
Qed.

Lemma entry_sound_step st c k r :
  entry_sound self st k r → entry_sound self (step iso self st c) k r.
Proof.
  intros (u & Hu & Hk & Hc & Ha & Ht).
  exists u. split; [by apply step_objects_kept|].
  split; [done|]. split; [done|]. split; [done|]. by apply timer_sound_step.
Qed.

Lemma step_entries_sound st c :
  entries_sound self st → entries_sound self (step iso self st c).
Proof.
  intros Hs k r Hk.
  destruct (step_active st c k r Hk)
    as [Hold|(w & d & ip & nm & sc & rs & dur & res & st' & -> & Hun & Hres
              & Hin & ->)].
  - apply entry_sound_step. by apply Hs.
  - cbn [step]. rewrite Hun. cbn [snd].
    destruct (unblock_domain_stored _ _ _ _ _ _ _ _ _ _ _ _ Hun Hres)
      as (Hc & Ha & u & new & Ho & Hd & Hat & He & _ & Ht & Hnew & _).
    destruct (cancel_existing_fields d st) as (_ & _ & _ & Hlen).
    exists u. split.
    { rewrite Ho, lookup_app_r, Nat.sub_diag by lia. done. }
    rewrite Hd. split; [done|]. split; [done|]. split; [done|].
    unfold timer_sound.
    destruct Hnew as [(_ & -> & ->)|(_ & -> & _)]; [|done].
    eexists. split.
    { rewrite Ht, lookup_app_r by lia. by rewrite Hlen, Nat.sub_diag. }
    cbn [task_domains task_minutes]. rewrite Hd. split; [done|].
    by rewrite He, Hat.
Qed.

Lemma step_one_object_per_spelling st c :
  entries_sound self st → one_object_per_spelling st →
  one_object_per_spelling (step iso self st c).
Proof.
  intros Hs Hone k1 k2 r1 r2 u1 u2 Hk1 Hk2 Hu1 Hu2 Hdom.
  assert (Hkept : ∀ k r u, active_unblocks st !! k = Some r →
            objects (step iso self st c) !! r = Some u →
            objects st !! r = Some u ∧ k ∈ alias_class self (domain u)).
  { intros k r u Hk Hu.
    destruct (Hs k r Hk) as (u0 & Hu0 & Hin & _).
    pose proof (step_objects_kept iso self st c r u0 Hu0) as Hu0'.
    assert (u = u0) as -> by congruence. done. }
  assert (Hnew : ∀ w d ip nm sc rs dur res st' u,
            c = Unblock w d ip nm sc rs dur →
            unblock_domain iso self w d ip nm sc rs dur st = (res, st') →
            res = Returned true ∨ res = Raised UnicodeDecodeError →
            objects (step iso self st c) !! length (objects st) = Some u →
            domain u = d
            ∧ ∀ k, k ∈ alias_class self d →
                   active_unblocks (step iso self st c) !! k
                   = Some (length (objects st))).
  { intros w d ip nm sc rs dur res st' u -> Hun Hres. cbn [step]. rewrite Hun.
    cbn [snd].
    destruct (unblock_domain_stored _ _ _ _ _ _ _ _ _ _ _ _ Hun Hres)
      as (_ & _ & u0 & new & Ho & Hd & _ & _ & Ha & _).
    rewrite Ho, lookup_app_r, Nat.sub_diag by lia. intros [= <-].
    split; [done|]. intros k Hk. by rewrite Ha, decide_True. }
  destruct (step_active st c k1 r1 Hk1)
    as [Hold1|(w & d & ip & nm & sc & rs & dur & res & st' & Hc & Hun & Hres
               & Hin1 & ->)];
  destruct (step_active st c k2 r2 Hk2)
    as [Hold2|(w2 & d2 & ip2 & nm2 & sc2 & rs2 & dur2 & res2 & st2 & Hc2 & Hun2
               & Hres2 & Hin2 & ->)].
  - destruct (Hkept k1 r1 u1 Hold1 Hu1) as [Hu1' _].
    destruct (Hkept k2 r2 u2 Hold2 Hu2) as [Hu2' _].
    by apply (Hone k1 k2 r1 r2 u1 u2).
  - exfalso.
    destruct (Hkept k1 r1 u1 Hold1 Hu1) as [_ Hin].
    destruct (Hnew _ _ _ _ _ _ _ _ _ _ Hc2 Hun2 Hres2 Hu2) as [Hd2 Hall].
    rewrite Hdom, Hd2 in Hin.
    rewrite (Hall k1 Hin) in Hk1. injection Hk1 as <-.
    destruct (Hs k1 _ Hold1) as (u0 & Hu0 & _).
    apply lookup_lt_Some in Hu0. lia.
  - exfalso.
    destruct (Hkept k2 r2 u2 Hold2 Hu2) as [_ Hin].
    destruct (Hnew _ _ _ _ _ _ _ _ _ _ Hc Hun Hres Hu1) as [Hd1 Hall].
    rewrite <- Hdom, Hd1 in Hin.
    rewrite (Hall k2 Hin) in Hk2. injection Hk2 as <-.
    destruct (Hs k2 _ Hold2) as (u0 & Hu0 & _).
    apply lookup_lt_Some in Hu0. lia.
  - done.
Qed.

Lemma reachable_entries st :
  reachable iso self st → entries_sound self st ∧ one_object_per_spelling st.
Proof.
  revert st.
  apply (reachable_ind iso self
           (λ st, entries_sound self st ∧ one_object_per_spelling st)).
  - split.
    + intros k r Hk. unfold init in Hk. cbn [active_unblocks] in Hk.
      by rewrite lookup_empty in Hk.
    + intros k1 k2 r1 r2 u1 u2 Hk. unfold init in Hk.
      cbn [active_unblocks] in Hk. by rewrite lookup_empty in Hk.
  - intros st' c [Hs Hone]. split.
    + by apply step_entries_sound.
    + by apply step_one_object_per_spelling.
Qed.
End Entries.

Section ReachableEntries.
Context (iso : Z → string) (self : config).

Lemma reachable_step st c :
  reachable iso self st → reachable iso self (step iso self st c).
Proof.
  intros [cs ->]. exists (cs ++ [c]). unfold run. by rewrite foldl_app.
Qed.

(** X13. Whatever is unblocked in a reachable state is a configured domain: a
    member of the alias class of a conditional domain that is not always
    blocked. Nothing outside the configuration is ever in the dictionary. *)
Theorem unblocked_domains_are_configured st k :
  reachable iso self st → is_domain_unblocked st k = true →
  k ∈ all_blocked_domains self
  ∧ ∃ d, d ∈ conditional_domains self ∧ (d ∉ always_blocked_domains self)
         ∧ k ∈ alias_class self d.
Proof.
  intros Hreach [r Hr]%is_domain_unblocked_true.
  destruct (reachable_entries iso self st Hreach) as [Hs _].
  destruct (Hs k r Hr) as (u & _ & Hk & Hc & Ha & _).
  split; [by apply (alias_class_subset self (domain u) Hc k)|]. eauto.
Qed.

(** X14. An always-blocked domain that is not the www variant of a conditional
    domain is never unblocked, and every blocklist that is written lists
    it. *)
Theorem always_blocked_stays_blocked st c a :
  a ∈ always_blocked_domains self →
  (∀ d, d ∈ conditional_domains self → a ∉ _get_related_domains self d) →
  reachable iso self st →
  is_domain_unblocked st a = false
  ∧ ∃ l, effects (step iso self st c) = effects st ++ l
         ∧ ∀ content, content ∈ tee_contents l →
             ∃ now B, content = blocklist_content iso now B ∧ a ∈ B.
Proof.
  intros Ha Hrel Hreach.
  assert (Hblocked : ∀ st', reachable iso self st' →
            active_unblocks st' !! a = None).
  { intros st' Hreach'.
    destruct (active_unblocks st' !! a) as [r|] eqn:Hr; [|done].
    exfalso.
    destruct (reachable_entries iso self st' Hreach') as [Hs _].
    destruct (Hs a r Hr) as (u & _ & Hk & Hc & Hna & _).
    apply elem_of_alias_class in Hk as [->|Hk]; [done|].
    by apply (Hrel (domain u)). }
  split; [by apply is_domain_unblocked_false, Hblocked|].
  destruct (step_tee iso self st c) as (l & Hl & Hc).
  exists l. split; [done|]. intros content Hin.
  destruct (Hc content Hin) as [now ->]. eexists _, _. split; [done|].
  apply elem_of_difference. split.
  - apply elem_of_union. by right.
  - apply not_elem_of_dom. by apply Hblocked, reachable_step.
Qed.

(** X15. Every entry of the dictionary of a reachable state has its object:
    the object stores a conditional domain that is not always blocked and
    the key is in the alias class of that domain. The object has no timer
    (its grant raised before one was created), or its timer exists, was
    created for exactly that class, and [expires_at] is [unblocked_at] plus
    the duration the timer sleeps. *)
Theorem every_entry_has_its_object st k r :
  reachable iso self st → active_unblocks st !! k = Some r →
  ∃ u,
    objects st !! r = Some u
    ∧ k ∈ alias_class self (domain u)
    ∧ domain u ∈ conditional_domains self
    ∧ (domain u ∉ always_blocked_domains self)
    ∧ (timer_task u = None
       ∨ ∃ t task,
           timer_task u = Some t
           ∧ tasks st !! t = Some task
           ∧ task_domains task = alias_class self (domain u)
           ∧ expires_at u
             = unblocked_at u + task_minutes task * 60 * 1000000).
Proof.
  intros Hreach Hr.
  destruct (reachable_entries iso self st Hreach) as [Hs _].
  destruct (Hs k r Hr) as (u & Hu & Hk & Hc & Ha & Ht).
  exists u. split; [done|]. split; [done|]. split; [done|]. split; [done|].
  unfold timer_sound in Ht. destruct (timer_task u) as [t|]; [|by left].
  right. destruct Ht as (task & Hl & Hd & He). exists t, task. done.
Qed.

(** X16. In a reachable state the status list covers the dictionary: the object
    of every unblocked domain is listed, exactly once, and the list is empty
    exactly when nothing is unblocked. *)
Theorem status_list_covers_every_entry st :
  reachable iso self st →
  (∀ k r, active_unblocks st !! k = Some r → r ∈ get_active_unblocks st)
  ∧ NoDup (get_active_unblocks st)
  ∧ (get_active_unblocks st = [] ↔ active_unblocks st = ∅).
Proof.
  intros Hreach.
  destruct (reachable_entries iso self st Hreach) as [Hs Hone].
  destruct (get_active_unblocks_spec st) as (Hnd & Hheld & _ & Hcomp).
  assert (Hcover : ∀ k r, active_unblocks st !! k = Some r →
                          r ∈ get_active_unblocks st).
  { intros k r Hr.
    destruct (Hs k r Hr) as (u & Hu & _).
    destruct (Hcomp k r u Hr Hu) as (r' & u' & Hr' & Hu' & Hd).
    destruct (Hheld r' Hr') as (k' & _ & Hk' & _).
    by rewrite <- (Hone k' k r' r u' u Hk' Hr Hu' Hu Hd). }
  split; [done|]. split; [done|]. split.
  - intros Hnil. apply map_eq. intros k. rewrite lookup_empty.
    destruct (active_unblocks st !! k) as [r|] eqn:Hr; [|done].
    pose proof (Hcover k r Hr) as Hin. rewrite Hnil in Hin.
    by apply elem_of_nil in Hin.
  - intros Hempty. unfold get_active_unblocks.
    by rewrite Hempty, map_to_list_empty.
Qed.
End ReachableEntries.

Section WholeClasses.
Context (iso : Z → string) (self : config).

Lemma related_unique d x y :
  x ∈ _get_related_domains self d → y ∈ _get_related_domains self d → x = y.
Proof.
  intros Hx Hy.
  destruct (startswith d "www.") eqn:Sd.
  - destruct (related_www self d x Sd Hx) as [Hdx _].
    destruct (related_www self d y Sd Hy) as [Hdy _].
    rewrite Hdx in Hdy. by apply (inj (String.app "www.")) in Hdy.
  - destruct (related_bare self d x Sd Hx) as [-> _].
    by destruct (related_bare self d y Sd Hy) as [-> _].
Qed.

(** Without www-chains, overlapping alias classes of configured domains are
    equal. *)
Lemma alias_class_eq e d :
  no_www_chain self →
  e ∈ all_blocked_domains self → d ∈ all_blocked_domains self →
  d ∈ alias_class self e → alias_class self d = alias_class self e.
Proof.
  intros Hchain He Hd Hde.
  assert (Hed : e ∈ alias_class self d).
  { apply (alias_class_overlap self d e d); try done. apply alias_class_self. }
  apply set_eq. intros x. split; intros Hx.
  - apply elem_of_alias_class in Hx as [->|Hx]; [done|].
    apply elem_of_alias_class in Hed as [->|Hed].
    + apply elem_of_alias_class. by right.
    + rewrite (related_unique d x e Hx Hed). apply alias_class_self.
  - apply elem_of_alias_class in Hx as [->|Hx]; [done|].
    apply elem_of_alias_class in Hde as [->|Hde].
    + apply elem_of_alias_class. by right.
    + rewrite (related_unique e x d Hx Hde). apply alias_class_self.
Qed.

Lemma alias_class_meet e d x :
  no_www_chain self →
  e ∈ all_blocked_domains self → d ∈ all_blocked_domains self →
  x ∈ alias_class self e → x ∈ alias_class self d →
  alias_class self d = alias_class self e.
Proof.
  intros Hchain He Hd Hxe Hxd. apply alias_class_eq; try done.
  by apply (alias_class_overlap self e d x).
Qed.

Lemma run_ind (Q : call → Prop) (P : state → Prop) :
  P init → (∀ st c, reachable iso self st → Q c → P st → P (step iso self st c)) →
  ∀ cs, Forall Q cs → P (run iso self cs init).
Proof.
  intros H0 Hstep cs. unfold run.
  induction cs as [|c cs IH] using rev_ind; intros HQ; [done|].
  apply Forall_app in HQ as [HQ Hc]. apply Forall_inv in Hc.
  rewrite foldl_app. cbn [foldl].
  apply Hstep; [exists cs; reflexivity|exact Hc|by apply IH].
Qed.

Lemma objects_of_old_entry st c k r u :
  entries_sound self st → active_unblocks st !! k = Some r →
  objects (step iso self st c) !! r = Some u →
  objects st !! r = Some u ∧ k ∈ alias_class self (domain u)
  ∧ domain u ∈ all_blocked_domains self.
Proof.
  intros Hs Hk Hu.
  destruct (Hs k r Hk) as (u0 & Hu0 & Hin & Hc & _).
  pose proof (step_objects_kept iso self st c r u0 Hu0) as Hu0'.
  assert (u = u0) as -> by congruence.
  split; [done|]. split; [done|]. apply elem_of_union. by left.
Qed.

Lemma step_class_whole st c :
  no_www_chain self → revokes_configured self c →
  entries_sound self st → tasks_for_classes self st →
  class_whole self st → class_whole self (step iso self st c).
Proof.
  intros Hchain Htame Hs Hcl Hw k r u Hk Hu m Hm.
  destruct (step_active iso self st c k r Hk)
    as [Hold|(w & d & ip & nm & sc & rs & dur & res & st' & -> & Hun & Hres
              & Hin & ->)].
  - destruct (objects_of_old_entry st c k r u Hs Hold Hu) as (Hu0 & Hku & Hdu).
    pose proof (Hw k r u Hold Hu0 m Hm) as Hmr.
    pose proof (alias_class_subset self (domain u)) as Hsub.
    destruct (Hs k r Hold) as (u0 & Hu0' & _ & Hcond & _).
    assert (u0 = u) as -> by congruence.
    destruct c as [w|w d ip nm sc rs dur|w d|w|w t]; cbn [step] in *.
    + unfold initialize. by rewrite sync_spec.
    + destruct (unblock_domain_stores_or_not iso self w d ip nm sc rs dur st)
        as [[msg Heq]|[Heq|(res & st' & Hun & Hres)]].
      * by rewrite Heq.
      * rewrite Heq. cbn [snd].
        by destruct (cancel_existing_fields d st) as (-> & _).
      * rewrite Hun in Hk |- *. cbn [snd] in *.
        destruct (unblock_domain_stored _ _ _ _ _ _ _ _ _ _ _ _ Hun Hres)
          as (Hd & _ & u1 & new & _ & _ & _ & _ & Ha & _).
        rewrite Ha. case_decide as Hmd; [|done]. exfalso.
        assert (Hd' : d ∈ all_blocked_domains self)
          by (apply elem_of_union; by left).
        pose proof (alias_class_meet (domain u) d m Hchain Hdu Hd' Hm Hmd)
          as Heq.
        rewrite Ha, decide_True in Hk by (by rewrite Heq).
        injection Hk as <-. apply lookup_lt_Some in Hu0. lia.
    + destruct (reblock_domain_spec iso self w d st) as (_ & Ha & _).
      rewrite Ha. case_decide as Hmd; [|done]. exfalso.
      pose proof (alias_class_meet (domain u) d m Hchain Hdu Htame Hm Hmd)
        as Heq.
      by rewrite Ha, decide_True in Hk by (by rewrite Heq).
    + destruct (reblock_all_spec iso self w st) as (Ha & _).
      by rewrite Ha, lookup_empty in Hk.
    + destruct (reblock_after_cases iso self w t st)
        as [(task & Hl & Hsl)|[_ Heq]]; [|by rewrite Heq].
      rewrite (reblock_after_sleeping iso self w t st task Hl Hsl) in Hk |- *.
      cbn [active_unblocks] in *. rewrite fold_delete_lookup.
      case_decide as Hmd; [|done]. exfalso.
      destruct (Hcl t task Hl) as (e & He & Hde).
      assert (He' : e ∈ all_blocked_domains self)
        by (apply elem_of_union; by left).
      rewrite Hde in Hmd.
      pose proof (alias_class_meet (domain u) e m Hchain Hdu He' Hm Hmd)
        as Heq.
      by rewrite fold_delete_lookup, Hde, decide_True in Hk
        by (by rewrite Heq).
  - cbn [step] in *. rewrite Hun in Hu |- *. cbn [snd] in *.
    destruct (unblock_domain_stored _ _ _ _ _ _ _ _ _ _ _ _ Hun Hres)
      as (_ & _ & u0 & new & Ho & Hd & _ & _ & Ha & _).
    rewrite Ho, lookup_app_r, Nat.sub_diag in Hu by lia.
    injection Hu as <-.
    rewrite Hd in Hm. by rewrite Ha, decide_True.
Qed.
End WholeClasses.

Section LiveTimers.
Context (iso : Z → string) (self : config).

(** [reblock_domain] cancels no other timers than those of the entries it
    pops. *)
Lemma reblock_fold_precise st (D : gset string) :
  objects (set_fold reblock_one st D) = objects st
  ∧ (∀ k, k ∉ D → active_unblocks (set_fold reblock_one st D) !! k
                  = active_unblocks st !! k)
  ∧ (∀ i b, tasks (set_fold reblock_one st D) !! i = Some b →
       tasks st !! i = Some b
       ∨ ∃ k r u, k ∈ D ∧ active_unblocks st !! k = Some r
                  ∧ objects st !! r = Some u ∧ timer_task u = Some i).
Proof.
  revert D.
  refine (set_fold_ind_L (λ acc X,
    objects acc = objects st
    ∧ (∀ k, k ∉ X → active_unblocks acc !! k = active_unblocks st !! k)
    ∧ (∀ i b, tasks acc !! i = Some b →
         tasks st !! i = Some b
         ∨ ∃ k r u, k ∈ X ∧ active_unblocks st !! k = Some r
                    ∧ objects st !! r = Some u ∧ timer_task u = Some i))
    _ _ _ _).
  - split; [done|]. split; [done|]. intros i b Hb. by left.
  - intros x X acc Hx (Ho & Ha & Ht).
    assert (Hmono : ∀ i b,
      (tasks st !! i = Some b
       ∨ ∃ k r u, k ∈ X ∧ active_unblocks st !! k = Some r
                  ∧ objects st !! r = Some u ∧ timer_task u = Some i) →
      tasks st !! i = Some b
      ∨ ∃ k r u, k ∈ {[x]} ∪ X ∧ active_unblocks st !! k = Some r
                 ∧ objects st !! r = Some u ∧ timer_task u = Some i).
    { intros i b [?|(k & r & u & Hk & H)]; [by left|right].
      exists k, r, u. split; [|done]. apply elem_of_union. by right. }
    assert (Hnotin : ∀ k, k ∉ {[x]} ∪ X → k ≠ x ∧ k ∉ X).
    { intros k Hk. split.
      - intros ->. apply Hk. apply elem_of_union. left.
        by apply elem_of_singleton.
      - intros Hin. apply Hk. apply elem_of_union. by right. }
    unfold reblock_one.
    destruct (active_unblocks acc !! x) as [r|] eqn:Hr.
    + rewrite (Ha x Hx) in Hr.
      unfold cancel_timer_of. cbn [objects with_active]. rewrite Ho.
      destruct (objects st !! r) as [u|] eqn:Hu.
      * destruct (timer_task u) as [t|] eqn:Htm.
        -- unfold cancel. cbn. split; [done|]. split.
           ++ intros k Hk. destruct (Hnotin k Hk) as [Hne Hk'].
              rewrite lookup_delete_ne by done. by apply Ha.
           ++ intros i b. rewrite list_lookup_alter.
              destruct (decide (t = i)) as [->|Hne].
              ** intros _. right. exists x, r, u. split; [|done].
                 apply elem_of_union. left. by apply elem_of_singleton.
              ** intros Hb. by apply Hmono, Ht.
        -- cbn. split; [done|]. split.
           ++ intros k Hk. destruct (Hnotin k Hk) as [Hne Hk'].
              rewrite lookup_delete_ne by done. by apply Ha.
           ++ intros i b Hb. by apply Hmono, Ht.
      * cbn. split; [done|]. split.
        -- intros k Hk. destruct (Hnotin k Hk) as [Hne Hk'].
           rewrite lookup_delete_ne by done. by apply Ha.
        -- intros i b Hb. by apply Hmono, Ht.
    + split; [done|]. split.
      * intros k Hk. destruct (Hnotin k Hk) as [Hne Hk']. by apply Ha.
      * intros i b Hb. by apply Hmono, Ht.
Qed.

Lemma decodes_no_decode_error w d ip nm sc rs dur st st' :
  decodes (Unblock w d ip nm sc rs dur) →
  unblock_domain iso self w d ip nm sc rs dur st
  ≠ (Raised UnicodeDecodeError, st').
Proof.
  unfold decodes. cbn [world_of]. intros Hdec Hun.
  destruct (unblock_domain_decode_inv _ _ _ _ _ _ _ _ _ _ _ Hun)
    as (_ & _ & Hsr & _).
  congruence.
Qed.

Lemma step_tasks_length st c :
  decodes c →
  (length (tasks (step iso self st c)) = length (tasks st)
   ∧ objects (step iso self st c) = objects st)
  ∨ ∃ w d ip nm sc rs dur st',
      c = Unblock w d ip nm sc rs dur
      ∧ unblock_domain iso self w d ip nm sc rs dur st = (Returned true, st').
Proof.
  intros Hdec.
  destruct c as [w|w d ip nm sc rs dur|w d|w|w t]; cbn [step].
  - unfold initialize. rewrite sync_spec. by left.
  - destruct (unblock_domain_cases iso self w d ip nm sc rs dur st)
      as [[msg Heq]|[Heq|[[st' Hun]|[st' Hun]]]].
    + rewrite Heq. by left.
    + rewrite Heq. cbn [snd].
      destruct (cancel_existing_fields d st) as (_ & Ho & _ & Hl).
      rewrite Hl, Ho. by left.
    + right. exists w, d, ip, nm, sc, rs, dur, st'. done.
    + by apply decodes_no_decode_error in Hun.
  - destruct (reblock_domain_spec iso self w d st) as (Ho & _ & [Hl _] & _).
    rewrite Hl, Ho. by left.
  - destruct (reblock_all_spec iso self w st) as (_ & Ho & _ & [Hl _] & _).
    rewrite Hl, Ho. by left.
  - rewrite reblock_after_objects.
    destruct (reblock_after_cases iso self w t st)
      as [(task & Hl & Hs)|[_ ->]]; [|by left].
    rewrite (reblock_after_sleeping iso self w t st task Hl Hs).
    cbn [tasks]. rewrite length_alter. by left.
Qed.

Lemma step_timers_indexed st c :
  decodes c → timers_indexed st → timers_indexed (step iso self st c).
Proof.
  intros Hdec [Hlen Hidx].
  destruct (step_tasks_length st c Hdec)
    as [[Hl Ho]|(w & d & ip & nm & sc & rs & dur & st' & -> & Hun)].
  - split; [by rewrite Hl, Ho|]. by rewrite Ho.
  - cbn [step]. rewrite Hun. cbn [snd].
    destruct (unblock_domain_true_inv _ _ _ _ _ _ _ _ _ _ _ Hun)
      as (_ & _ & u & _ & _ & Ho & Ht & _).
    destruct (cancel_existing_fields d st) as (_ & _ & _ & Hl).
    split; [rewrite Ho, Ht, !length_app, Hl; cbn; lia|].
    intros r u0. rewrite Ho. intros [Hr|[Hge Hr]]%lookup_app_Some.
    + by apply Hidx.
    + destruct (r - length (objects st))%nat eqn:E; [|done].
      injection Hr as <-. cbn. f_equal. lia.
Qed.

Lemma raised_not_representable w d ip nm sc rs dur st st' :
  unblock_domain iso self w d ip nm sc rs dur st = (Raised OverflowError, st') →
  d ∈ conditional_domains self ∧ (d ∉ always_blocked_domains self)
  ∧ ¬ representable (now_init w) dur.
Proof.
  intros Hun.
  destruct (decide (d ∈ always_blocked_domains self)) as [Ha|Ha].
  { revert Hun. unfold unblock_domain. rewrite decide_True by done.
    intros [=]. }
  destruct (decide (d ∉ conditional_domains self)) as [Hc|Hc].
  { revert Hun. unfold unblock_domain. rewrite decide_False by done.
    rewrite decide_True by done. intros [=]. }
  apply dec_stable in Hc.
  split; [done|]. split; [done|]. intros Hr.
  apply (ActiveUnblock_init_representable (now_init w) d ip nm sc rs dur)
    in Hr as [u Hu].
  rewrite (unblock_domain_granted iso self w d ip nm sc rs dur st u Ha Hc Hu)
    in Hun.
  cbv zeta in Hun. by destruct (sync_raises w).
Qed.

Lemma step_all_live st c :
  no_www_chain self → revokes_configured self c → grants_representable self c →
  decodes c →
  entries_sound self st → class_whole self st → timers_indexed st →
  all_live st → all_live (step iso self st c).
Proof.
  intros Hchain Hrev Hgr Hdec Hs Hw [Hlen Hidx] Hlive k r Hk.
  destruct (step_active iso self st c k r Hk)
    as [Hold|(w & d & ip & nm & sc & rs & dur & res & st' & -> & Hun & Hres
              & Hin & ->)].
  - destruct (Hlive k r Hold) as (task & Hl & Hsl).
    destruct (Hs k r Hold) as (u & Hu & Hku & Hcu & _ & Hts).
    unfold timer_sound in Hts. rewrite (Hidx r u Hu) in Hts.
    destruct Hts as (task' & Hl' & Hdom & _).
    assert (task' = task) as -> by congruence.
    assert (Hdu : domain u ∈ all_blocked_domains self)
      by (apply elem_of_union; by left).
    exists task. split; [|done].
    destruct c as [w|w d ip nm sc rs dur|w d|w|w t]; cbn [step] in *.
    + unfold initialize. by rewrite sync_spec.
    + destruct (unblock_domain_cases iso self w d ip nm sc rs dur st)
        as [[msg Heq]|[Heq|[[st' Hun]|[st' Hun]]]].
      * by rewrite Heq.
      * exfalso.
        destruct (raised_not_representable _ _ _ _ _ _ _ _ _ Heq)
          as (Hc & Ha & Hn).
        by apply Hn, Hgr.
      * rewrite Hun in Hk |- *. cbn [snd] in *.
        destruct (unblock_domain_true_inv _ _ _ _ _ _ _ _ _ _ _ Hun)
          as (Hd & _ & _ & _ & Ha & _ & Ht & _).
        apply lookup_lt_Some in Hl as Hlt.
        destruct (cancel_existing_fields d st) as (_ & _ & _ & Hl0).
        rewrite Ht, lookup_app_l by lia.
        unfold cancel_existing, cancel_timer_of.
        destruct (active_unblocks st !! d) as [rd|] eqn:Hrd; [|done].
        destruct (objects st !! rd) as [ud|] eqn:Hud; [|done].
        rewrite (Hidx rd ud Hud). rewrite cancel_lookup.
        destruct (decide (rd = r)) as [->|Hne]; [|done]. exfalso.
        assert (ud = u) as -> by congruence.
        destruct (Hs d r Hrd) as (u1 & Hu1 & Hdu1 & _).
        assert (u1 = u) as -> by congruence.
        assert (Hd' : d ∈ all_blocked_domains self)
          by (apply elem_of_union; by left).
        pose proof (alias_class_eq self (domain u) d Hchain Hdu Hd' Hdu1)
          as Heq.
        rewrite Ha, decide_True in Hk by (by rewrite Heq).
        injection Hk as <-. apply lookup_lt_Some in Hu. lia.
      * by apply decodes_no_decode_error in Hun.
    + destruct (reblock_domain_spec iso self w d st) as (_ & Ha & Ht & _).
      unfold reblock_domain. fold (alias_class self d). rewrite sync_spec.
      cbn [snd synced tasks].
      destruct (reblock_fold_precise st (alias_class self d))
        as (_ & _ & Hprec).
      destruct Ht as [Hl1 _].
      unfold reblock_domain in Hl1. fold (alias_class self d) in Hl1.
      rewrite sync_spec in Hl1. cbn [snd synced tasks] in Hl1.
      destruct (lookup_lt_is_Some_2
                  (tasks (set_fold reblock_one st (alias_class self d))) r)
        as [b Hb]; [apply lookup_lt_Some in Hl; lia|].
      destruct (Hprec r b Hb) as [Hsame|(k' & r' & u' & Hk' & Hkr' & Hu' & Htm')];
        [congruence|]. exfalso.
      rewrite (Hidx r' u' Hu') in Htm'. injection Htm' as ->.
      assert (u' = u) as -> by congruence.
      destruct (Hs k' r Hkr') as (u1 & Hu1 & Hku1 & _).
      assert (u1 = u) as -> by congruence.
      pose proof (alias_class_meet self (domain u) d k' Hchain Hdu Hrev
                    Hku1 Hk') as Heq.
      by rewrite Ha, decide_True in Hk by (by rewrite Heq).
    + destruct (reblock_all_spec iso self w st) as (Ha & _).
      by rewrite Ha, lookup_empty in Hk.
    + destruct (decide (t = r)) as [->|Hne];
        [|by rewrite reblock_after_other].
      exfalso.
      rewrite (reblock_after_sleeping iso self w r st task Hl Hsl) in Hk.
      cbn [active_unblocks] in Hk.
      by rewrite fold_delete_lookup, Hdom, decide_True in Hk.
  - cbn [step]. rewrite Hun. cbn [snd].
    destruct Hres as [->| ->];
      [|by apply decodes_no_decode_error in Hun].
    rewrite Hlen.
    rewrite (unblock_domain_new_task iso self _ _ _ _ _ _ _ _ _ Hun).
    eauto.
Qed.

Lemma run_invariants cs :
  no_www_chain self →
  Forall (revokes_configured self) cs → Forall (grants_representable self) cs →
  Forall decodes cs →
  class_whole self (run iso self cs init)
  ∧ timers_indexed (run iso self cs init)
  ∧ all_live (run iso self cs init).
Proof.
  intros Hchain Hrev Hgr Hdec.
  assert (Hall : Forall (λ c, revokes_configured self c
                              ∧ grants_representable self c ∧ decodes c) cs).
  { apply Forall_and. split; [done|]. apply Forall_and. by split. }
  clear Hrev Hgr Hdec. revert cs Hall.
  apply (run_ind iso self
           (λ c, revokes_configured self c ∧ grants_representable self c
                 ∧ decodes c)
           (λ st, class_whole self st ∧ timers_indexed st ∧ all_live st)).
  - split; [|split; [split|]].
    + intros k r u Hk. unfold init in Hk. cbn [active_unblocks] in Hk.
      by rewrite lookup_empty in Hk.
    + done.
    + intros r u Hr. unfold init in Hr. cbn [objects] in Hr.
      by rewrite lookup_nil in Hr.
    + intros k r Hk. unfold init in Hk. cbn [active_unblocks] in Hk.
      by rewrite lookup_empty in Hk.
  - intros st c Hreach (Hrev & Hgr & Hdec) (Hw & Hidx & Hlive).
    destruct (reachable_entries iso self st Hreach) as [Hs _].
    pose proof (reachable_tasks_for_classes iso self st Hreach) as Hcl.
    split; [by apply step_class_whole|].
    split; [by apply step_timers_indexed|]. by apply step_all_live.
Qed.
End LiveTimers.

Section TameRuns.
Context (iso : Z → string) (self : config).

Lemma run_class_whole cs :
  no_www_chain self → Forall (revokes_configured self) cs →
  class_whole self (run iso self cs init).
Proof.
  intros Hchain. revert cs.
  apply (run_ind iso self (revokes_configured self) (class_whole self)).
  - intros k r u Hk. unfold init in Hk. cbn [active_unblocks] in Hk.
    by rewrite lookup_empty in Hk.
  - intros st c Hreach Hrev Hw.
    destruct (reachable_entries iso self st Hreach) as [Hs _].
    pose proof (reachable_tasks_for_classes iso self st Hreach) as Hcl.
    by apply step_class_whole.
Qed.

(** X17. When the configuration has no www-chain and only configured domains are
    revoked, an alias class is never split: after any sequence of calls and
    timers, a configured domain and each member of its alias class are both
    blocked or both held by the same grant. *)
Theorem alias_classes_stay_whole cs e m :
  no_www_chain self → Forall (revokes_configured self) cs →
  e ∈ all_blocked_domains self → m ∈ alias_class self e →
  active_unblocks (run iso self cs init) !! m
  = active_unblocks (run iso self cs init) !! e.
Proof.
  intros Hchain Hrev He Hm.
  pose proof (run_class_whole cs Hchain Hrev) as Hw.
  assert (Hreach : reachable iso self (run iso self cs init)) by by exists cs.
  destruct (reachable_entries iso self _ Hreach) as [Hs _].
  set (st := run iso self cs init) in *.
  destruct (active_unblocks st !! e) as [r|] eqn:Hr.
  - destruct (Hs e r Hr) as (u & Hu & Heu & Hc & _).
    assert (Hdu : domain u ∈ all_blocked_domains self)
      by (apply elem_of_union; by left).
    apply (Hw e r u Hr Hu).
    by rewrite <- (alias_class_eq self (domain u) e Hchain Hdu He Heu).
  - destruct (active_unblocks st !! m) as [r|] eqn:Hmr; [|done]. exfalso.
    destruct (Hs m r Hmr) as (u & Hu & Hmu & Hc & _).
    assert (Hdu : domain u ∈ all_blocked_domains self)
      by (apply elem_of_union; by left).
    pose proof (alias_class_meet self (domain u) e m Hchain Hdu He Hmu Hm)
      as Heq.
    assert (Her : active_unblocks st !! e = Some r).
    { apply (Hw m r u Hmr Hu). rewrite <- Heq. apply alias_class_self. }
    congruence.
Qed.

(** X18. Under the same conditions, and when no grant overflows the date range
    and no failed write or signal has a [stderr] that is not UTF-8, every
    unblocked domain has a sleeping timer that covers it: nothing stays
    unblocked without an expiry pending. *)
Theorem every_unblocked_domain_has_a_sleeping_timer cs k :
  no_www_chain self →
  Forall (revokes_configured self) cs → Forall (grants_representable self) cs →
  Forall decodes cs →
  is_domain_unblocked (run iso self cs init) k = true →
  ∃ r u t task,
    active_unblocks (run iso self cs init) !! k = Some r
    ∧ objects (run iso self cs init) !! r = Some u
    ∧ timer_task u = Some t
    ∧ tasks (run iso self cs init) !! t = Some task
    ∧ status task = Sleeping
    ∧ k ∈ task_domains task.
Proof.
  intros Hchain Hrev Hgr Hdec [r Hr]%is_domain_unblocked_true.
  destruct (run_invariants iso self cs Hchain Hrev Hgr Hdec)
    as (_ & [_ Hidx] & Hlive).
  assert (Hreach : reachable iso self (run iso self cs init)) by by exists cs.
  destruct (reachable_entries iso self _ Hreach) as [Hs _].
  destruct (Hs k r Hr) as (u & Hu & Hku & _ & _ & Hts).
  destruct (Hlive k r Hr) as (task' & Hl' & Hsl).
  pose proof (Hidx r u Hu) as Htm.
  unfold timer_sound in Hts. rewrite Htm in Hts.
  destruct Hts as (task & Hl & Hdom & _).
  assert (task' = task) as -> by congruence.
  exists r, u, r, task. rewrite Hdom. auto 10.
Qed.
End TameRuns.

Section StatusReport.
Context (iso : Z → string) (self : config).



End StatusReport.

Section Exceptions.
Context (iso : Z → string) (self : config).

(** X26. A grant whose write or signal exits with a status other than 0 and a
    [stderr] that is not UTF-8 raises [UnicodeDecodeError] after the
    dictionary has been updated and before the timer is created: every
    member of the alias class is unblocked and refers to the new object,
    the object has no timer, no task is added and no task that was not
    asleep before is asleep, and the file has been written. *)
Theorem undecodable_stderr_leaves_grant_without_timer
    w d ip nm sc rs dur st :
  d ∈ conditional_domains self → d ∉ always_blocked_domains self →
  representable (now_init w) dur → sync_raises w = true →
  (unblock_domain iso self w d ip nm sc rs dur st).1
  = Raised UnicodeDecodeError
  ∧ (∀ m, m ∈ alias_class self d →
       active_unblocks (unblock_domain iso self w d ip nm sc rs dur st).2 !! m
       = Some (length (objects st)))
  ∧ (∃ u, objects (unblock_domain iso self w d ip nm sc rs dur st).2
          = objects st ++ [u]
          ∧ domain u = d ∧ timer_task u = None)
  ∧ length (tasks (unblock_domain iso self w d ip nm sc rs dur st).2)
    = length (tasks st)
  ∧ (∀ t task,
       tasks (unblock_domain iso self w d ip nm sc rs dur st).2 !! t
       = Some task →
       status task = Sleeping → tasks st !! t = Some task)
  ∧ ∃ l, effects (unblock_domain iso self w d ip nm sc rs dur st).2
         = effects st ++ l
         ∧ tee_contents l
           = [blocklist_content iso (now_write w)
                (all_blocked_domains self
                   ∖ dom (active_unblocks
                            (unblock_domain iso self w d ip nm sc rs dur
                               st).2))].
Proof.
  intros Hc Hna Hrep Hsr.
  apply (ActiveUnblock_init_representable (now_init w) d ip nm sc rs dur)
    in Hrep as [u Hu].
  destruct (ActiveUnblock_init_Some _ _ _ _ _ _ _ _ Hu) as (Hd & _ & _ & Htm).
  rewrite (unblock_domain_granted iso self w d ip nm sc rs dur st u Hna Hc Hu).
  cbv zeta. rewrite Hsr. cbn [fst snd active_unblocks objects tasks effects].
  destruct (cancel_existing_fields d st) as (_ & _ & _ & Hlen).
  split; [done|].
  split; [intros m Hm; by rewrite fold_insert_lookup, decide_True|].
  split; [by exists u|]. split; [done|]. split.
  - intros t task Hl Hs.
    by apply (cancelled_some_sleeping _ _ _ _
                (cancel_existing_cancelled_some d st) Hl Hs).
  - eexists. split; [done|]. by rewrite tee_contents_sync.
Qed.



End Exceptions.

(** * The callers in [main.py] *)

Section Handlers.
Context (iso : Z → string) (self : config).
Context (extract : string → string).
Context (device_map : gmap string (gmap string string)).

(** X19. [domain_to_conditional] returns a conditional domain that is the
    argument or its www-toggled spelling, prefers the argument itself, and
    returns [None] exactly when neither spelling is conditional. *)
Theorem domain_to_conditional_spec d :
  (∀ c, domain_to_conditional self d = Some c →
        c ∈ conditional_domains self
        ∧ (c = d ∨ d = "www." +:+ c ∨ c = "www." +:+ d))
  ∧ (d ∈ conditional_domains self → domain_to_conditional self d = Some d)
  ∧ (domain_to_conditional self d = None ↔
     (d ∉ conditional_domains self)
     ∧ (∀ b, d = "www." +:+ b → b ∉ conditional_domains self)
     ∧ (startswith d "www." = false →
        "www." +:+ d ∉ conditional_domains self)).
Proof.
  unfold domain_to_conditional.
  destruct (decide (d ∈ conditional_domains self)) as [Hd|Hd].
  { split; [intros c [= <-]; auto|]. split; [done|].
    split; [done|]. by intros [? _]. }
  destruct (startswith d "www.") eqn:Sd.
  - pose proof (startswith_www d Sd) as Heq.
    destruct (decide (string_drop 4 d ∈ conditional_domains self)) as [Hb|Hb].
    + split; [intros c [= <-]; auto|]. split; [done|].
      split; [done|]. intros (_ & Hn & _). exfalso. by apply (Hn _ Heq).
    + split; [done|]. split; [done|]. split; [|done]. intros _.
      split; [done|]. split; [|done].
      intros b Hdb. rewrite Hdb, string_drop_www_app in Hb. done.
  - destruct (decide ("www." +:+ d ∈ conditional_domains self)) as [Hw|Hw].
    + split; [intros c [= <-]; auto|]. split; [done|].
      split; [done|]. intros (_ & _ & Hn). exfalso. by apply Hn.
    + split; [done|]. split; [done|]. split; [|done]. intros _.
      split; [done|]. split; [|done].
      intros b Hdb. rewrite Hdb, startswith_www_app in Sd. done.
Qed.

(** X20. When the configuration has no www-chain, the conditional domain found
    for a configured domain has that domain in its alias class: granting
    what [domain_to_conditional] returns unblocks the spelling that was
    asked for. *)
Theorem domain_to_conditional_covers_request d c :
  no_www_chain self → d ∈ all_blocked_domains self →
  domain_to_conditional self d = Some c →
  d ∈ alias_class self c.
Proof.
  intros Hchain Hd. unfold domain_to_conditional.
  case_decide as Hdc; [intros [= <-]; apply alias_class_self|].
  destruct (startswith d "www.") eqn:Sd.
  - case_decide as Hb; [|done]. intros [= <-].
    pose proof (startswith_www d Sd) as Heq.
    assert (Hb' : string_drop 4 d ∈ all_blocked_domains self)
      by (apply elem_of_union; by left).
    apply elem_of_alias_class. right.
    revert Hb' Hd Heq. generalize (string_drop 4 d). intros b Hb' Hd ->.
    destruct (startswith b "www.") eqn:Sb.
    + exfalso. by apply (Hchain _ Hb' Sb).
    + by apply related_of_bare.
  - case_decide as Hw; [|done]. intros [= <-].
    apply elem_of_alias_class. right. by apply related_of_www.
Qed.

Lemma request_access_cases fb body env st :
  let device := str_or (AccessRequest.device_ip body) (client_host env) in
  let d := extract (AccessRequest.url body) in
  (∃ msg, request_access iso self extract device_map fb body env st
          = (Returned (denied msg d, []), st))
  ∨ (∃ e, request_access iso self extract device_map fb body env st
          = (Raised e, st))
  ∨ ∃ c name,
      (device ∉ fb)
      ∧ domain_to_conditional self d = Some c
      ∧ device_name_of (get_device_info device_map device) = Returned name
      ∧ ((LLMDecision.approved (decision env) = false
          ∧ ∃ row, request_access iso self extract device_map fb body env st
                   = (Returned
                        ({| AccessResponse.approved := false;
                            AccessResponse.scope := None;
                            AccessResponse.duration_minutes := None;
                            AccessResponse.message :=
                              LLMDecision.message (decision env);
                            AccessResponse.domain := Some d |}, [row]), st)
                   ∧ LogRow.approved row = false)
         ∨ (LLMDecision.approved (decision env) = true
            ∧ ∃ res st',
                unblock_domain iso self (grant_world env) c device name
                  (Some (LLMDecision.scope (decision env)))
                  (AccessRequest.reason body)
                  (LLMDecision.duration_minutes (decision env)) st
                = (res, st')
                ∧ match res with
                  | Raised e =>
                      request_access iso self extract device_map fb body env st
                      = (Raised e, st')
                  | Returned success =>
                      ∃ msg row,
                        request_access iso self extract device_map fb body
                          env st
                        = (Returned
                             ({| AccessResponse.approved := success;
                                 AccessResponse.scope :=
                                   if success
                                   then Some (LLMDecision.scope (decision env))
                                   else None;
                                 AccessResponse.duration_minutes :=
                                   if success
                                   then Some (LLMDecision.duration_minutes
                                                (decision env))
                                   else None;
                                 AccessResponse.message := msg;
                                 AccessResponse.domain := Some d |}, [row]),
                           st')
                        ∧ LogRow.approved row = success
                  end)).
Proof.
  cbv zeta. unfold request_access.
  case_decide as Hfb; [left; eauto|].
  destruct (domain_to_conditional self (extract (AccessRequest.url body)))
    as [c|] eqn:Hc; [|left; case_decide; eauto].
  case_decide as Hempty; [left; case_decide; eauto|].
  destruct (device_name_of _) as [name|e] eqn:Hname; [|right; left; eauto].
  right; right. exists c, name. split; [done|]. split; [done|].
  split; [done|].
  destruct (LLMDecision.approved (decision env)) eqn:Happ.
  - right. split; [done|].
    destruct (unblock_domain _ _ _ _ _ _ _ _ _ _) as [res st'] eqn:Hun.
    exists res, st'. split; [done|]. cbn [fst snd].
    destruct res as [success|]; [|done].
    destruct success; cbn; eauto.
  - left. split; [done|]. cbn. eauto.
Qed.


(** X22. A response that denies leaves the manager as it was: no entry, object
    or task changes, and no blocklist is written. *)
Theorem denied_response_changes_nothing fb body env st resp rows st' :
  request_access iso self extract device_map fb body env st
  = (Returned (resp, rows), st') →
  AccessResponse.approved resp = false →
  active_unblocks st' = active_unblocks st
  ∧ objects st' = objects st
  ∧ tasks st' = tasks st
  ∧ ∃ l, effects st' = effects st ++ l ∧ Forall is_Log l.
Proof.
  intros Hreq Hden.
  assert (Hsame : st' = st →
            active_unblocks st' = active_unblocks st
            ∧ objects st' = objects st ∧ tasks st' = tasks st
            ∧ ∃ l, effects st' = effects st ++ l ∧ Forall is_Log l).
  { intros ->. split; [done|]. split; [done|]. split; [done|].
    exists []. by rewrite app_nil_r. }
  destruct (request_access_cases fb body env st)
    as [[msg Heq]|[[e Heq]|(c & name & Hfb & Hc & Hname & Hrest)]].
  - rewrite Heq in Hreq. injection Hreq as <- <- <-. by apply Hsame.
  - rewrite Heq in Hreq. done.
  - destruct Hrest as [[Hd (row & Heq & Hrow)]
                      |[Hok (res & st1 & Hun & Hres)]].
    + rewrite Heq in Hreq. injection Hreq as <- <- <-. by apply Hsame.
    + destruct res as [success|]; [|by rewrite Hres in Hreq].
      destruct Hres as (msg & row & Heq & Hrow).
      rewrite Heq in Hreq. injection Hreq as <- <- <-.
      cbn in Hden. subst success.
      destruct (unblock_domain_cases iso self (grant_world env) c
                  (str_or (AccessRequest.device_ip body) (client_host env))
                  name (Some (LLMDecision.scope (decision env)))
                  (AccessRequest.reason body)
                  (LLMDecision.duration_minutes (decision env)) st)
        as [[m Hm]|[Hm|[[st2 Hm]|[st2 Hm]]]]; rewrite Hm in Hun; try done.
      injection Hun as <-. cbn.
      split; [done|]. split; [done|]. split; [done|].
      exists [Log WARNING m]. split; [done|]. by repeat constructor.
Qed.

Lemma force_block_loop worlds ip items : ∀ acc,
  objects (foldl (force_block_step iso self worlds ip) acc items).2
  = objects acc.2
  ∧ (∀ k r,
       active_unblocks (foldl (force_block_step iso self worlds ip) acc items).2
         !! k = Some r →
       active_unblocks acc.2 !! k = Some r)
  ∧ cancelled_some (tasks acc.2)
      (tasks (foldl (force_block_step iso self worlds ip) acc items).2)
  ∧ ((foldl (force_block_step iso self worlds ip) acc items).1 = Returned () →
     ∀ k r u, (k, r) ∈ items → objects acc.2 !! r = Some u →
       device_ip u = ip →
       active_unblocks (foldl (force_block_step iso self worlds ip) acc items).2
         !! k = None).
Proof.
  assert (Hstay : ∀ items e st,
    foldl (force_block_step iso self worlds ip) (Raised e, st) items
    = (Raised e, st)).
  { intros l e st. induction l as [|item l IH]; [done|]. cbn [foldl].
    unfold force_block_step at 2. cbn [fst]. exact IH. }
  induction items as [|[k0 r0] items IH]; intros acc.
  - split; [done|]. split; [done|]. split; [apply cancelled_some_refl|].
    intros _ k r u Hin. by apply elem_of_nil in Hin.
  - cbn [foldl].
    set (st1 := force_block_step iso self worlds ip acc (k0, r0)).
    destruct (IH st1) as (Ho & Ha & Ht & Hgone).
    assert (Hstep : objects st1.2 = objects acc.2
              ∧ (∀ k r, active_unblocks st1.2 !! k = Some r →
                        active_unblocks acc.2 !! k = Some r)
              ∧ cancelled_some (tasks acc.2) (tasks st1.2)
              ∧ (st1.1 = Returned () →
                 ∀ u, objects acc.2 !! r0 = Some u → device_ip u = ip →
                      active_unblocks st1.2 !! k0 = None)).
    { unfold st1, force_block_step. cbn [fst snd].
      destruct acc as [[[]|e] st]; cbn [fst snd].
      - destruct (objects st !! r0) as [u0|] eqn:Hu0.
        + case_decide as Hdev.
          * destruct (reblock_domain_spec iso self (worlds k0) k0 st)
              as (Ho1 & Ha1 & Ht1 & _).
            split; [done|]. split; [|split; [done|]].
            -- intros k r. rewrite Ha1. by case_decide.
            -- intros _ _ _ _. rewrite Ha1.
               by rewrite decide_True by apply alias_class_self.
          * split; [done|]. split; [done|].
            split; [apply cancelled_some_refl|].
            intros _ u [= <-] Hu. done.
        + split; [done|]. split; [done|].
          split; [apply cancelled_some_refl|]. intros _ u [=].
      - split; [done|]. split; [done|].
        split; [apply cancelled_some_refl|]. intros [=]. }
    destruct Hstep as (Ho1 & Ha1 & Ht1 & Hgone1).
    split; [congruence|]. split; [intros k r Hk; by apply Ha1, Ha|].
    split; [by eapply cancelled_some_trans|].
    intros Hret k r u [Heq|Hin]%elem_of_cons Hu Hdev.
    + injection Heq as -> ->.
      assert (Hret1 : st1.1 = Returned ()).
      { destruct st1 as [[[]|e] st1']; [done|].
        rewrite Hstay in Hret. done. }
      destruct (active_unblocks (foldl _ st1 items).2 !! k0) as [r|] eqn:Hr;
        [|done].
      apply Ha in Hr. by rewrite (Hgone1 Hret1 u Hu Hdev) in Hr.
    + apply (Hgone Hret k r u Hin); [by rewrite Ho1|done].
Qed.

(** X23. [force_block_device] puts the device into the force-blocked set
    first, so that a request from the device is denied without reaching the
    manager, whatever happens next. It then revokes what was granted to the
    device: entries are only removed and no object changes, and when the
    call returns, no entry of the dictionary belongs to the device. An
    exception of [reblock_domain] leaves the loop, and the remaining
    entries of the device stay. *)
Theorem force_block_revokes_the_device worlds ip sv :
  ip ∈ force_blocked_devices (force_block_device iso self worlds ip sv).2
  ∧ objects (manager (force_block_device iso self worlds ip sv).2)
    = objects (manager sv)
  ∧ (∀ k r,
       active_unblocks (manager (force_block_device iso self worlds ip sv).2)
         !! k = Some r →
       active_unblocks (manager sv) !! k = Some r)
  ∧ ((force_block_device iso self worlds ip sv).1 = Returned () →
     ∀ k r u,
       active_unblocks (manager (force_block_device iso self worlds ip sv).2)
         !! k = Some r →
       objects (manager sv) !! r = Some u → device_ip u ≠ ip)
  ∧ (∀ body env st,
       str_or (AccessRequest.device_ip body) (client_host env) = ip →
       request_access iso self extract device_map
         (force_blocked_devices (force_block_device iso self worlds ip sv).2)
         body env st
       = (Returned
            (denied force_blocked_message (extract (AccessRequest.url body)),
             []), st)).
Proof.
  unfold force_block_device. cbn [fst snd manager force_blocked_devices].
  destruct (force_block_loop worlds ip
              (map_to_list (active_unblocks (manager sv)))
              (Returned (), manager sv))
    as (Ho & Ha & _ & Hgone).
  cbn [snd] in Ho, Ha, Hgone.
  assert (Hin : ip ∈ ({[ip]} ∪ force_blocked_devices sv : gset string)).
  { apply elem_of_union. left. by apply elem_of_singleton. }
  split; [done|]. split; [done|]. split; [done|]. split.
  - intros Hret k r u Hk Hu Hdev.
    pose proof (Ha k r Hk) as Hold.
    apply elem_of_map_to_list in Hold.
    by rewrite (Hgone Hret k r u Hold Hu Hdev) in Hk.
  - intros body env st Hdev. unfold request_access.
    rewrite Hdev. by rewrite decide_True.
Qed.
End Handlers.

(** * The further properties at concrete inputs *)

Lemma lecture_reachable : reachable iso_example youtube lecture.
Proof. by exists lecture_calls. Qed.

Lemma youtube_revokes_configured :
  Forall (revokes_configured youtube) evening_calls.
Proof.
  unfold evening_calls, lecture_calls. cbn [app].
  repeat (apply Forall_cons; split; [first [exact I | compute_done]|]).
  apply Forall_nil. exact I.
Qed.

Lemma youtube_grants_representable :
  Forall (grants_representable youtube) evening_calls.
Proof.
  unfold evening_calls, lecture_calls. cbn [app].
  repeat (apply Forall_cons; split;
          [first [exact I
                 | intros _ _; unfold representable; compute_done]|]).
  apply Forall_nil. exact I.
Qed.

Lemma evening_decodes : Forall decodes evening_calls.
Proof.
  unfold evening_calls, lecture_calls. cbn [app].
  repeat (apply Forall_cons; split; [reflexivity|]).
  apply Forall_nil. exact I.
Qed.

Lemma alias_pair_youtube :
  startswith "youtube.com" "www." = false
  ∧ "youtube.com" ∈ all_blocked_domains youtube
  ∧ "www." +:+ "youtube.com" ∈ all_blocked_domains youtube
  ∧ alias_class youtube "youtube.com"
    = alias_class youtube ("www." +:+ "youtube.com").
Proof.
  assert (H1 : startswith "youtube.com" "www." = false) by reflexivity.
  assert (H2 : "youtube.com" ∈ all_blocked_domains youtube) by compute_done.
  assert (H3 : "www." +:+ "youtube.com" ∈ all_blocked_domains youtube)
    by compute_done.
  destruct (alias_class_of_configured_pair youtube "youtube.com" H1 H2 H3)
    as (_ & _ & Hc).
  exact (conj H1 (conj H2 (conj H3 Hc))).
Defined.

Lemma overflow_during_lecture :
  "youtube.com" ∈ conditional_domains youtube
  ∧ ("youtube.com" ∉ always_blocked_domains youtube)
  ∧ ¬ representable (now_init (calm (t0 + minutes 5))) overlong
  ∧ active_unblocks lecture !! "youtube.com" = Some 0%nat
  ∧ objects lecture !! 0%nat = Some lecture_object
  ∧ timer_task lecture_object = Some 0%nat
  ∧ tasks lecture !! 0%nat = Some lecture_timer
  ∧ status lecture_timer = Sleeping
  ∧ (grant_youtube (calm (t0 + minutes 5)) overlong lecture).1
    = Raised OverflowError
  ∧ is_domain_unblocked
      (grant_youtube (calm (t0 + minutes 5)) overlong lecture).2 "youtube.com"
    = true
  ∧ tasks (grant_youtube (calm (t0 + minutes 5)) overlong lecture).2 !! 0%nat
    = Some (set_status Cancelled lecture_timer).
Proof.
  assert (H1 : "youtube.com" ∈ conditional_domains youtube) by compute_done.
  assert (H2 : "youtube.com" ∉ always_blocked_domains youtube)
    by compute_done.
  assert (H3 : ¬ representable (now_init (calm (t0 + minutes 5))) overlong)
    by (unfold representable; compute_done).
  assert (H4 : active_unblocks lecture !! "youtube.com" = Some 0%nat)
    by (vm_compute; reflexivity).
  assert (H5 : objects lecture !! 0%nat = Some lecture_object)
    by (vm_compute; reflexivity).
  assert (H6 : timer_task lecture_object = Some 0%nat) by reflexivity.
  assert (H7 : tasks lecture !! 0%nat = Some lecture_timer)
    by (vm_compute; reflexivity).
  assert (H8 : status lecture_timer = Sleeping) by reflexivity.
  destruct (overflow_cancels_the_running_timer iso_example youtube
              (calm (t0 + minutes 5)) "youtube.com" "10.0.0.2" (Some "laptop")
              (Some "/*") "watch a lecture" overlong lecture 0%nat
              lecture_object 0%nat lecture_timer H1 H2 H3 H4 H5 H6 H7 H8)
    as (Ha & _ & _ & _ & Hb & Hc).
  exact (conj H1 (conj H2 (conj H3 (conj H4 (conj H5 (conj H6 (conj H7
           (conj H8 (conj Ha (conj Hb Hc)))))))))).
Defined.

Lemma lecture_grant_frame :
  grant_youtube (calm t0) 15 init = (Returned true, lecture)
  ∧ length (objects lecture) = S (length (objects init))
  ∧ length (tasks lecture) = S (length (tasks init))
  ∧ ∀ k, k ∉ alias_class youtube "youtube.com" →
         active_unblocks lecture !! k = active_unblocks init !! k.
Proof.
  assert (H : grant_youtube (calm t0) 15 init = (Returned true, lecture))
    by (vm_compute; reflexivity).
  destruct (grant_leaves_other_domains_alone iso_example youtube (calm t0)
              "youtube.com" "10.0.0.2" (Some "laptop") (Some "/*")
              "watch a lecture" 15 init lecture H)
    as (Ha & _ & Hb & Hc & _).
  exact (conj H (conj Hb (conj Hc Ha))).
Defined.

Lemma lecture_record_kept :
  objects lecture !! 0%nat = Some lecture_object
  ∧ objects (run iso_example youtube (drop 1 evening_calls) lecture) !! 0%nat
    = Some lecture_object.
Proof.
  assert (H : objects lecture !! 0%nat = Some lecture_object)
    by (vm_compute; reflexivity).
  exact (conj H (grant_records_are_immutable iso_example youtube
                   (drop 1 evening_calls) lecture 0%nat lecture_object H)).
Defined.

Lemma lecture_timer_kept :
  tasks lecture !! 0%nat = Some lecture_timer
  ∧ ∃ b, tasks (run iso_example youtube (drop 1 evening_calls) lecture)
           !! 0%nat = Some b
         ∧ task_domains b = task_domains lecture_timer
         ∧ task_minutes b = task_minutes lecture_timer
         ∧ (status lecture_timer ≠ Sleeping → b = lecture_timer).
Proof.
  assert (H : tasks lecture !! 0%nat = Some lecture_timer)
    by (vm_compute; reflexivity).
  exact (conj H (timers_never_wake_again iso_example youtube
                   (drop 1 evening_calls) lecture 0%nat lecture_timer H)).
Defined.

Lemma lecture_unblocks_by_grant :
  is_domain_unblocked
    (step iso_example youtube init
       (Unblock (calm t0) "youtube.com" "10.0.0.2" (Some "laptop")
          (Some "/*") "watch a lecture" 15)) "www.youtube.com" = true
  ∧ (is_domain_unblocked init "www.youtube.com" = true
     ∨ ∃ w d ip nm sc rs dur,
         Unblock (calm t0) "youtube.com" "10.0.0.2" (Some "laptop")
           (Some "/*") "watch a lecture" 15
         = Unblock w d ip nm sc rs dur
         ∧ ((unblock_domain iso_example youtube w d ip nm sc rs dur init).1
            = Returned true
            ∨ (unblock_domain iso_example youtube w d ip nm sc rs dur init).1
              = Raised UnicodeDecodeError)
         ∧ (d ∉ always_blocked_domains youtube)
         ∧ d ∈ conditional_domains youtube
         ∧ "www.youtube.com" ∈ alias_class youtube d).
Proof.
  assert (H : is_domain_unblocked
                (step iso_example youtube init
                   (Unblock (calm t0) "youtube.com" "10.0.0.2" (Some "laptop")
                      (Some "/*") "watch a lecture" 15)) "www.youtube.com"
              = true) by (vm_compute; reflexivity).
  exact (conj H (only_a_grant_unblocks iso_example youtube init _ _ H)).
Defined.

Lemma revoke_before_any_grant :
  (∀ k, k ∈ alias_class youtube "youtube.com" →
        is_domain_unblocked init k = false)
  ∧ (reblock_domain iso_example youtube (garbled t0) "youtube.com" init).1
    = Raised UnicodeDecodeError
  ∧ active_unblocks (reblock_domain iso_example youtube (garbled t0)
                       "youtube.com" init).2 = active_unblocks init
  ∧ tasks (reblock_domain iso_example youtube (garbled t0) "youtube.com"
             init).2
    = tasks init.
Proof.
  assert (H : ∀ k, k ∈ alias_class youtube "youtube.com" →
                   is_domain_unblocked init k = false)
    by (intros k _; reflexivity).
  destruct (revoke_of_a_blocked_domain_only_syncs iso_example youtube
              (garbled t0) "youtube.com" init H) as (Hr & Ha & _ & Hb & _).
  exact (conj H (conj Hr (conj Ha Hb))).
Defined.

Lemma lecture_unblocks_configured_domains :
  reachable iso_example youtube lecture
  ∧ is_domain_unblocked lecture "www.youtube.com" = true
  ∧ "www.youtube.com" ∈ all_blocked_domains youtube.
Proof.
  assert (H : is_domain_unblocked lecture "www.youtube.com" = true)
    by (vm_compute; reflexivity).
  destruct (unblocked_domains_are_configured iso_example youtube lecture
              "www.youtube.com" lecture_reachable H) as [Ha _].
  exact (conj lecture_reachable (conj H Ha)).
Defined.

Lemma ads_stay_blocked_during_lecture :
  "ads.example.com" ∈ always_blocked_domains youtube
  ∧ (∀ d, d ∈ conditional_domains youtube →
          "ads.example.com" ∉ _get_related_domains youtube d)
  ∧ reachable iso_example youtube lecture
  ∧ is_domain_unblocked lecture "ads.example.com" = false.
Proof.
  assert (H1 : "ads.example.com" ∈ always_blocked_domains youtube)
    by compute_done.
  assert (H2 : ∀ d, d ∈ conditional_domains youtube →
                    "ads.example.com" ∉ _get_related_domains youtube d).
  { intros d Hd. unfold youtube in Hd. cbn in Hd.
    apply elem_of_union in Hd as [Hd|Hd];
      apply elem_of_singleton in Hd; subst d; compute_done. }
  destruct (always_blocked_stays_blocked iso_example youtube lecture
              (ReblockAll (calm t0)) "ads.example.com" H1 H2
              lecture_reachable) as [Ha _].
  exact (conj H1 (conj H2 (conj lecture_reachable Ha))).
Defined.

Lemma lecture_entry_has_object :
  reachable iso_example youtube lecture
  ∧ active_unblocks lecture !! "www.youtube.com" = Some 0%nat
  ∧ ∃ u,
      objects lecture !! 0%nat = Some u
      ∧ "www.youtube.com" ∈ alias_class youtube (domain u)
      ∧ domain u ∈ conditional_domains youtube
      ∧ (domain u ∉ always_blocked_domains youtube)
      ∧ (timer_task u = None
         ∨ ∃ t task,
             timer_task u = Some t
             ∧ tasks lecture !! t = Some task
             ∧ task_domains task = alias_class youtube (domain u)
             ∧ expires_at u
               = unblocked_at u + task_minutes task * 60 * 1000000).
Proof.
  assert (H : active_unblocks lecture !! "www.youtube.com" = Some 0%nat)
    by (vm_compute; reflexivity).
  exact (conj lecture_reachable
           (conj H (every_entry_has_its_object iso_example youtube
                      lecture "www.youtube.com" 0%nat lecture_reachable H))).
Defined.

Lemma lecture_status_list :
  reachable iso_example youtube lecture
  ∧ NoDup (get_active_unblocks lecture)
  ∧ (get_active_unblocks lecture = [] ↔ active_unblocks lecture = ∅).
Proof.
  destruct (status_list_covers_every_entry iso_example youtube lecture
              lecture_reachable)
    as (_ & Ha & Hb).
  exact (conj lecture_reachable (conj Ha Hb)).
Defined.

Lemma evening_classes_whole :
  no_www_chain youtube
  ∧ Forall (revokes_configured youtube) evening_calls
  ∧ "youtube.com" ∈ all_blocked_domains youtube
  ∧ "www.youtube.com" ∈ alias_class youtube "youtube.com"
  ∧ active_unblocks (run iso_example youtube evening_calls init)
      !! "www.youtube.com"
    = active_unblocks (run iso_example youtube evening_calls init)
        !! "youtube.com".
Proof.
  assert (H1 : "youtube.com" ∈ all_blocked_domains youtube) by compute_done.
  assert (H2 : "www.youtube.com" ∈ alias_class youtube "youtube.com")
    by compute_done.
  exact (conj youtube_no_www_chain
           (conj youtube_revokes_configured
              (conj H1 (conj H2
                 (alias_classes_stay_whole iso_example youtube evening_calls
                    "youtube.com" "www.youtube.com" youtube_no_www_chain
                    youtube_revokes_configured H1 H2))))).
Defined.

Lemma evening_timer_asleep :
  no_www_chain youtube
  ∧ Forall (revokes_configured youtube) evening_calls
  ∧ Forall (grants_representable youtube) evening_calls
  ∧ Forall decodes evening_calls
  ∧ is_domain_unblocked (run iso_example youtube evening_calls init)
      "youtube.com" = true
  ∧ ∃ r u t task,
      active_unblocks (run iso_example youtube evening_calls init)
        !! "youtube.com" = Some r
      ∧ objects (run iso_example youtube evening_calls init) !! r = Some u
      ∧ timer_task u = Some t
      ∧ tasks (run iso_example youtube evening_calls init) !! t = Some task
      ∧ status task = Sleeping
      ∧ "youtube.com" ∈ task_domains task.
Proof.
  assert (H : is_domain_unblocked (run iso_example youtube evening_calls init)
                "youtube.com" = true) by (vm_compute; reflexivity).
  exact (conj youtube_no_www_chain
           (conj youtube_revokes_configured
              (conj youtube_grants_representable
                 (conj evening_decodes
                    (conj H
                       (every_unblocked_domain_has_a_sleeping_timer
                          iso_example youtube evening_calls "youtube.com"
                          youtube_no_www_chain youtube_revokes_configured
                          youtube_grants_representable evening_decodes
                          H)))))).
Defined.

Lemma conditional_of_www_youtube :
  no_www_chain youtube
  ∧ "www.youtube.com" ∈ all_blocked_domains youtube
  ∧ domain_to_conditional youtube "www.youtube.com" = Some "www.youtube.com"
  ∧ "www.youtube.com" ∈ alias_class youtube "www.youtube.com".
Proof.
  assert (H1 : "www.youtube.com" ∈ all_blocked_domains youtube)
    by compute_done.
  assert (H2 : domain_to_conditional youtube "www.youtube.com"
               = Some "www.youtube.com") by (vm_compute; reflexivity).
  exact (conj youtube_no_www_chain
           (conj H1 (conj H2
              (domain_to_conditional_covers_request youtube "www.youtube.com"
                 "www.youtube.com" youtube_no_www_chain H1 H2)))).
Defined.


Lemma laptop_request_denied :
  request_access iso_example youtube extract_example devices_example ∅
    laptop_request denying lecture
  = (Returned (denied_response, [denied_row]), lecture)
  ∧ AccessResponse.approved denied_response = false
  ∧ active_unblocks lecture = active_unblocks lecture
  ∧ ∃ l, effects lecture = effects lecture ++ l ∧ Forall is_Log l.
Proof.
  assert (H1 : request_access iso_example youtube extract_example
                 devices_example ∅ laptop_request denying lecture
               = (Returned (denied_response, [denied_row]), lecture))
    by (vm_compute; reflexivity).
  assert (H2 : AccessResponse.approved denied_response = false)
    by reflexivity.
  destruct (denied_response_changes_nothing iso_example youtube
              extract_example devices_example ∅ laptop_request denying
              lecture denied_response [denied_row] lecture H1 H2)
    as (Ha & _ & _ & Hb).
  exact (conj H1 (conj H2 (conj Ha Hb))).
Defined.


Lemma garbled_grant_youtube :
  "youtube.com" ∈ conditional_domains youtube
  ∧ ("youtube.com" ∉ always_blocked_domains youtube)
  ∧ representable (now_init (garbled t0)) 15
  ∧ sync_raises (garbled t0) = true
  ∧ (grant_youtube (garbled t0) 15 init).1 = Raised UnicodeDecodeError
  ∧ (∀ m, m ∈ alias_class youtube "youtube.com" →
       active_unblocks (grant_youtube (garbled t0) 15 init).2 !! m
       = Some (length (objects init)))
  ∧ length (tasks (grant_youtube (garbled t0) 15 init).2)
    = length (tasks init).
Proof.
  assert (H1 : "youtube.com" ∈ conditional_domains youtube) by compute_done.
  assert (H2 : "youtube.com" ∉ always_blocked_domains youtube)
    by compute_done.
  assert (H3 : representable (now_init (garbled t0)) 15)
    by (unfold representable; compute_done).
  assert (H4 : sync_raises (garbled t0) = true) by reflexivity.
  destruct (undecodable_stderr_leaves_grant_without_timer iso_example youtube
              (garbled t0) "youtube.com" "10.0.0.2" (Some "laptop")
              (Some "/*") "watch a lecture" 15 init H1 H2 H3 H4)
    as (Ha & Hb & _ & Hc & _).
  exact (conj H1 (conj H2 (conj H3 (conj H4 (conj Ha (conj Hb Hc)))))).
Defined.

